(** * Gift rules: cart reconciliation, discount function and banner state

    A shallow embedding of

    - [app/services/applyGift.server.ts] (rule lookup, cart helpers and the
      reconciliation routine [applyGiftLogic]),
    - the route action of [POST /apps/embedded/app/gift/apply],
    - [extensions/gift-discount/src/cart_lines_discounts_generate_run.ts],
    - [calculateState] of [extensions/gifts/assets/gift-banner.js],

    together with the properties the specification states about them.

    Conventions.  An optional TypeScript field [f?: T] is an [option T]; a
    chain of optional accesses that the code only ever reads through [?.]
    ([node.cost?.totalAmount?.amount], [node.merchandise?.id],
    [cartData.lines?.edges]) is one [option] field; fields that no code
    reads (the cart's own id and cost, currency codes, the [field] of a user
    error) are left out.  JavaScript numbers are
    kept abstract behind the interface [JsNumber]; cart line quantities
    (GraphQL [Int]) are integers.  Remote calls are the constructors of
    [Call]; an [async] function is a tree of calls ([Remote]) that is run
    against an environment answering each call. *)

From Stdlib Require Import ZArith List String Ascii Bool Lia DecimalString.
Import ListNotations.
Open Scope string_scope.
Open Scope Z_scope.

(** ** JavaScript values *)

(** [s || d] on a possibly missing string: [undefined] and the empty string
    are both falsy. *)
Definition str_or (s : option string) (d : string) : string :=
  match s with
  | Some x => if String.eqb x "" then d else x
  | None => d
  end.

(** [!!s] on a possibly missing string. *)
Definition str_truthy (s : option string) : bool :=
  match s with
  | Some x => negb (String.eqb x "")
  | None => false
  end.

(** [a === b] where [a] may be [undefined] and [b] is a string. *)
Definition str_seq (a : option string) (b : string) : bool :=
  match a with
  | Some x => String.eqb x b
  | None => false
  end.

(** [a !== b] on two possibly missing strings. *)
Definition ostr_neq (a b : option string) : bool :=
  match a, b with
  | Some x, Some y => negb (String.eqb x y)
  | None, None => false
  | _, _ => true
  end.

(** [q || 0] on a possibly missing integer. *)
Definition int_or_zero (q : option Z) : Z :=
  match q with
  | Some x => x
  | None => 0
  end.

(** The operations on JavaScript numbers that the code uses, and the facts
    about them that the proofs rely on.  All of the laws hold of IEEE 754
    doubles; [DecNumber] below is a second model, used for concrete runs. *)
Class JsNumber : Type := {
  number : Type;
  parseFloat : string -> number;
  nzero : number;                       (* the literal 0 *)
  nadd : number -> number -> number;    (* a + b *)
  nsub : number -> number -> number;    (* a - b *)
  nmax : number -> number -> number;    (* Math.max(a, b) *)
  nlt : number -> number -> bool;       (* a < b *)
  nle : number -> number -> bool;       (* a <= b, that is b >= a *)
  ntruthy : number -> bool;             (* !!a : false on 0, -0 and NaN *)
  nisNaN : number -> bool;              (* isNaN(a) *)
  nfinite : number -> bool;             (* Number.isFinite(a) *)
  nshow : number -> string;             (* `${a}` *)
  nle_not_lt : forall a b, nle a b = true -> nlt b a = false;
  nle_zero_zero : nle nzero nzero = true;
  nisNaN_zero : nisNaN nzero = false;
  ntruthy_not_NaN : forall a, ntruthy a = true -> nisNaN a = false;
  nsub_le_zero : forall a b,
    nfinite a = true -> nfinite b = true -> nle a b = true ->
    nle (nsub a b) nzero = true;
  nmax_zero_le : forall a, nle a nzero = true -> nmax nzero a = nzero
}.

(** [a || 0] on a number. *)
Definition num_or_zero `{JsNumber} (a : number) : number :=
  if ntruthy a then a else nzero.

(** ** Cart data ([CartLineNode], [CartData]) *)

Record Attribute : Type := {
  key : option string;
  value : option string
}.

Record CartLineNode : Type := {
  id : option string;
  quantity : option Z;
  cost_totalAmount_amount : option string;   (* cost?.totalAmount?.amount *)
  merchandise_id : option string;            (* merchandise?.id *)
  attributes : option (list Attribute)
}.

Record CartEdge : Type := {
  node : option CartLineNode
}.

Record CartData : Type := {
  lines_edges : option (list CartEdge)       (* lines?.edges *)
}.

Record ApplyGiftResult : Type := {
  applied : bool;
  removed : option bool;
  reason : string
}.

Record GiftRule {JSN : JsNumber} : Type := {
  giftVariantId : string;
  minCartSubtotal : number;
  enableRule : bool
}.

Definition GIFT_ATTRIBUTE_KEY : string := "_is_gift".
Definition GIFT_ATTRIBUTE_VALUE : string := "true".

(** [cartLines?.edges || []] *)
Definition edges_of (cartLines : option (list CartEdge)) : list CartEdge :=
  match cartLines with
  | Some es => es
  | None => []
  end.

Definition isGiftItem (n : option CartLineNode) : bool :=
  match n with
  | None => false
  | Some nd =>
      let attrs := match attributes nd with Some l => l | None => [] end in
      existsb (fun attr => str_seq (key attr) GIFT_ATTRIBUTE_KEY
                           && str_seq (value attr) GIFT_ATTRIBUTE_VALUE) attrs
  end.

(** The [for] loop of [calculateSubtotalWithoutGifts], one iteration. *)
Definition subtotal_step `{JsNumber} (subtotal : number) (edge : CartEdge) : number :=
  match node edge with
  | None => subtotal
  | Some nd =>
      if isGiftItem (Some nd) then subtotal
      else nadd subtotal (parseFloat (str_or (cost_totalAmount_amount nd) "0"))
  end.

Definition calculateSubtotalWithoutGifts `{JsNumber}
    (cartLines : option (list CartEdge)) : number :=
  fold_left subtotal_step (edges_of cartLines) nzero.

(** [edge.node?.id] *)
Definition edge_id (e : CartEdge) : option string :=
  match node e with
  | Some nd => id nd
  | None => None
  end.

Definition findGiftLine (cartLines : option (list CartEdge)) : option CartLineNode :=
  match find (fun edge => isGiftItem (node edge)) (edges_of cartLines) with
  | Some giftEdge => node giftEdge
  | None => None
  end.

(** [.filter((id): id is string => !!id)] on the mapped ids. *)
Fixpoint truthy_ids (l : list (option string)) : list string :=
  match l with
  | [] => []
  | Some x :: r => if String.eqb x "" then truthy_ids r else x :: truthy_ids r
  | None :: r => truthy_ids r
  end.

Definition findGiftLineIds (cartLines : option (list CartEdge)) : list string :=
  truthy_ids
    (map edge_id
       (filter (fun edge => isGiftItem (node edge)) (edges_of cartLines))).

(** ** GraphQL responses *)

Record GraphQLError : Type := {
  message : option string
}.

Record UserError : Type := {
  ue_message : option string
}.

Record MutationPayload : Type := {
  userErrors : option (list UserError)
}.

(** [data] is an object read through [Object.keys]: its entries in key
    order; an entry may be [null].  The answer itself is a JSON object, as
    the type declares; [null], on which reading [errors] throws, is not
    among the answers. *)
Record GraphQLMutationResponse : Type := {
  m_data : option (list (string * option MutationPayload));
  m_errors : option (list GraphQLError)
}.

(** [GraphQLResponse<{cart?: CartData}>]; [q_cart] is [data?.cart].  The
    answer itself is a JSON object, as the type declares; [null], on which
    reading [errors] throws, is not among the answers. *)
Record CartQueryResponse : Type := {
  q_cart : option CartData;
  q_errors : option (list GraphQLError)
}.

(** [data?.currentAppInstallation], each field being [metafield?.value]. *)
Record AppInstallation : Type := {
  gift_variant_id : option string;
  min_cart_subtotal : option string;
  enable_rule : option string
}.

(** What a [throw] carries: the catch block of the route only tells an
    [Error] (with its message) from any other value. *)
Inductive Thrown : Type :=
| ErrorObject (msg : string)
| OtherValue.

(** A settled promise. *)
Inductive Outcome (R : Type) : Type :=
| Rejected (t : Thrown)
| Resolved (r : R).
Arguments Rejected {R} t.
Arguments Resolved {R} r.

(** The fetch [Response] of the Admin call: [ok], and what [json()] settles
    to ([data?.currentAppInstallation]). *)
Record AdminResponse : Type := {
  resp_ok : bool;
  resp_json : Outcome (option AppInstallation)
}.

Record CartLineInput : Type := {
  in_quantity : Z;
  in_merchandiseId : string;
  in_attributes : list (string * string)
}.

Record CartLineUpdateInput : Type := {
  up_id : string;
  up_quantity : Z
}.

(** ** Remote calls and asynchronous functions *)

(** The calls the code awaits, indexed by what they resolve to.  A
    Storefront call stands for [storefront.graphql(...)] followed by
    [.json()]: nothing runs between the two, and either may reject. *)
Inductive Call : Type -> Type :=
| GetAppGiftRulesMetafields : Call AdminResponse
| GetCart (cartGid : string) : Call CartQueryResponse
| CartLinesAdd (cartGid : string) (lines : list CartLineInput)
    : Call GraphQLMutationResponse
| CartLinesRemove (cartGid : string) (lineIds : list string)
    : Call GraphQLMutationResponse
| CartLinesUpdate (cartGid : string) (lines : list CartLineUpdateInput)
    : Call GraphQLMutationResponse
| UnauthenticatedStorefront (shop : string) : Call bool
| UnauthenticatedAdmin (shop : string) : Call bool.

(** An [async] function body: it returns, throws, or awaits a call and
    continues with the way the call settled. *)
Inductive Remote (A : Type) : Type :=
| Ret (a : A)
| Throw (t : Thrown)
| Await (R : Type) (c : Call R) (k : Outcome R -> Remote A).
Arguments Ret {A} a.
Arguments Throw {A} t.
Arguments Await {A R} c k.

Fixpoint bind {A B : Type} (m : Remote A) (f : A -> Remote B) : Remote B :=
  match m with
  | Ret a => f a
  | Throw t => Throw t
  | Await c k => Await c (fun o => bind (k o) f)
  end.

(** [await c]: a rejection is thrown on. *)
Definition await {R : Type} (c : Call R) : Remote R :=
  Await c (fun o => match o with
                    | Rejected t => Throw t
                    | Resolved r => Ret r
                    end).

(** [try { m } catch (error) { h error }] *)
Fixpoint try_catch {A : Type} (m : Remote A) (h : Thrown -> Remote A) : Remote A :=
  match m with
  | Ret a => Ret a
  | Throw t => h t
  | Await c k => Await c (fun o => try_catch (k o) h)
  end.

Declare Scope remote_scope.
Delimit Scope remote_scope with remote.
Notation "x <- m ;; k" := (bind m (fun x => k))
  (at level 61, m at next level, right associativity) : remote_scope.

(** One answered call of a run. *)
Inductive Event : Type :=
| Ev (R : Type) (c : Call R) (o : Outcome R).
Arguments Ev {R} c o.

(** An environment: a state and the way each call is answered in it. *)
Definition Handler (S : Type) : Type :=
  forall R : Type, Call R -> S -> Outcome R * S.

(** Running an asynchronous function: how it settles, the calls it made
    with their answers, in order, and the state it leaves. *)
Fixpoint run {A S : Type} (m : Remote A) (h : Handler S) (s : S)
  : Outcome A * list Event * S :=
  match m with
  | Ret a => (Resolved a, [], s)
  | Throw t => (Rejected t, [], s)
  | Await c k =>
      let '(o, s1) := h _ c s in
      let '(res, tr, s2) := run (k o) h s1 in
      (res, Ev c o :: tr, s2)
  end.

(** The mutations among the answered calls. *)
Inductive Mutation : Type :=
| MAdd (cartGid : string) (lines : list CartLineInput)
| MRemove (cartGid : string) (lineIds : list string)
| MUpdate (cartGid : string) (lines : list CartLineUpdateInput).

Definition mutation_of (e : Event) : option Mutation :=
  match e with
  | Ev c _ =>
      match c with
      | CartLinesAdd g l => Some (MAdd g l)
      | CartLinesRemove g l => Some (MRemove g l)
      | CartLinesUpdate g l => Some (MUpdate g l)
      | _ => None
      end
  end.

Fixpoint mutations (tr : list Event) : list Mutation :=
  match tr with
  | [] => []
  | e :: r =>
      match mutation_of e with
      | Some m => m :: mutations r
      | None => mutations r
      end
  end.

(** ** [applyGift.server.ts] *)

Section ApplyGift.

Context {JSN : JsNumber}.

Local Open Scope remote_scope.

(** [{ success: false; reason } | { success: true }] *)
Inductive OpResult : Type :=
| Failure (why : string)
| Success.

(** [{ success: false; reason } | { success: true; cart }] *)
Inductive CartResult : Type :=
| CartFailure (why : string)
| CartSuccess (cart : CartData).

(** The loop of [handleGraphQLErrors] over [Object.keys(response.data || {})]. *)
Fixpoint scanUserErrors (entries : list (string * option MutationPayload))
    (operation : string) : OpResult :=
  match entries with
  | [] => Success
  | (_, mutationResult) :: rest =>
      match mutationResult with
      | Some p =>
          match userErrors p with
          | Some (u :: _) => Failure (str_or (ue_message u) ("Failed to " ++ operation))
          | _ => scanUserErrors rest operation
          end
      | None => scanUserErrors rest operation
      end
  end.

Definition handleGraphQLErrors (response : GraphQLMutationResponse)
    (operation : string) : OpResult :=
  match m_errors response with
  | Some (e :: _) => Failure (str_or (message e) ("Failed to " ++ operation))
  | _ =>
      scanUserErrors (match m_data response with Some d => d | None => [] end)
                     operation
  end.

(** The part of [getGiftRules] after [response.json()]. *)
Definition ruleOfInstallation (appInstallation : option AppInstallation)
    : option GiftRule :=
  match appInstallation with
  | None => None
  | Some ai =>
      let giftVariantId := str_or (gift_variant_id ai) "" in
      let minCartSubtotalStr := str_or (min_cart_subtotal ai) "0" in
      let enableRule := str_seq (enable_rule ai) "true" in
      if String.eqb giftVariantId "" then None
      else Some {| giftVariantId := giftVariantId;
                   minCartSubtotal := num_or_zero (parseFloat minCartSubtotalStr);
                   enableRule := enableRule |}
  end.

Definition getGiftRules : Remote (option GiftRule) :=
  try_catch
    (response <- await GetAppGiftRulesMetafields ;;
     if negb (resp_ok response) then Ret None
     else match resp_json response with
          | Rejected t => Throw t
          | Resolved appInstallation => Ret (ruleOfInstallation appInstallation)
          end)
    (fun _ => Ret None).

Definition getCartData (cartGid : string) : Remote CartResult :=
  cartJson <- await (GetCart cartGid) ;;
  match q_errors cartJson with
  | Some (e :: _) => Ret (CartFailure (str_or (message e) "Failed to fetch cart"))
  | _ =>
      match q_cart cartJson with
      | None => Ret (CartFailure "Cart not found")
      | Some cartData => Ret (CartSuccess cartData)
      end
  end.

Definition removeGiftItems (cartGid : string) (giftLineIds : list string)
    : Remote OpResult :=
  match giftLineIds with
  | [] => Ret Success
  | _ =>
      removeGiftJson <- await (CartLinesRemove cartGid giftLineIds) ;;
      Ret (handleGraphQLErrors removeGiftJson "removing gift")
  end.

Definition updateGiftQuantity (cartGid : string) (giftLineId : string)
    : Remote OpResult :=
  updateQuantityJson <-
    await (CartLinesUpdate cartGid [ {| up_id := giftLineId; up_quantity := 1 |} ]) ;;
  Ret (handleGraphQLErrors updateQuantityJson "updating quantity").

(** The single line [addGiftItem] sends. *)
Definition giftLineInput (giftVariantId : string) : CartLineInput :=
  {| in_quantity := 1;
     in_merchandiseId := giftVariantId;
     in_attributes := [ (GIFT_ATTRIBUTE_KEY, GIFT_ATTRIBUTE_VALUE) ] |}.

Definition addGiftItem (cartGid : string) (giftVariantId : string)
    : Remote OpResult :=
  addGiftJson <- await (CartLinesAdd cartGid [ giftLineInput giftVariantId ]) ;;
  Ret (handleGraphQLErrors addGiftJson "adding gift").

Definition cartGidOf (cartId : string) : string :=
  if String.prefix "gid://" cartId then cartId
  else "gid://shopify/Cart/" ++ cartId.

(** [cartData.lines?.edges?.find(...)?.node] of [applyGiftLogic]. *)
Definition correctGiftLine (giftRules : GiftRule) (cartData : CartData)
    : option CartLineNode :=
  match lines_edges cartData with
  | None => None
  | Some edges =>
      match find (fun edge =>
                    match node edge with
                    | None => false
                    | Some nd =>
                        if negb (isGiftItem (Some nd)) then false
                        else str_seq (merchandise_id nd) (giftVariantId giftRules)
                    end) edges with
      | Some edge => node edge
      | None => None
      end
  end.

(** [giftLine?.id] *)
Definition line_id (giftLine : option CartLineNode) : option string :=
  match giftLine with
  | Some g => id g
  | None => None
  end.

Definition tooLowRemovedReason (subtotalAmount minSubtotal : number) : string :=
  "Cart subtotal (" ++ nshow subtotalAmount
    ++ ") is less than minimum required (" ++ nshow minSubtotal
    ++ "). Gift items have been removed.".

Definition tooLowReason (subtotalAmount minSubtotal : number) : string :=
  "Cart subtotal (" ++ nshow subtotalAmount
    ++ ") is less than minimum required (" ++ nshow minSubtotal ++ ")".

Definition notApplied (why : string) : ApplyGiftResult :=
  {| applied := false; removed := None; reason := why |}.

(** [applyGiftLogic], lines 482-494: add the gift variant. *)
Definition addGiftStep (giftRules : GiftRule) (cartGid : string)
    : Remote ApplyGiftResult :=
  addResult <- addGiftItem cartGid (giftVariantId giftRules) ;;
  match addResult with
  | Failure why => Ret (notApplied why)
  | Success =>
      Ret {| applied := true; removed := None;
             reason := "Gift applied successfully" |}
  end.

(** [applyGiftLogic], lines 453-494: what follows the removal of the
    other gift lines. *)
Definition quantityStep (giftRules : GiftRule) (cartGid : string)
    (giftLine : option CartLineNode) : Remote ApplyGiftResult :=
  match giftLine with
  | Some g =>
      if str_truthy (id g) then
        let giftQuantity := int_or_zero (quantity g) in
        if (1 <? giftQuantity) then
          (* [giftLine.id], a non-empty string in this branch *)
          updateResult <- updateGiftQuantity cartGid (str_or (id g) "") ;;
          match updateResult with
          | Failure why => Ret (notApplied why)
          | Success =>
              Ret {| applied := true; removed := None;
                     reason := "Gift quantity updated to 1" |}
          end
        else
          Ret (notApplied "Gift already added to cart with correct quantity")
      else addGiftStep giftRules cartGid
  | None => addGiftStep giftRules cartGid
  end.

(** [giftItemsToRemove] *)
Definition giftItemsToRemove (giftRules : GiftRule) (cartData : CartData)
    : list string :=
  filter (fun i => ostr_neq (Some i) (line_id (correctGiftLine giftRules cartData)))
         (findGiftLineIds (lines_edges cartData)).

(** [applyGiftLogic] from the cart snapshot on (lines 388-494): the steps
    after [getCartData] has succeeded. *)
Definition reconcile (giftRules : GiftRule) (cartGid : string)
    (cartData : CartData) : Remote ApplyGiftResult :=
  let subtotalAmount := calculateSubtotalWithoutGifts (lines_edges cartData) in
  let minSubtotal := minCartSubtotal giftRules in
  if nlt subtotalAmount minSubtotal then
    let giftLineIds := findGiftLineIds (lines_edges cartData) in
    if (0 <? Z.of_nat (List.length giftLineIds)) then
      removeResult <- removeGiftItems cartGid giftLineIds ;;
      match removeResult with
      | Failure why => Ret (notApplied why)
      | Success =>
          Ret {| applied := false; removed := Some true;
                 reason := tooLowRemovedReason subtotalAmount minSubtotal |}
      end
    else Ret (notApplied (tooLowReason subtotalAmount minSubtotal))
  else
    let giftLine := correctGiftLine giftRules cartData in
    let toRemove := giftItemsToRemove giftRules cartData in
    removeResult <-
      (if (0 <? Z.of_nat (List.length toRemove))
       then removeGiftItems cartGid toRemove
       else Ret Success) ;;
    match removeResult with
    | Failure why => Ret (notApplied why)
    | Success => quantityStep giftRules cartGid giftLine
    end.

Definition applyGiftLogic (cartId : string) : Remote ApplyGiftResult :=
  giftRules <- getGiftRules ;;
  match giftRules with
  | None => Ret (notApplied "Gift rules not configured")
  | Some giftRules =>
      if negb (enableRule giftRules) then Ret (notApplied "Gift rule is disabled")
      else
        let cartGid := cartGidOf cartId in
        cartResult <- getCartData cartGid ;;
        match cartResult with
        | CartFailure why => Ret (notApplied why)
        | CartSuccess cartData => reconcile giftRules cartGid cartData
        end
  end.

End ApplyGift.

(** ** The route action of [POST /apps/embedded/app/gift/apply] *)

Section Route.

Context {JSN : JsNumber}.

(** The kinds of JSON value, as zod names what it expected and what it
    received. *)
Inductive JsonKind : Type :=
| JsonNull | JsonBoolean | JsonNumber | JsonString | JsonArray | JsonObject.

(** Text that comes from outside the repository: the message zod gives for
    a value of the wrong type, which depends on the type expected and on
    the one received ([None] for [undefined], a missing property); and the
    message of the [TypeError] raised by reading a property of [null]. *)
Variable zodInvalidTypeMessage : JsonKind -> option JsonKind -> string.
Variable nullPropertyMessage : string.

Local Open Scope remote_scope.

(** The [cartId] property of the parsed body: missing, a string, or a
    value of another kind. *)
Inductive JsonField : Type :=
| FieldMissing
| FieldString (s : string)
| FieldOther (k : JsonKind).

(** A parsed JSON body: [null], a value of another kind that is no plain
    object (a boolean, a number, a string or an array), or an object. *)
Inductive Body : Type :=
| BodyNull
| BodyNonObject (k : JsonKind)
| BodyObject (cartId : JsonField).

Record ActionRequest : Type := {
  shop : option string;          (* url.searchParams.get('shop') *)
  json : Outcome Body            (* request.json() *)
}.

Record HttpResponse : Type := {
  status : Z;
  payload : ApplyGiftResult
}.

(** [{ success: false, error.issues[0]?.message } | { success: true, data }] *)
Inductive SafeParse : Type :=
| ParseFailure (firstIssue : option string)
| ParseSuccess (cartId : string).

(** [z.object({ cartId: z.string().min(1, 'Cart ID is required') }).safeParse] *)
Definition applyGiftSchema_safeParse (body : Body) : SafeParse :=
  match body with
  | BodyNull => ParseFailure (Some (zodInvalidTypeMessage JsonObject (Some JsonNull)))
  | BodyNonObject k => ParseFailure (Some (zodInvalidTypeMessage JsonObject (Some k)))
  | BodyObject FieldMissing => ParseFailure (Some (zodInvalidTypeMessage JsonString None))
  | BodyObject (FieldOther k) =>
      ParseFailure (Some (zodInvalidTypeMessage JsonString (Some k)))
  | BodyObject (FieldString s) =>
      if (1 <=? Z.of_nat (String.length s)) then ParseSuccess s
      else ParseFailure (Some "Cart ID is required")
  end.

(** [body.cartId], evaluated for the log line. *)
Definition readCartId (body : Body) : Remote unit :=
  match body with
  | BodyNull => Throw (ErrorObject nullPropertyMessage)
  | _ => Ret tt
  end.

Definition respond (code : Z) (why : string) : HttpResponse :=
  {| status := code; payload := notApplied why |}.

(** [result.applied || result.removed] *)
Definition appliedOrRemoved (result : ApplyGiftResult) : bool :=
  applied result || match removed result with Some b => b | None => false end.

Definition action (request : ActionRequest) : Remote HttpResponse :=
  try_catch
    (let shopDomain := shop request in
     if negb (str_truthy shopDomain) then Ret (respond 400 "Shop domain is required")
     else
       body <- match json request with
               | Rejected t => Throw t
               | Resolved b => Ret b
               end ;;
       _ <- readCartId body ;;
       match applyGiftSchema_safeParse body with
       | ParseFailure firstIssue =>
           Ret (respond 400 (str_or firstIssue "Invalid request data"))
       | ParseSuccess cartId =>
           storefront <- await (UnauthenticatedStorefront (str_or shopDomain "")) ;;
           admin <- await (UnauthenticatedAdmin (str_or shopDomain "")) ;;
           if negb storefront then Ret (respond 503 "Storefront API not available")
           else if negb admin then Ret (respond 503 "Admin API not available")
           else
             result <- applyGiftLogic cartId ;;
             let status := if appliedOrRemoved result then 200 else 400 in
             Ret {| status := status; payload := result |}
       end)
    (fun error =>
       Ret (respond 500 (match error with
                         | ErrorObject m => m
                         | OtherValue => "Internal server error"
                         end))).

End Route.

(** ** The discount function *)

Module Discount.

(** [DiscountClass] and [ProductDiscountSelectionStrategy] of the generated
    API of the discount function. *)
Inductive DiscountClass : Type := Order | Product | Shipping.

Inductive ProductDiscountSelectionStrategy : Type := All | First | Maximum.

Definition DiscountClass_eqb (a b : DiscountClass) : bool :=
  match a, b with
  | Order, Order | Product, Product | Shipping, Shipping => true
  | _, _ => false
  end.

Record Line : Type := {
  id : string;
  isGift_value : option string      (* isGift?.value *)
}.

(** [input.cart.lines] and [input.discount.discountClasses]. *)
Record CartInput : Type := {
  cart_lines : list Line;
  discount_discountClasses : list DiscountClass
}.

Record Candidate : Type := {
  message : string;
  targets : list string;            (* [{cartLine: {id}}] *)
  value_percentage_value : Z
}.

Record Operation : Type := {        (* {productDiscountsAdd: {...}} *)
  candidates : list Candidate;
  selectionStrategy : ProductDiscountSelectionStrategy
}.

Record CartLinesDiscountsGenerateRunResult : Type := {
  operations : list Operation
}.

Definition isGiftFlagged (line : Line) : bool :=
  str_seq (isGift_value line) "true".

Definition candidateFor (line : Line) : Candidate :=
  {| message := "Free gift item";
     targets := [ id line ];
     value_percentage_value := 100 |}.

Definition cartLinesDiscountsGenerateRun (input : CartInput)
    : CartLinesDiscountsGenerateRunResult :=
  if (Z.of_nat (List.length (cart_lines input)) =? 0) then {| operations := [] |}
  else
    let hasProductDiscountClass :=
      existsb (DiscountClass_eqb Product) (discount_discountClasses input) in
    if negb hasProductDiscountClass then {| operations := [] |}
    else
      let giftLines := filter isGiftFlagged (cart_lines input) in
      if (Z.of_nat (List.length giftLines) =? 0) then {| operations := [] |}
      else
        {| operations :=
             [ {| candidates := map candidateFor giftLines;
                  selectionStrategy := First |} ] |}.

End Discount.

(** ** The banner's derived state *)

Module Banner.

Section CalculateState.

Context {JSN : JsNumber}.

Record State : Type := {
  isEligible : bool;
  remainingCents : number
}.

(** [calculateState], with [this.minSubtotalCents] as an argument. *)
Definition calculateState (minSubtotalCents cartTotalCents : number) : State :=
  {| isEligible := nle minSubtotalCents cartTotalCents;
     remainingCents := nmax nzero (nsub minSubtotalCents cartTotalCents) |}.

End CalculateState.

End Banner.

(** ** A model of [JsNumber]: exact decimal arithmetic

    Numbers are [NaN], the two infinities and the finite decimals
    [m * 10^e].  [parseFloat] reads the longest prefix that is a
    [StrDecimalLiteral] (after leading ASCII white space); arithmetic is
    exact, so the rounding of doubles is not part of this model, and [-0]
    is [0].  [show] prints positional notation. *)

Module Dec.

Inductive dnum : Type :=
| NaN
| Inf (negative : bool)
| Fin (m e : Z).

Definition scale (m e base : Z) : Z := m * 10 ^ (e - base).

Definition fin_compare (m1 e1 m2 e2 : Z) : comparison :=
  let b := Z.min e1 e2 in
  Z.compare (scale m1 e1 b) (scale m2 e2 b).

Definition lt (a b : dnum) : bool :=
  match a, b with
  | NaN, _ | _, NaN => false
  | Inf true, Inf true => false
  | Inf true, _ => true
  | Inf false, _ => false
  | Fin _ _, Inf neg => negb neg
  | Fin m1 e1, Fin m2 e2 =>
      match fin_compare m1 e1 m2 e2 with Lt => true | _ => false end
  end.

Definition le (a b : dnum) : bool :=
  match a, b with
  | NaN, _ | _, NaN => false
  | Inf true, _ => true
  | Inf false, Inf false => true
  | Inf false, _ => false
  | Fin _ _, Inf neg => negb neg
  | Fin m1 e1, Fin m2 e2 =>
      match fin_compare m1 e1 m2 e2 with Gt => false | _ => true end
  end.

Definition add (a b : dnum) : dnum :=
  match a, b with
  | NaN, _ | _, NaN => NaN
  | Inf s, Inf t => if Bool.eqb s t then Inf s else NaN
  | Inf s, Fin _ _ => Inf s
  | Fin _ _, Inf t => Inf t
  | Fin m1 e1, Fin m2 e2 =>
      let b := Z.min e1 e2 in
      Fin (scale m1 e1 b + scale m2 e2 b) b
  end.

Definition neg (a : dnum) : dnum :=
  match a with
  | NaN => NaN
  | Inf s => Inf (negb s)
  | Fin m e => Fin (- m) e
  end.

Definition sub (a b : dnum) : dnum := add a (neg b).

Definition isNaN (a : dnum) : bool :=
  match a with NaN => true | _ => false end.

Definition max (a b : dnum) : dnum :=
  if isNaN a || isNaN b then NaN
  else if le b a then a else b.

Definition truthy (a : dnum) : bool :=
  match a with
  | NaN => false
  | Inf _ => true
  | Fin m _ => negb (m =? 0)
  end.

Definition finite (a : dnum) : bool :=
  match a with Fin _ _ => true | _ => false end.

Definition zero : dnum := Fin 0 0.

(** *** Reading a decimal literal *)

Definition is_space (c : ascii) : bool :=
  let n := nat_of_ascii c in
  (Nat.eqb n 32 || (Nat.leb 9 n && Nat.leb n 13))%bool.

Definition is_digit (c : ascii) : bool :=
  let n := nat_of_ascii c in (Nat.leb 48 n && Nat.leb n 57)%bool.

Definition digit_value (c : ascii) : Z := Z.of_nat (nat_of_ascii c - 48).

Fixpoint skip_spaces (s : string) : string :=
  match s with
  | String c r => if is_space c then skip_spaces r else s
  | EmptyString => s
  end.

(** The digits at the front of [s], accumulated onto [acc]: the value, how
    many digits were read, and what follows them. *)
Fixpoint take_digits (s : string) (acc : Z) (count : Z) : Z * Z * string :=
  match s with
  | String c r =>
      if is_digit c then take_digits r (10 * acc + digit_value c) (count + 1)
      else (acc, count, s)
  | EmptyString => (acc, count, s)
  end.

Definition take_sign (s : string) : bool * string :=
  match s with
  | String "-" r => (true, r)
  | String "+" r => (false, r)
  | _ => (false, s)
  end.

Definition take_exponent (s : string) : Z :=
  match s with
  | String c r =>
      if (Ascii.eqb c "e" || Ascii.eqb c "E")%bool then
        let '(eneg, r1) := take_sign r in
        let '(x, nx, _) := take_digits r1 0 0 in
        if nx =? 0 then 0 else if eneg then - x else x
      else 0
  | EmptyString => 0
  end.

Definition parse (s : string) : dnum :=
  let '(negative, s1) := take_sign (skip_spaces s) in
  if String.prefix "Infinity" s1 then Inf negative
  else
    let '(i, ni, s2) := take_digits s1 0 0 in
    let '(m, nf, s3) :=
      match s2 with
      | String "." r => take_digits r i 0
      | _ => (i, 0, s2)
      end in
    if ni + nf =? 0 then NaN
    else Fin (if negative then - m else m) (take_exponent s3 - nf).

(** *** Printing *)

Definition show_Z (z : Z) : string := NilZero.string_of_int (Z.to_int z).

(** Drops up to [fuel] trailing zero digits of a mantissa with a negative
    exponent. *)
Fixpoint trim (fuel : nat) (m e : Z) : Z * Z :=
  match fuel with
  | O => (m, e)
  | S k => if ((e <? 0) && (m mod 10 =? 0))%bool then trim k (m / 10) (e + 1)
           else (m, e)
  end.

Fixpoint zeros (n : nat) : string :=
  match n with
  | O => ""
  | S k => String "0" (zeros k)
  end.

Definition show (a : dnum) : string :=
  match a with
  | NaN => "NaN"
  | Inf false => "Infinity"
  | Inf true => "-Infinity"
  | Fin m e =>
      if m =? 0 then "0"
      else
        let '(m1, e1) := trim (Z.to_nat (- e)) m e in
        if 0 <=? e1 then show_Z (m1 * 10 ^ e1)
        else
          let d := 10 ^ (- e1) in
          let whole := Z.abs m1 / d in
          let frac := show_Z (Z.abs m1 mod d) in
          let sign := if m1 <? 0 then "-" else "" in
          let pad := zeros (Nat.sub (Z.to_nat (- e1)) (String.length frac)) in
          sign ++ show_Z whole ++ "." ++ pad ++ frac
  end.

#[export] Instance DecNumber : JsNumber.
Proof.
  refine {| number := dnum;
            parseFloat := parse;
            nzero := zero;
            nadd := add;
            nsub := sub;
            nmax := max;
            nlt := lt;
            nle := le;
            ntruthy := truthy;
            nisNaN := isNaN;
            nfinite := finite;
            nshow := show;
            nle_zero_zero := eq_refl;
            nisNaN_zero := eq_refl |}.
  - abstract
      (intros a b;
       destruct a as [|[|]|m1 e1], b as [|[|]|m2 e2]; simpl; try congruence;
       unfold fin_compare; rewrite (Z.min_comm e2 e1);
       rewrite (Z.compare_antisym (scale m1 e1 (Z.min e1 e2))
                                  (scale m2 e2 (Z.min e1 e2)));
       destruct (scale m1 e1 (Z.min e1 e2) ?= scale m2 e2 (Z.min e1 e2));
       simpl; congruence).
  - abstract (intros a; destruct a; simpl; congruence).
  - abstract
      (intros a b;
       destruct a as [| |m1 e1], b as [| |m2 e2]; simpl; try congruence;
       intros _ _; unfold fin_compare, scale;
       set (c := Z.min e1 e2);
       assert (Hp : 0 < 10 ^ (c - Z.min c 0)) by (apply Z.pow_pos_nonneg; lia);
       destruct (Z.compare_spec (m1 * 10 ^ (e1 - c)) (m2 * 10 ^ (e2 - c)));
       try congruence; intros _;
       destruct (Z.compare_spec
                   ((m1 * 10 ^ (e1 - c) + - m2 * 10 ^ (e2 - c)) * 10 ^ (c - Z.min c 0))
                   (0 * 10 ^ (0 - Z.min c 0))); try reflexivity; nia).
  - abstract
      (intros a H; unfold max; rewrite H;
       destruct a; simpl in *; try congruence; reflexivity).
Defined.

End Dec.

(** ** The platform the calls reach

    The shop's side of the calls, as the Storefront and Admin APIs document
    it: one cart, identified by its global id; [cartLinesRemove] drops the
    lines whose id is listed, the quantity update sets the quantity of the
    listed lines, [cartLinesAdd] appends a line with an id of the
    platform's choosing, and the cart query returns the first 250 lines.
    Every mutation of the known cart is carried out and answered without
    errors. *)

Record Platform : Type := {
  p_admin : Outcome AdminResponse;   (* how the metafields query settles *)
  p_cartGid : string;
  p_lines : list CartEdge;
  p_lineIds : nat -> string;         (* the ids given to added lines *)
  p_added : nat;                     (* how many lines were added so far *)
  p_amount : string -> string        (* the line total of a variant *)
}.

Definition with_lines (p : Platform) (ls : list CartEdge) : Platform :=
  {| p_admin := p_admin p; p_cartGid := p_cartGid p; p_lines := ls;
     p_lineIds := p_lineIds p; p_added := p_added p; p_amount := p_amount p |}.

Definition id_listed (ids : list string) (e : CartEdge) : bool :=
  match edge_id e with
  | Some i => existsb (String.eqb i) ids
  | None => false
  end.

Definition removeLines (ids : list string) (ls : list CartEdge) : list CartEdge :=
  filter (fun e => negb (id_listed ids e)) ls.

Definition withQuantity (nd : CartLineNode) (q : Z) : CartLineNode :=
  {| id := id nd;
     quantity := Some q;
     cost_totalAmount_amount := cost_totalAmount_amount nd;
     merchandise_id := merchandise_id nd;
     attributes := attributes nd |}.

Definition updateEdge (u : CartLineUpdateInput) (e : CartEdge) : CartEdge :=
  match node e with
  | Some nd =>
      if str_seq (id nd) (up_id u)
      then {| node := Some (withQuantity nd (up_quantity u)) |}
      else e
  | None => e
  end.

Definition updateLine (u : CartLineUpdateInput) (ls : list CartEdge) : list CartEdge :=
  map (updateEdge u) ls.

Definition newLine (newId amount : string) (l : CartLineInput) : CartEdge :=
  {| node := Some {| id := Some newId;
                     quantity := Some (in_quantity l);
                     cost_totalAmount_amount := Some amount;
                     merchandise_id := Some (in_merchandiseId l);
                     attributes :=
                       Some (map (fun kv => {| key := Some (fst kv);
                                               value := Some (snd kv) |})
                                 (in_attributes l)) |} |}.

Fixpoint addLines (p : Platform) (ls : list CartLineInput) : Platform :=
  match ls with
  | [] => p
  | l :: r =>
      addLines
        {| p_admin := p_admin p; p_cartGid := p_cartGid p;
           p_lines := p_lines p
                        ++ [ newLine (p_lineIds p (p_added p))
                                     (p_amount p (in_merchandiseId l)) l ];
           p_lineIds := p_lineIds p; p_added := S (p_added p);
           p_amount := p_amount p |} r
  end.

Definition mutationOk (name : string) : GraphQLMutationResponse :=
  {| m_data := Some [ (name, Some {| userErrors := Some [] |}) ];
     m_errors := None |}.

Definition unknownCart (name : string) : GraphQLMutationResponse :=
  {| m_data := Some [ (name, Some {| userErrors :=
         Some [ {| ue_message := Some "The specified cart does not exist." |} ] |}) ];
     m_errors := None |}.

Definition platform : Handler Platform :=
  fun R c =>
    match c in Call R return Platform -> Outcome R * Platform with
    | GetAppGiftRulesMetafields => fun p => (p_admin p, p)
    | GetCart gid => fun p =>
        (Resolved {| q_cart :=
                       if String.eqb gid (p_cartGid p)
                       then Some {| lines_edges := Some (firstn 250 (p_lines p)) |}
                       else None;
                     q_errors := None |}, p)
    | CartLinesAdd gid ls => fun p =>
        if String.eqb gid (p_cartGid p)
        then (Resolved (mutationOk "cartLinesAdd"), addLines p ls)
        else (Resolved (unknownCart "cartLinesAdd"), p)
    | CartLinesRemove gid ids => fun p =>
        if String.eqb gid (p_cartGid p)
        then (Resolved (mutationOk "cartLinesRemove"),
              with_lines p (removeLines ids (p_lines p)))
        else (Resolved (unknownCart "cartLinesRemove"), p)
    | CartLinesUpdate gid us => fun p =>
        if String.eqb gid (p_cartGid p)
        then (Resolved (mutationOk "cartLinesUpdate"),
              with_lines p (fold_left (fun ls u => updateLine u ls) us (p_lines p)))
        else (Resolved (unknownCart "cartLinesUpdate"), p)
    | UnauthenticatedStorefront _ => fun p => (Resolved true, p)
    | UnauthenticatedAdmin _ => fun p => (Resolved true, p)
    end.

(** Every line of the cart has a non-empty id, and no two lines share one
    (the Storefront schema's [id: ID!]). *)
Definition lines_have_ids (ls : list CartEdge) : Prop :=
  Forall (fun e => str_truthy (edge_id e) = true) ls /\ NoDup (map edge_id ls).

(** The gift lines of a cart, and the others. *)
Definition giftLines (ls : list CartEdge) : list CartEdge :=
  filter (fun e => isGiftItem (node e)) ls.

Definition paidLines (ls : list CartEdge) : list CartEdge :=
  filter (fun e => negb (isGiftItem (node e))) ls.

Section Readings.

Context {JSN : JsNumber}.

(** What [getGiftRules] makes of the way the Admin call settled. *)
Definition rulesOfOutcome (a : Outcome AdminResponse) : option GiftRule :=
  match a with
  | Rejected _ => None
  | Resolved response =>
      if negb (resp_ok response) then None
      else match resp_json response with
           | Rejected _ => None
           | Resolved appInstallation => ruleOfInstallation appInstallation
           end
  end.

(** The environment [h], from state [s0], serves the enabled rule
    [giftRules] and the cart snapshot [cartData] for [cartId], and is then
    in state [s2]. *)
Definition serves {S : Type} (h : Handler S) (s0 : S) (cartId : string)
    (giftRules : GiftRule) (cartData : CartData) (s2 : S) : Prop :=
  exists a s1 cartJson,
    h _ GetAppGiftRulesMetafields s0 = (a, s1) /\
    rulesOfOutcome a = Some giftRules /\
    enableRule giftRules = true /\
    h _ (GetCart (cartGidOf cartId)) s1 = (Resolved cartJson, s2) /\
    match q_errors cartJson with Some (_ :: _) => False | _ => True end /\
    q_cart cartJson = Some cartData.

(** The cart is eligible: its subtotal over the lines that are no gifts
    is at least the rule's minimum. *)
Definition eligible (giftRules : GiftRule) (cartData : CartData) : Prop :=
  nle (minCartSubtotal giftRules)
      (calculateSubtotalWithoutGifts (lines_edges cartData)) = true.

(** The state reconciliation aims at: no gift line below the minimum;
    otherwise a single gift line, of the rule's variant, with quantity 1. *)
Definition correct_state (giftRules : GiftRule) (ls : list CartEdge) : Prop :=
  if nlt (calculateSubtotalWithoutGifts (Some ls)) (minCartSubtotal giftRules)
  then giftLines ls = []
  else exists nd,
         giftLines ls = [ {| node := Some nd |} ] /\
         merchandise_id nd = Some (giftVariantId giftRules) /\
         quantity nd = Some 1.

(** The first reported error of a mutation response: the message of the
    first GraphQL error if there is one, else of the first user error of
    the first entry of [data] that has any. *)
Fixpoint firstUserError (entries : list (string * option MutationPayload))
    : option (option string) :=
  match entries with
  | [] => None
  | (_, Some {| userErrors := Some (u :: _) |}) :: _ => Some (ue_message u)
  | _ :: rest => firstUserError rest
  end.

Definition firstError (r : GraphQLMutationResponse) : option (option string) :=
  match m_errors r with
  | Some (e :: _) => Some (message e)
  | _ => firstUserError (match m_data r with Some d => d | None => [] end)
  end.

(** The response contains GraphQL-level errors or a non-empty [userErrors]
    list. *)
Definition hasErrors (r : GraphQLMutationResponse) : Prop :=
  (exists e es, m_errors r = Some (e :: es)) \/
  (exists k p u us,
     In (k, Some p) (match m_data r with Some d => d | None => [] end) /\
     userErrors p = Some (u :: us)).

(** The error an answered Storefront call reports, if any: its message
    (which may be missing) and the operation name the code gives the call. *)
Definition reportedError (e : Event) : option (option string * string) :=
  match e with
  | Ev c o =>
      match c in Call R return Outcome R -> option (option string * string) with
      | GetCart _ => fun o =>
          match o with
          | Resolved cartJson =>
              match q_errors cartJson with
              | Some (g :: _) => Some (message g, "Failed to fetch cart")
              | _ => None
              end
          | Rejected _ => None
          end
      | CartLinesAdd _ _ => fun o =>
          match o with
          | Resolved r => option_map (fun m => (m, "Failed to adding gift")) (firstError r)
          | Rejected _ => None
          end
      | CartLinesRemove _ _ => fun o =>
          match o with
          | Resolved r => option_map (fun m => (m, "Failed to removing gift")) (firstError r)
          | Rejected _ => None
          end
      | CartLinesUpdate _ _ => fun o =>
          match o with
          | Resolved r =>
              option_map (fun m => (m, "Failed to updating quantity")) (firstError r)
          | Rejected _ => None
          end
      | _ => fun _ => None
      end o
  end.

(** The edge [correctGiftLine] picks: the first gift line of the rule's
    variant. *)
Definition isCorrectGift (giftRules : GiftRule) (edge : CartEdge) : bool :=
  isGiftItem (node edge) && match node edge with
                            | Some nd => str_seq (merchandise_id nd) (giftVariantId giftRules)
                            | None => false
                            end.

(** How a mutation settled, as the code reads it. *)
Definition settled (operation : string) (o : Outcome GraphQLMutationResponse)
    : Outcome OpResult :=
  match o with
  | Rejected t => Rejected t
  | Resolved r => Resolved (handleGraphQLErrors r operation)
  end.

(** A run stops at a reported error: the call that reported one is the
    last call made, and the result is [applied: false] with the reported
    message, or the call's fallback text when the message is missing or
    empty. *)
Definition short_circuits (res : Outcome ApplyGiftResult) (tr : list Event) : Prop :=
  forall pre e post m fallback,
    tr = (pre ++ e :: post)%list ->
    reportedError e = Some (m, fallback) ->
    post = [] /\ res = Resolved (notApplied (str_or m fallback)).


End Readings.

(** Every line has an id, and so will every line the platform adds. *)
Definition ids_present (p : Platform) : Prop :=
  Forall (fun e => str_truthy (edge_id e) = true) (p_lines p) /\
  forall n, p_lineIds p n <> "".

(** [giftRuleSchema], the refinement of [minCartSubtotal] the settings form
    checks before a rule is stored: [!isNaN(num) && num >= 0] of a
    non-empty string. *)
Definition giftRuleSchema_minCartSubtotal `{JsNumber} (val : string) : bool :=
  (1 <=? Z.of_nat (String.length val))
  && (let num := parseFloat val in negb (nisNaN num) && nle nzero num).


(** ** Shapes of a run *)

(** The mutation sequences a run can issue on cart [gid] with gift variant
    [v]: nothing; one removal; one update to quantity 1; one addition of
    the gift line; or a removal followed by one of the latter two. *)
Definition setToOne (i : string) : list CartLineUpdateInput :=
  [ {| up_id := i; up_quantity := 1 |} ].

Definition reconcileShape (gid v : string) (ms : list Mutation) : Prop :=
  ms = []
  \/ (exists ids, ids <> [] /\ ms = [ MRemove gid ids ])
  \/ (exists i, ms = [ MUpdate gid (setToOne i) ])
  \/ ms = [ MAdd gid [ giftLineInput v ] ]
  \/ (exists ids i, ids <> [] /\ ms = [ MRemove gid ids; MUpdate gid (setToOne i) ])
  \/ (exists ids, ids <> [] /\ ms = [ MRemove gid ids; MAdd gid [ giftLineInput v ] ]).

(** The call of an event is a Storefront call: the cart query or a
    mutation. *)
Definition storefrontCall (e : Event) : Prop :=
  match e with
  | Ev c _ =>
      match c with
      | GetCart _ | CartLinesAdd _ _ | CartLinesRemove _ _ | CartLinesUpdate _ _ => True
      | _ => False
      end
  end.

(** The call of an event is a Storefront call (the cart query or a
    mutation) and it rejected with [t]. *)
Definition storefrontRejected (t : Thrown) (e : Event) : Prop :=
  match e with
  | Ev c o =>
      match c in Call R return Outcome R -> Prop with
      | GetCart _ => fun o => o = Rejected t
      | CartLinesAdd _ _ => fun o => o = Rejected t
      | CartLinesRemove _ _ => fun o => o = Rejected t
      | CartLinesUpdate _ _ => fun o => o = Rejected t
      | _ => fun _ => False
      end o
  end.

(** The call of an event is an addition or a quantity update and it was
    answered without any error. *)
Definition acceptedChange (e : Event) : Prop :=
  match e with
  | Ev c o =>
      match c in Call R return Outcome R -> Prop with
      | CartLinesAdd _ _ => fun o => exists r, o = Resolved r /\ firstError r = None
      | CartLinesUpdate _ _ => fun o => exists r, o = Resolved r /\ firstError r = None
      | _ => fun _ => False
      end o
  end.

(** What a result entails about the calls of its run: [applied] needs an
    accepted addition or update as the last call, and then there is no
    [removed] flag; a rejection is that of the last call, a Storefront
    call. *)
Definition resultFacts (res : Outcome ApplyGiftResult) (tr : list Event) : Prop :=
  (forall r, res = Resolved r -> applied r = true ->
     removed r = None /\ exists pre e, tr = (pre ++ [e])%list /\ acceptedChange e) /\
  (forall t, res = Rejected t ->
     exists pre e, tr = (pre ++ [e])%list /\ storefrontRejected t e).

(** ** [giftRule.server.ts] and the settings page [app.gift-rule.tsx] *)

Module GiftRuleService.

(** [GiftRuleConfig], which is also the output type of [giftRuleSchema]. *)
Record GiftRuleConfig : Type := {
  cfg_giftVariantId : string;
  cfg_minCartSubtotal : string;
  cfg_enableRule : bool
}.

(** [Record<string, string>]: the keys that were assigned, each with its
    value; an assignment to a key that is there replaces its value. *)
Definition StringRecord : Type := list (string * string).

Fixpoint record_set (r : StringRecord) (k v : string) : StringRecord :=
  match r with
  | [] => [ (k, v) ]
  | (k', v') :: rest =>
      if String.eqb k' k then (k, v) :: rest else (k', v') :: record_set rest k v
  end.

Fixpoint record_get (r : StringRecord) (k : string) : option string :=
  match r with
  | [] => None
  | (k', v') :: rest => if String.eqb k' k then Some v' else record_get rest k
  end.

(** [GiftRuleResult] *)
Record GiftRuleResult : Type := {
  success : bool;
  errors : option StringRecord
}.

Definition general (why : string) : GiftRuleResult :=
  {| success := false; errors := Some [ ("general", why) ] |}.

(** *** Validation *)

(** An element of [issue.path]: a property name or an array index. *)
Inductive PathKey : Type :=
| PathName (s : string)
| PathIndex (n : N).

Record ZodIssue : Type := {
  issue_path : list PathKey;
  issue_message : string
}.

(** [issue.path[0]] as a condition, and as a property key. *)
Definition path_truthy (k : PathKey) : bool :=
  match k with
  | PathName s => negb (String.eqb s "")
  | PathIndex n => negb (N.eqb n 0)
  end.

Definition path_key (k : PathKey) : string :=
  match k with
  | PathName s => s
  | PathIndex n => NilZero.string_of_uint (N.to_uint n)
  end.

Definition mapValidationErrors_step (errors : StringRecord) (issue : ZodIssue)
    : StringRecord :=
  match issue_path issue with
  | k :: _ =>
      if path_truthy k then record_set errors (path_key k) (issue_message issue)
      else errors
  | [] => errors
  end.

Definition mapValidationErrors (issues : list ZodIssue) : StringRecord :=
  fold_left mapValidationErrors_step issues [].

(** [rawData] of the page action: three strings. *)
Record RawData : Type := {
  raw_giftVariantId : string;
  raw_minCartSubtotal : string;
  raw_enableRule : string
}.

Inductive SafeParseResult : Type :=
| ParseError (issues : list ZodIssue)
| ParseOk (data : GiftRuleConfig).

Section Schema.

Context {JSN : JsNumber}.

(** The refinement of [minCartSubtotal]. *)
Definition minCartSubtotal_refine (val : string) : bool :=
  let num := parseFloat val in
  negb (nisNaN num) && nle nzero num.

Definition issueAt (field why : string) : ZodIssue :=
  {| issue_path := [ PathName field ]; issue_message := why |}.

(** [giftRuleSchema.safeParse] on three strings.  The fields are checked in
    the order of the schema and every failed check leaves its issue: a
    failed [min(1)] does not stop the refinement after it. *)
Definition giftRuleSchema_issues (raw : RawData) : list ZodIssue :=
  ((if (Z.of_nat (String.length (raw_giftVariantId raw)) <? 1)
    then [ issueAt "giftVariantId" "Gift variant ID is required" ] else [])
   ++ (if (Z.of_nat (String.length (raw_minCartSubtotal raw)) <? 1)
       then [ issueAt "minCartSubtotal" "Min cart subtotal is required" ] else [])
   ++ (if minCartSubtotal_refine (raw_minCartSubtotal raw) then []
       else [ issueAt "minCartSubtotal" "Min cart subtotal must be a number >= 0" ])
  )%list.

Definition giftRuleSchema_safeParse (raw : RawData) : SafeParseResult :=
  match giftRuleSchema_issues raw with
  | [] =>
      ParseOk {| cfg_giftVariantId := raw_giftVariantId raw;
                 cfg_minCartSubtotal := raw_minCartSubtotal raw;
                 cfg_enableRule := String.eqb (raw_enableRule raw) "on"
                                   || String.eqb (raw_enableRule raw) "true" |}
  | issues => ParseError issues
  end.

End Schema.

(** *** Admin calls *)

(** One entry of the [metafields] variable of [metafieldsSet]. *)
Record MetafieldsSetInput : Type := {
  mf_namespace : string;
  mf_key : string;
  mf_value : string;
  mf_type : string;
  mf_ownerId : string
}.

Record AutomaticAppDiscountInput : Type := {
  functionHandle : string;
  title : string;
  startsAt : string
}.

(** [json.data?.discountAutomaticAppCreate]: its [userErrors] and the
    [discountId] of its [automaticAppDiscount]. *)
Record AutomaticAppDiscount : Type := {
  discountId : option string
}.

Record DiscountCreatePayload : Type := {
  dc_userErrors : option (list UserError);
  dc_automaticAppDiscount : option AutomaticAppDiscount
}.

(** [formData.get] of the three fields of the form. *)
Record FormFields : Type := {
  form_giftVariantId : option string;
  form_minCartSubtotal : option string;
  form_enableRule : option string
}.

(** The calls awaited by the service and the page, indexed by what the
    code reads of their answer.  An Admin call stands for
    [admin.graphql(...)] followed by [response.json()]; nothing runs between
    the two and either may reject.
    - [AuthenticateAdmin]: [session?.shop] of [authenticate.admin(request)];
    - [RequestFormData]: [request.formData()];
    - [GetCurrentAppInstallation]: [json.data?.currentAppInstallation?.id];
    - [GetGiftRulesMetafields]: [json.data?.currentAppInstallation];
    - [MetafieldsSet]: [json.data?.metafieldsSet?.userErrors]. *)
Inductive AdminCall : Type -> Type :=
| AuthenticateAdmin : AdminCall (option string)
| RequestFormData : AdminCall FormFields
| GetCurrentAppInstallation : AdminCall (option string)
| GetGiftRulesMetafields : AdminCall (option AppInstallation)
| MetafieldsSet (metafields : list MetafieldsSetInput)
    : AdminCall (option (list UserError))
| DiscountAutomaticAppCreate (automaticAppDiscount : AutomaticAppDiscountInput)
    : AdminCall DiscountCreatePayload.

(** Asynchronous functions over these calls, as [Remote] is over the calls
    of the storefront route. *)
Inductive Admin (A : Type) : Type :=
| AReturn (a : A)
| AThrow (t : Thrown)
| AAwait (R : Type) (c : AdminCall R) (k : Outcome R -> Admin A).
Arguments AReturn {A} a.
Arguments AThrow {A} t.
Arguments AAwait {A R} c k.

Fixpoint abind {A B : Type} (m : Admin A) (f : A -> Admin B) : Admin B :=
  match m with
  | AReturn a => f a
  | AThrow t => AThrow t
  | AAwait c k => AAwait c (fun o => abind (k o) f)
  end.

Definition aawait {R : Type} (c : AdminCall R) : Admin R :=
  AAwait c (fun o => match o with
                     | Rejected t => AThrow t
                     | Resolved r => AReturn r
                     end).

Fixpoint atry_catch {A : Type} (m : Admin A) (h : Thrown -> Admin A) : Admin A :=
  match m with
  | AReturn a => AReturn a
  | AThrow t => h t
  | AAwait c k => AAwait c (fun o => atry_catch (k o) h)
  end.

Declare Scope admin_scope.
Delimit Scope admin_scope with admin.
Notation "x <- m ;; k" := (abind m (fun x => k))
  (at level 61, m at next level, right associativity) : admin_scope.

Inductive AdminEvent : Type :=
| AEv (R : Type) (c : AdminCall R) (o : Outcome R).
Arguments AEv {R} c o.

Definition AdminHandler (S : Type) : Type :=
  forall R : Type, AdminCall R -> S -> Outcome R * S.

Fixpoint arun {A S : Type} (m : Admin A) (h : AdminHandler S) (s : S)
  : Outcome A * list AdminEvent * S :=
  match m with
  | AReturn a => (Resolved a, [], s)
  | AThrow t => (Rejected t, [], s)
  | AAwait c k =>
      let '(o, s1) := h _ c s in
      let '(res, tr, s2) := arun (k o) h s1 in
      (res, AEv c o :: tr, s2)
  end.

(** *** The service *)

Local Open Scope admin_scope.

Definition getCurrentAppInstallationId : Admin (option string) :=
  installationId <- aawait GetCurrentAppInstallation ;;
  if negb (str_truthy installationId) then AReturn None
  else AReturn installationId.

Definition defaultConfig : GiftRuleConfig :=
  {| cfg_giftVariantId := "";
     cfg_minCartSubtotal := "0";
     cfg_enableRule := false |}.

Definition getGiftRuleConfig : Admin GiftRuleConfig :=
  atry_catch
    (appInstallation <- aawait GetGiftRulesMetafields ;;
     match appInstallation with
     | None => AReturn defaultConfig
     | Some ai =>
         AReturn {| cfg_giftVariantId := str_or (gift_variant_id ai) "";
                    cfg_minCartSubtotal := str_or (min_cart_subtotal ai) "0";
                    cfg_enableRule := str_seq (enable_rule ai) "true" |}
     end)
    (fun _ => AReturn defaultConfig).

Definition prepareGiftRuleMetafields (config : GiftRuleConfig)
    (appInstallationId : string) : list MetafieldsSetInput :=
  [ {| mf_namespace := "gift_rules";
       mf_key := "gift_variant_id";
       mf_value := cfg_giftVariantId config;
       mf_type := "single_line_text_field";
       mf_ownerId := appInstallationId |};
    {| mf_namespace := "gift_rules";
       mf_key := "min_cart_subtotal";
       mf_value := cfg_minCartSubtotal config;
       mf_type := "single_line_text_field";
       mf_ownerId := appInstallationId |};
    {| mf_namespace := "gift_rules";
       mf_key := "enable_rule";
       mf_value := if cfg_enableRule config then "true" else "false";
       mf_type := "single_line_text_field";
       mf_ownerId := appInstallationId |} ].

(** [{ success: boolean; errors?: string[] }]; a message may be missing
    from a user error. *)
Record MetafieldsResult : Type := {
  mr_success : bool;
  mr_errors : option (list (option string))
}.

(** [error instanceof Error ? error.message : fallback] *)
Definition messageOr (error : Thrown) (fallback : string) : string :=
  match error with
  | ErrorObject m => m
  | OtherValue => fallback
  end.

(** [userErrors || []] *)
Definition userErrors_or_nil (userErrors : option (list UserError)) : list UserError :=
  match userErrors with
  | Some l => l
  | None => []
  end.

Definition saveGiftRuleMetafields (config : GiftRuleConfig)
    (appInstallationId : string) : Admin MetafieldsResult :=
  let metafields := prepareGiftRuleMetafields config appInstallationId in
  atry_catch
    (answer <- aawait (MetafieldsSet metafields) ;;
     let userErrors := userErrors_or_nil answer in
     if (0 <? Z.of_nat (List.length userErrors))
     then AReturn {| mr_success := false;
                     mr_errors := Some (map ue_message userErrors) |}
     else AReturn {| mr_success := true; mr_errors := None |})
    (fun error =>
       AReturn {| mr_success := false;
                  mr_errors := Some [ Some (messageOr error "Failed to save metafields") ] |}).

(** [{ success: boolean; discountId?: string; errors?: string[] }] *)
Record DiscountResult : Type := {
  dr_success : bool;
  dr_discountId : option string;
  dr_errors : option (list (option string))
}.

(** [createAutomaticAppDiscount], with [new Date().toISOString()] as an
    argument. *)
Definition createAutomaticAppDiscount (currentDate : string) : Admin DiscountResult :=
  atry_catch
    (answer <- aawait (DiscountAutomaticAppCreate
                         {| functionHandle := "gift-discount";
                            title := "100% discount";
                            startsAt := currentDate |}) ;;
     let userErrors := userErrors_or_nil (dc_userErrors answer) in
     if (0 <? Z.of_nat (List.length userErrors))
     then AReturn {| dr_success := false; dr_discountId := None;
                     dr_errors := Some (map ue_message userErrors) |}
     else
       match dc_automaticAppDiscount answer with
       | Some discount =>
           AReturn {| dr_success := true; dr_discountId := discountId discount;
                      dr_errors := None |}
       | None =>
           AReturn {| dr_success := false; dr_discountId := None;
                      dr_errors := Some [ Some "No discount data returned" ] |}
       end)
    (fun error =>
       AReturn {| dr_success := false; dr_discountId := None;
                  dr_errors := Some [ Some (messageOr error "Failed to create discount") ] |}).

(** [errors.join(sep)]: a missing element is joined as the empty string. *)
Definition join (sep : string) (l : list (option string)) : string :=
  String.concat sep (map (fun m => match m with Some s => s | None => "" end) l).

Definition saveGiftRule (currentDate : string) (config : GiftRuleConfig)
    : Admin GiftRuleResult :=
  appInstallationId <- getCurrentAppInstallationId ;;
  if negb (str_truthy appInstallationId)
  then AReturn (general "Failed to get current app installation")
  else
    metafieldsResult <- saveGiftRuleMetafields config (str_or appInstallationId "") ;;
    if negb (mr_success metafieldsResult)
    then AReturn (general (str_or (option_map (join ", ") (mr_errors metafieldsResult))
                                  "Failed to save gift rule"))
    else
      discountResult <- createAutomaticAppDiscount currentDate ;;
      AReturn {| success := true; errors := None |}.

(** *** The page *)

Section Page.

Context {JSN : JsNumber}.

Definition loader : Admin GiftRuleConfig :=
  _ <- aawait AuthenticateAdmin ;;
  getGiftRuleConfig.

Definition rawDataOf (formData : FormFields) : RawData :=
  {| raw_giftVariantId := str_or (form_giftVariantId formData) "";
     raw_minCartSubtotal := str_or (form_minCartSubtotal formData) "";
     raw_enableRule := str_or (form_enableRule formData) "" |}.

(** The page action, with the date of [createAutomaticAppDiscount] as an
    argument. *)
Definition action (currentDate : string) : Admin GiftRuleResult :=
  shop <- aawait AuthenticateAdmin ;;
  if negb (str_truthy shop) then AReturn (general "Unable to get shop domain")
  else
    formData <- aawait RequestFormData ;;
    let rawData := rawDataOf formData in
    match giftRuleSchema_safeParse rawData with
    | ParseError issues =>
        AReturn {| success := false; errors := Some (mapValidationErrors issues) |}
    | ParseOk validatedData => saveGiftRule currentDate validatedData
    end.

End Page.

(** *** An Admin API that stores what it is sent *)

(** The metafields are kept by owner, namespace and key, the last value set
    first; [metafieldsSet] stores every entry and reports no error, the
    discount creation records the discount and returns an id for it. *)
Record AdminStore : Type := {
  a_shop : option string;                  (* the shop of the session *)
  a_form : FormFields;                     (* the submitted form *)
  a_installationId : option string;
  a_metafields : list (string * string * string * string);
  a_discounts : list AutomaticAppDiscountInput;
  a_discountIds : nat -> string
}.

Definition metafield (ms : list (string * string * string * string))
    (owner namespace key : string) : option string :=
  match find (fun m => match m with
                       | (o, n, k, _) =>
                           String.eqb o owner && String.eqb n namespace && String.eqb k key
                       end) ms with
  | Some (_, _, _, v) => Some v
  | None => None
  end.

Definition storeMetafields (ms : list (string * string * string * string))
    (inputs : list MetafieldsSetInput) : list (string * string * string * string) :=
  fold_left (fun acc m => (mf_ownerId m, mf_namespace m, mf_key m, mf_value m) :: acc)
            inputs ms.

(** [currentAppInstallation] of [GET_APP_GIFT_RULES_METAFIELDS_QUERY]: the
    values of the three metafields of namespace [gift_rules]. *)
Definition installationView (s : AdminStore) : option AppInstallation :=
  match a_installationId s with
  | Some i =>
      Some {| gift_variant_id := metafield (a_metafields s) i "gift_rules" "gift_variant_id";
              min_cart_subtotal := metafield (a_metafields s) i "gift_rules" "min_cart_subtotal";
              enable_rule := metafield (a_metafields s) i "gift_rules" "enable_rule" |}
  | None => None
  end.

Definition adminStore : AdminHandler AdminStore :=
  fun R c =>
    match c in AdminCall R return AdminStore -> Outcome R * AdminStore with
    | AuthenticateAdmin => fun s => (Resolved (a_shop s), s)
    | RequestFormData => fun s => (Resolved (a_form s), s)
    | GetCurrentAppInstallation => fun s => (Resolved (a_installationId s), s)
    | GetGiftRulesMetafields => fun s => (Resolved (installationView s), s)
    | MetafieldsSet inputs => fun s =>
        (Resolved (Some []),
         {| a_shop := a_shop s; a_form := a_form s;
            a_installationId := a_installationId s;
            a_metafields := storeMetafields (a_metafields s) inputs;
            a_discounts := a_discounts s; a_discountIds := a_discountIds s |})
    | DiscountAutomaticAppCreate d => fun s =>
        (Resolved {| dc_userErrors := Some [];
                     dc_automaticAppDiscount :=
                       Some {| discountId :=
                                 Some (a_discountIds s (List.length (a_discounts s))) |} |},
         {| a_shop := a_shop s; a_form := a_form s;
            a_installationId := a_installationId s;
            a_metafields := a_metafields s;
            a_discounts := (a_discounts s ++ [ d ])%list;
            a_discountIds := a_discountIds s |})
    end.

(** The same store seen through the storefront route's Admin handle: the
    answer to the metafields query of [getGiftRules]. *)
Definition adminAnswer (s : AdminStore) : Outcome AdminResponse :=
  Resolved {| resp_ok := true; resp_json := Resolved (installationView s) |}.

(** *** Readings of a run *)

(** The writes among the answered calls, in order. *)
Inductive AdminWrite : Type :=
| WMetafields (metafields : list MetafieldsSetInput)
| WDiscount (automaticAppDiscount : AutomaticAppDiscountInput).

Definition write_of (e : AdminEvent) : option AdminWrite :=
  match e with
  | AEv c _ =>
      match c with
      | MetafieldsSet ms => Some (WMetafields ms)
      | DiscountAutomaticAppCreate d => Some (WDiscount d)
      | _ => None
      end
  end.

Fixpoint writes (tr : list AdminEvent) : list AdminWrite :=
  match tr with
  | [] => []
  | e :: r =>
      match write_of e with
      | Some w => w :: writes r
      | None => writes r
      end
  end.

(** The discount [createAutomaticAppDiscount] asks for. *)
Definition giftDiscount (currentDate : string) : AutomaticAppDiscountInput :=
  {| functionHandle := "gift-discount";
     title := "100% discount";
     startsAt := currentDate |}.

(** A settled [metafieldsSet] that the service takes as saved: it resolved
    and reported no user error. *)
Definition accepted (o : Outcome (option (list UserError))) : Prop :=
  exists answer, o = Resolved answer /\ userErrors_or_nil answer = [].

(** What [saveGiftRuleMetafields] returns for a settled call. *)
Definition metafieldsResultOf (o : Outcome (option (list UserError)))
    : MetafieldsResult :=
  match o with
  | Rejected t =>
      {| mr_success := false;
         mr_errors := Some [ Some (messageOr t "Failed to save metafields") ] |}
  | Resolved answer =>
      match userErrors_or_nil answer with
      | [] => {| mr_success := true; mr_errors := None |}
      | l => {| mr_success := false; mr_errors := Some (map ue_message l) |}
      end
  end.



End GiftRuleService.

(** ** Checking ids by computation *)

(** No two elements of a list of optional ids are equal. *)
Definition same_id (a b : option string) : bool :=
  match a, b with
  | Some x, Some y => String.eqb x y
  | None, None => true
  | _, _ => false
  end.

Fixpoint distinct_ids (l : list (option string)) : bool :=
  match l with
  | [] => true
  | a :: r => negb (existsb (same_id a) r) && distinct_ids r
  end.

(** Every line has a non-empty id and no two lines share one, as a test. *)
Definition lines_have_idsb (ls : list CartEdge) : bool :=
  forallb (fun e => str_truthy (edge_id e)) ls && distinct_ids (map edge_id ls).
(** ** Concrete shops and carts, over the decimal model of numbers *)

Module Examples.

Definition paidLine (i amount : string) : CartEdge :=
  {| node := Some {| id := Some i;
                     quantity := Some 1;
                     cost_totalAmount_amount := Some amount;
                     merchandise_id := Some "gid://shopify/ProductVariant/100";
                     attributes := Some [] |} |}.

Definition giftLine (i variant : string) (q : option Z) : CartEdge :=
  {| node := Some {| id := Some i;
                     quantity := q;
                     cost_totalAmount_amount := Some "0.0";
                     merchandise_id := Some variant;
                     attributes :=
                       Some [ {| key := Some "_is_gift"; value := Some "true" |} ] |} |}.

(** The Admin answer for stored metafields. *)
Definition installation (variant minimum enabled : string) : Outcome AdminResponse :=
  Resolved {| resp_ok := true;
              resp_json :=
                Resolved (Some {| gift_variant_id := Some variant;
                                  min_cart_subtotal := Some minimum;
                                  enable_rule := Some enabled |}) |}.

Definition shopWith (admin : Outcome AdminResponse) (ls : list CartEdge) : Platform :=
  {| p_admin := admin;
     p_cartGid := "gid://shopify/Cart/c1";
     p_lines := ls;
     p_lineIds := fun n => "new-line-" ++ NilZero.string_of_uint (Nat.to_uint n);
     p_added := 0;
     p_amount := fun _ => "0.0" |}.

(** The rule of the specification's scenarios: variant V1, minimum 50. *)
Definition ruleV1 : Outcome AdminResponse := installation "V1" "50" "true".

Definition giftRuleV1 : GiftRule (JSN := Dec.DecNumber) :=
  @Build_GiftRule Dec.DecNumber "V1" (Dec.Fin 50 0) true.

(** A stored minimum below zero. *)
Definition negativeMinimum : Platform := shopWith (installation "V1" "-5" "true") [].

Definition twoGiftsOfThree : Discount.CartInput :=
  {| Discount.cart_lines :=
       [ {| Discount.id := "l1"; Discount.isGift_value := Some "true" |};
         {| Discount.id := "l2"; Discount.isGift_value := None |};
         {| Discount.id := "l3"; Discount.isGift_value := Some "true" |} ];
     Discount.discount_discountClasses := [ Discount.Order; Discount.Product ] |}.

(** The scenario carts of the specification, around the minimum of 50. *)
Definition eligibleNoGift : Platform :=
  shopWith ruleV1 [ paidLine "l1" "60.00" ].

Definition belowWithGift : Platform :=
  shopWith ruleV1 [ paidLine "l1" "40.00"; giftLine "g1" "V1" (Some 1) ].

(** An eligible cart whose gift line of the right variant has quantity 0. *)
Definition zeroQuantityGift : Platform :=
  shopWith ruleV1 [ paidLine "l1" "60.00"; giftLine "g1" "V1" (Some 0) ].

(** A platform that answers every [cartLinesRemove] with [answer] and
    leaves the cart as it is. *)
Definition refusingRemoval (answer : GraphQLMutationResponse) : Handler Platform :=
  fun R c =>
    match c in Call R0 return Platform -> Outcome R0 * Platform with
    | CartLinesRemove _ _ => fun p => (Resolved answer, p)
    | GetAppGiftRulesMetafields => platform _ GetAppGiftRulesMetafields
    | GetCart g => platform _ (GetCart g)
    | CartLinesAdd g ls => platform _ (CartLinesAdd g ls)
    | CartLinesUpdate g us => platform _ (CartLinesUpdate g us)
    | UnauthenticatedStorefront d => platform _ (UnauthenticatedStorefront d)
    | UnauthenticatedAdmin d => platform _ (UnauthenticatedAdmin d)
    end.

Definition userErrorAnswer (text : string) : GraphQLMutationResponse :=
  {| m_data := Some [ ("cartLinesRemove",
                       Some {| userErrors := Some [ {| ue_message := Some text |} ] |}) ];
     m_errors := None |}.



(** Reconciling the cart "c1", over decimal numbers. *)
Definition applyC1 : Remote ApplyGiftResult :=
  applyGiftLogic (JSN := Dec.DecNumber) "c1".

End Examples.


(** ** More carts, a failing Storefront, and a settings store *)

Module MoreExamples.
Import Examples.

(** An eligible cart whose gift line of the rule's variant has quantity 3. *)
Definition tripleGift : Platform :=
  shopWith ruleV1 [ paidLine "l1" "60.00"; giftLine "g1" "V1" (Some 3) ].


(** A platform whose cart query rejects. *)
Definition cartUnreachable : Handler Platform :=
  fun R c =>
    match c in Call R0 return Platform -> Outcome R0 * Platform with
    | GetCart _ => fun p => (Rejected (ErrorObject "fetch failed"), p)
    | GetAppGiftRulesMetafields => platform _ GetAppGiftRulesMetafields
    | CartLinesRemove g ids => platform _ (CartLinesRemove g ids)
    | CartLinesAdd g ls => platform _ (CartLinesAdd g ls)
    | CartLinesUpdate g us => platform _ (CartLinesUpdate g us)
    | UnauthenticatedStorefront d => platform _ (UnauthenticatedStorefront d)
    | UnauthenticatedAdmin d => platform _ (UnauthenticatedAdmin d)
    end.

(** The two gift lines of [twoGiftsOfThree] alone, with one more class. *)
Definition onlyGifts : Discount.CartInput :=
  {| Discount.cart_lines :=
       [ {| Discount.id := "l1"; Discount.isGift_value := Some "true" |};
         {| Discount.id := "l3"; Discount.isGift_value := Some "true" |} ];
     Discount.discount_discountClasses := [ Discount.Product; Discount.Shipping ] |}.

(** A request without a shop. *)
Definition noShopRequest : ActionRequest :=
  {| shop := None; json := Resolved (BodyObject (FieldString "c1")) |}.

(** The settings of a shop that has saved nothing yet, and the form that
    asks for variant V1 from 50 on. *)
Definition installationId : string := "gid://shopify/AppInstallation/1".

Definition form50 : GiftRuleService.FormFields :=
  {| GiftRuleService.form_giftVariantId := Some "V1";
     GiftRuleService.form_minCartSubtotal := Some "50";
     GiftRuleService.form_enableRule := Some "on" |}.

Definition freshStore : GiftRuleService.AdminStore :=
  {| GiftRuleService.a_shop := Some "gifts.myshopify.com";
     GiftRuleService.a_form := form50;
     GiftRuleService.a_installationId := Some installationId;
     GiftRuleService.a_metafields := [];
     GiftRuleService.a_discounts := [];
     GiftRuleService.a_discountIds :=
       fun n => "gid://shopify/DiscountAutomaticNode/"
                ++ NilZero.string_of_uint (Nat.to_uint n) |}.

Definition rule50 : GiftRuleService.GiftRuleConfig :=
  {| GiftRuleService.cfg_giftVariantId := "V1";
     GiftRuleService.cfg_minCartSubtotal := "50";
     GiftRuleService.cfg_enableRule := true |}.

Definition emptyForm : GiftRuleService.RawData :=
  {| GiftRuleService.raw_giftVariantId := "";
     GiftRuleService.raw_minCartSubtotal := "";
     GiftRuleService.raw_enableRule := "" |}.

Definition savingDate : string := "2025-01-01T00:00:00.000Z".

(** The store after [rule50] was saved, and a shop whose Admin handle
    reads it. *)
Definition savedStore : GiftRuleService.AdminStore :=
  snd (GiftRuleService.arun (GiftRuleService.saveGiftRule savingDate rule50)
         GiftRuleService.adminStore freshStore).

Definition savedShop : Platform :=
  shopWith (GiftRuleService.adminAnswer savedStore) [ paidLine "l1" "60.00" ].

End MoreExamples.

(** ** Carts at the edge of what the code handles *)

Module EdgeExamples.
Import Examples.

(** A gift line the Storefront answer gives no id for. *)
Definition giftWithoutId (variant : string) (q : option Z) : CartEdge :=
  {| node := Some {| id := None;
                     quantity := q;
                     cost_totalAmount_amount := Some "0.0";
                     merchandise_id := Some variant;
                     attributes :=
                       Some [ {| key := Some "_is_gift"; value := Some "true" |} ] |} |}.

(** [n] paid lines of the same amount, with the ids p0, p1, ... *)
Definition manyPaid (n : nat) (amount : string) : list CartEdge :=
  map (fun k => paidLine ("p" ++ NilZero.string_of_uint (Nat.to_uint k)) amount)
      (seq 0 n).

(** An eligible cart with a gift line of another variant that has no id. *)
Definition eligibleStrayGift : Platform :=
  shopWith ruleV1 [ paidLine "l1" "60.00"; giftWithoutId "V2" (Some 1) ].

(** An eligible cart of 251 lines, the last one being the gift. *)
Definition eligibleGiftLast : Platform :=
  shopWith ruleV1 (manyPaid 250 "1.00" ++ [ giftLine "g1" "V1" (Some 1) ])%list.

(** A cart below the minimum whose gift line has no id. *)
Definition belowGiftWithoutId : Platform :=
  shopWith ruleV1 [ paidLine "l1" "40.00"; giftWithoutId "V1" (Some 1) ].

(** A cart of 251 lines below the minimum, the last one being the gift. *)
Definition belowGiftLast : Platform :=
  shopWith ruleV1 (manyPaid 250 "0.10" ++ [ giftLine "g1" "V1" (Some 1) ])%list.

(** An eligible cart of 250 paid lines, and the same cart after one run. *)
Definition fullCart : Platform := shopWith ruleV1 (manyPaid 250 "1.00").

Definition fullCartOnce : Platform := snd (run applyC1 platform fullCart).



(** An eligible cart with a gift line of another variant before the gift
    line of the rule's variant, which has quantity 3. *)
Definition mixedGifts : Platform :=
  shopWith ruleV1 [ paidLine "l1" "60.00"; giftLine "g2" "V2" (Some 1);
                    giftLine "g1" "V1" (Some 3) ].

(** The variants of the gift lines of a cart, in order. *)
Definition giftVariants (p : Platform) : list (option string) :=
  map (fun e => match node e with
                | Some nd => merchandise_id nd
                | None => None
                end)
      (giftLines (p_lines p)).

End EdgeExamples.
(** * Properties *)

(** ** Running asynchronous functions *)

Lemma run_bind {A B S : Type} (m : Remote A) (f : A -> Remote B)
    (h : Handler S) (s : S) :
  run (bind m f) h s =
  match run m h s with
  | (Resolved a, tr, s1) =>
      let '(r, tr2, s2) := run (f a) h s1 in (r, (tr ++ tr2)%list, s2)
  | (Rejected t, tr, s1) => (Rejected t, tr, s1)
  end.
Proof.
  revert s. induction m as [a|t|R c k IH]; intros s; simpl.
  - destruct (run (f a) h s) as [[r tr2] s2]. reflexivity.
  - reflexivity.
  - destruct (h R c s) as [o s1]. rewrite IH.
    destruct (run (k o) h s1) as [[[t|a] tr] s2].
    + reflexivity.
    + destruct (run (f a) h s2) as [[r tr2] s3]. reflexivity.
Qed.

Lemma run_invariant {A S : Type} (I : S -> Prop) (h : Handler S) :
  (forall R (c : Call R) s, I s -> I (snd (h R c s))) ->
  forall (m : Remote A) s, I s -> I (snd (run m h s)).
Proof.
  intros Hh m. induction m as [a|t|R c k IH]; intros s Hs; simpl; auto.
  specialize (Hh R c s Hs). destruct (h R c s) as [o s1]. simpl in Hh.
  specialize (IH o s1 Hh). destruct (run (k o) h s1) as [[r tr] s2]. exact IH.
Qed.

Lemma mutations_app (a b : list Event) :
  mutations (a ++ b)%list = (mutations a ++ mutations b)%list.
Proof.
  induction a as [|e a IH]; simpl; [reflexivity|].
  destruct (mutation_of e); simpl; rewrite IH; reflexivity.
Qed.

(** ** The rule lookup *)

Section RuleLookup.

Context {JSN : JsNumber}.

Lemma run_getGiftRules {S : Type} (h : Handler S) (s : S) :
  run getGiftRules h s =
  (Resolved (rulesOfOutcome (fst (h _ GetAppGiftRulesMetafields s))),
   [ Ev GetAppGiftRulesMetafields (fst (h _ GetAppGiftRulesMetafields s)) ],
   snd (h _ GetAppGiftRulesMetafields s)).
Proof.
  unfold getGiftRules, await. simpl.
  destruct (h _ GetAppGiftRulesMetafields s) as [[t|response] s1]; simpl.
  - reflexivity.
  - destruct (resp_ok response); simpl; [|reflexivity].
    destruct (resp_json response); reflexivity.
Qed.

Lemma num_or_zero_not_NaN (a : number) : nisNaN (num_or_zero a) = false.
Proof.
  unfold num_or_zero. destruct (ntruthy a) eqn:E.
  - apply ntruthy_not_NaN; exact E.
  - apply nisNaN_zero.
Qed.

Lemma num_or_zero_nonneg (a : number) :
  nle nzero a = true -> nle nzero (num_or_zero a) = true.
Proof.
  unfold num_or_zero. destruct (ntruthy a); auto using nle_zero_zero.
Qed.

(** C8, as amended.  A rule returned by [getGiftRules] has a non-empty
    [giftVariantId] and a [minCartSubtotal] that is not NaN: it is the
    stored string read by [parseFloat], or 0 when that is NaN or 0.  It is
    at least 0 whenever the stored string passes the check of
    [giftRuleSchema]; nothing on the reading side rejects a negative one. *)
Theorem getGiftRules_configured_rule {S : Type} (h : Handler S) (s : S)
    (r : GiftRule) :
  fst (fst (run getGiftRules h s)) = Resolved (Some r) ->
  giftVariantId r <> "" /\
  nisNaN (minCartSubtotal r) = false /\
  exists ai,
    fst (h _ GetAppGiftRulesMetafields s)
      = Resolved {| resp_ok := true; resp_json := Resolved (Some ai) |} /\
    gift_variant_id ai = Some (giftVariantId r) /\
    minCartSubtotal r
      = num_or_zero (parseFloat (str_or (min_cart_subtotal ai) "0")) /\
    (giftRuleSchema_minCartSubtotal (str_or (min_cart_subtotal ai) "0") = true ->
     nle nzero (minCartSubtotal r) = true).
Proof.
  rewrite run_getGiftRules. simpl.
  destruct (fst (h _ GetAppGiftRulesMetafields s)) as [t|[ok js]]; simpl;
    [discriminate|].
  destruct ok; simpl; [|discriminate].
  destruct js as [t|[ai|]]; simpl; try discriminate.
  destruct (String.eqb (str_or (gift_variant_id ai) "") "") eqn:Ev; [discriminate|].
  intros H. injection H as <-. simpl.
  apply String.eqb_neq in Ev.
  repeat split.
  - exact Ev.
  - apply num_or_zero_not_NaN.
  - exists ai. repeat split.
    + destruct (gift_variant_id ai) as [v|]; simpl in *; [|congruence].
      destruct (String.eqb v ""); congruence.
    + unfold giftRuleSchema_minCartSubtotal. intros Hc.
      apply andb_prop in Hc as [_ Hc]. apply andb_prop in Hc as [_ Hc].
      apply num_or_zero_nonneg; exact Hc.
Qed.

End RuleLookup.

(** C8, witness: the stored minimum "50" passes the form's check and is
    read as 50. *)
Lemma getGiftRules_configured_rule_witness :
  giftVariantId Examples.giftRuleV1 <> "" /\
  nle (JsNumber := Dec.DecNumber) nzero (minCartSubtotal Examples.giftRuleV1) = true.
Proof.
  destruct (getGiftRules_configured_rule (JSN := Dec.DecNumber) platform
              (Examples.shopWith Examples.ruleV1 []) Examples.giftRuleV1
              eq_refl) as (Hv & _ & ai & Ha & _ & _ & Hmin).
  split; [exact Hv|].
  injection Ha as <-. apply Hmin. reflexivity.
Defined.

(** C8, as stated, fails: with the metafield [min_cart_subtotal] holding
    "-5", [getGiftRules] returns a rule whose minimum is -5. *)
Lemma getGiftRules_negative_minimum :
  fst (fst (run (getGiftRules (JSN := Dec.DecNumber)) platform Examples.negativeMinimum))
    = Resolved (Some (@Build_GiftRule Dec.DecNumber "V1" (Dec.Fin (-5) 0) true))
  /\ nle (JsNumber := Dec.DecNumber) nzero (Dec.Fin (-5) 0) = false.
Proof. split; reflexivity. Qed.

(** ** The discount function *)

Module DiscountFacts.
Import Discount.

Lemma existsb_Product (cs : list DiscountClass) :
  existsb (DiscountClass_eqb Product) cs = true <-> In Product cs.
Proof.
  rewrite existsb_exists. split.
  - intros [c [Hin Hc]]. destruct c; simpl in Hc; try discriminate. exact Hin.
  - intros Hin. exists Product. split; [exact Hin|reflexivity].
Qed.

Lemma length_zero_iff {A : Type} (l : list A) :
  (Z.of_nat (List.length l) =? 0) = true <-> l = [].
Proof.
  destruct l; simpl; split; intros H; try reflexivity; try discriminate.
Qed.

Lemma candidates_target_gifts (ls : list Line) :
  Forall2 (fun c line =>
             value_percentage_value c = 100 /\ targets c = [ id line ])
          (map candidateFor ls) ls.
Proof. induction ls; simpl; constructor; auto. Qed.

(** C5.  With no cart line, without the Product class, or with no line
    whose [isGift] value is "true", the result is [{operations: []}].
    Otherwise it is one operation with strategy First whose candidates
    are, in order, one per gift-flagged line: 100 percent, targeting that
    line's id and nothing else. *)
Theorem cartLinesDiscountsGenerateRun_spec (input : CartInput) :
  let flagged := filter (fun l => str_seq (isGift_value l) "true") (cart_lines input) in
  (cart_lines input = [] \/ ~ In Product (discount_discountClasses input)
     \/ flagged = [] ->
   cartLinesDiscountsGenerateRun input = {| operations := [] |})
  /\
  (cart_lines input <> [] -> In Product (discount_discountClasses input) ->
   flagged <> [] ->
   exists cs,
     cartLinesDiscountsGenerateRun input
       = {| operations := [ {| candidates := cs; selectionStrategy := First |} ] |}
     /\ List.length cs = List.length flagged
     /\ Forall2 (fun c line =>
                   value_percentage_value c = 100 /\ targets c = [ id line ])
                cs flagged
     /\ Forall (fun line => In line (cart_lines input)
                            /\ isGift_value line = Some "true") flagged).
Proof.
  intros flagged. unfold cartLinesDiscountsGenerateRun.
  fold (isGiftFlagged). change (filter isGiftFlagged (cart_lines input)) with flagged.
  split.
  - intros [H | [H | H]].
    + apply length_zero_iff in H. rewrite H. reflexivity.
    + destruct (Z.of_nat (List.length (cart_lines input)) =? 0); [reflexivity|].
      destruct (existsb (DiscountClass_eqb Product) (discount_discountClasses input))
        eqn:E; [|reflexivity].
      apply existsb_Product in E. contradiction.
    + destruct (Z.of_nat (List.length (cart_lines input)) =? 0); [reflexivity|].
      destruct (negb _); [reflexivity|].
      rewrite H. reflexivity.
  - intros Hl Hp Hf.
    destruct (Z.of_nat (List.length (cart_lines input)) =? 0) eqn:E0.
    { apply length_zero_iff in E0. contradiction. }
    apply existsb_Product in Hp. rewrite Hp. simpl.
    destruct (Z.of_nat (List.length flagged) =? 0) eqn:E1.
    { apply length_zero_iff in E1. contradiction. }
    exists (map candidateFor flagged). repeat split.
    + apply length_map.
    + apply candidates_target_gifts.
    + apply Forall_forall. intros line Hin. apply filter_In in Hin as [Hin Hg].
      split; [exact Hin|].
      unfold str_seq in Hg. destruct (isGift_value line) as [v|]; [|discriminate].
      apply String.eqb_eq in Hg. congruence.
Qed.

(** C5, witness: three lines, two of them flagged, Product class active. *)
Lemma cartLinesDiscountsGenerateRun_spec_witness :
  exists cs,
    cartLinesDiscountsGenerateRun Examples.twoGiftsOfThree
      = {| operations := [ {| candidates := cs; selectionStrategy := First |} ] |}
    /\ List.length cs = 2%nat.
Proof.
  destruct (proj2 (cartLinesDiscountsGenerateRun_spec Examples.twoGiftsOfThree))
    as (cs & Hrun & Hlen & _).
  - discriminate.
  - simpl. auto.
  - discriminate.
  - exists cs. split; [exact Hrun|exact Hlen].
Defined.

End DiscountFacts.

(** ** The banner's derived state *)

Module BannerFacts.
Import Banner.

(** C9, as amended.  [isEligible] is [cartTotalCents >= minSubtotalCents]
    and [remainingCents] is [Math.max(0, minSubtotalCents - cartTotalCents)];
    when both amounts are finite, [remainingCents] is 0 whenever
    [isEligible] is true. *)
Theorem calculateState_spec `{JSN : JsNumber} (minSubtotalCents cartTotalCents : number) :
  let st := calculateState minSubtotalCents cartTotalCents in
  isEligible st = nle minSubtotalCents cartTotalCents /\
  remainingCents st = nmax nzero (nsub minSubtotalCents cartTotalCents) /\
  (nfinite minSubtotalCents = true -> nfinite cartTotalCents = true ->
   isEligible st = true -> remainingCents st = nzero).
Proof.
  simpl. repeat split. intros Hm Hc He.
  apply nmax_zero_le. apply nsub_le_zero; assumption.
Qed.

(** C9, witness: a minimum of 5000 cents and a cart of 6000 cents. *)
Lemma calculateState_spec_witness :
  remainingCents (calculateState (JSN := Dec.DecNumber) (Dec.Fin 5000 0) (Dec.Fin 6000 0))
    = Dec.zero.
Proof.
  apply (calculateState_spec (JSN := Dec.DecNumber) (Dec.Fin 5000 0) (Dec.Fin 6000 0));
    reflexivity.
Defined.

(** C9, as stated, fails: with both amounts infinite the cart is eligible
    and the remaining amount is NaN, not 0. *)
Lemma calculateState_infinite :
  let st := calculateState (JSN := Dec.DecNumber)
              (parseFloat "Infinity") (parseFloat "Infinity") in
  isEligible st = true /\ remainingCents st = Dec.NaN /\ remainingCents st <> nzero.
Proof. repeat split. discriminate. Qed.

End BannerFacts.

(** ** Reconciliation against an arbitrary environment *)

Section Reconciliation.

Context {JSN : JsNumber}.
Context {S : Type}.
Variable h : Handler S.

Lemma handleGraphQLErrors_firstError (r : GraphQLMutationResponse) (operation : string) :
  handleGraphQLErrors r operation =
  match firstError r with
  | Some m => Failure (str_or m ("Failed to " ++ operation))
  | None => Success
  end.
Proof.
  unfold handleGraphQLErrors, firstError.
  destruct (m_errors r) as [[|e es]|]; try reflexivity;
    generalize (match m_data r with Some d => d | None => [] end);
    intros entries; induction entries as [|[k [[[[|u us]|]]|]] rest IH]; simpl; auto.
Qed.

Lemma run_removeGiftItems (gid : string) (ids : list string) (s : S) :
  run (removeGiftItems gid ids) h s =
  match ids with
  | [] => (Resolved Success, [], s)
  | _ =>
      (settled "removing gift" (fst (h _ (CartLinesRemove gid ids) s)),
       [ Ev (CartLinesRemove gid ids) (fst (h _ (CartLinesRemove gid ids) s)) ],
       snd (h _ (CartLinesRemove gid ids) s))
  end.
Proof.
  destruct ids as [|i ids]; [reflexivity|].
  unfold removeGiftItems, await. simpl.
  destruct (h _ (CartLinesRemove gid (i :: ids)) s) as [[t|r] s1]; reflexivity.
Qed.

Lemma run_removeStep (gid : string) (ids : list string) (s : S) :
  run (if 0 <? Z.of_nat (List.length ids) then removeGiftItems gid ids else Ret Success)
      h s
  = run (removeGiftItems gid ids) h s.
Proof. destruct ids; reflexivity. Qed.

Lemma run_updateGiftQuantity (gid lineId : string) (s : S) :
  let c := CartLinesUpdate gid [ {| up_id := lineId; up_quantity := 1 |} ] in
  run (updateGiftQuantity gid lineId) h s =
  (settled "updating quantity" (fst (h _ c s)), [ Ev c (fst (h _ c s)) ], snd (h _ c s)).
Proof.
  unfold updateGiftQuantity, await. simpl.
  destruct (h _ _ s) as [[t|r] s1]; reflexivity.
Qed.

Lemma run_addGiftItem (gid variant : string) (s : S) :
  let c := CartLinesAdd gid [ giftLineInput variant ] in
  run (addGiftItem gid variant) h s =
  (settled "adding gift" (fst (h _ c s)), [ Ev c (fst (h _ c s)) ], snd (h _ c s)).
Proof.
  unfold addGiftItem, await. simpl.
  destruct (h _ _ s) as [[t|r] s1]; reflexivity.
Qed.

Lemma run_getCartData (gid : string) (s : S) :
  run (getCartData gid) h s =
  (match fst (h _ (GetCart gid) s) with
   | Rejected t => Rejected t
   | Resolved cartJson =>
       Resolved
         match q_errors cartJson with
         | Some (e :: _) => CartFailure (str_or (message e) "Failed to fetch cart")
         | _ => match q_cart cartJson with
                | None => CartFailure "Cart not found"
                | Some cartData => CartSuccess cartData
                end
         end
   end,
   [ Ev (GetCart gid) (fst (h _ (GetCart gid) s)) ],
   snd (h _ (GetCart gid) s)).
Proof.
  unfold getCartData, await. simpl.
  destruct (h _ (GetCart gid) s) as [[t|cj] s1]; simpl; [reflexivity|].
  destruct (q_errors cj) as [[|e es]|]; try reflexivity;
    destruct (q_cart cj); reflexivity.
Qed.

(** The run of [applyGiftLogic] once rule and cart have been served. *)
Lemma run_applyGiftLogic_serves {s0 s2 : S} {cartId : string}
    {giftRules : GiftRule} {cartData : CartData} :
  serves h s0 cartId giftRules cartData s2 ->
  exists e1 e2,
    mutation_of e1 = None /\ mutation_of e2 = None /\
    reportedError e1 = None /\ reportedError e2 = None /\
    run (applyGiftLogic cartId) h s0 =
    let '(r, tr, s3) := run (reconcile giftRules (cartGidOf cartId) cartData) h s2 in
    (r, e1 :: e2 :: tr, s3).
Proof.
  intros (a & s1 & cj & Ha & Hr & He & Hc & Hq & Hcart).
  exists (Ev GetAppGiftRulesMetafields a), (Ev (GetCart (cartGidOf cartId)) (Resolved cj)).
  repeat split.
  - simpl. destruct (q_errors cj) as [[|]|]; try reflexivity. contradiction.
  - unfold applyGiftLogic. rewrite run_bind, run_getGiftRules, Ha.
    cbn [fst snd]. rewrite Hr. cbv iota beta. rewrite He. cbn [negb].
    rewrite run_bind, run_getCartData, Hc. cbn [fst snd].
    rewrite Hcart.
    destruct (q_errors cj) as [[|]|]; try contradiction;
      destruct (run (reconcile giftRules (cartGidOf cartId) cartData) h s2)
        as [[r tr] s3]; reflexivity.
Qed.


Lemma eligible_not_below {giftRules : GiftRule} {cartData : CartData} :
  eligible giftRules cartData ->
  nlt (calculateSubtotalWithoutGifts (lines_edges cartData))
      (minCartSubtotal giftRules) = false.
Proof. apply nle_not_lt. Qed.

Lemma no_gift_no_ids (ls : option (list CartEdge)) :
  giftLines (edges_of ls) = [] -> findGiftLineIds ls = [].
Proof. unfold findGiftLineIds, giftLines. intros ->. reflexivity. Qed.

Lemma correctGiftLine_find (giftRules : GiftRule) (cartData : CartData) :
  correctGiftLine giftRules cartData =
  match find (isCorrectGift giftRules) (edges_of (lines_edges cartData)) with
  | Some edge => node edge
  | None => None
  end.
Proof.
  unfold correctGiftLine, edges_of.
  destruct (lines_edges cartData) as [es|]; [|reflexivity].
  assert (E : forall edge,
             match node edge with
             | None => false
             | Some nd => if negb (isGiftItem (Some nd)) then false
                          else str_seq (merchandise_id nd) (giftVariantId giftRules)
             end = isCorrectGift giftRules edge).
  { intros [[nd|]]; unfold isCorrectGift; cbn [node]; [|reflexivity].
    destruct (isGiftItem (Some nd)); reflexivity. }
  induction es as [|e es IH]; simpl; [reflexivity|].
  rewrite E. destruct (isCorrectGift giftRules e); [reflexivity|exact IH].
Qed.

Lemma correctGiftLine_Some (giftRules : GiftRule) (cartData : CartData) (g : CartLineNode) :
  correctGiftLine giftRules cartData = Some g ->
  In {| node := Some g |} (edges_of (lines_edges cartData)) /\
  isGiftItem (Some g) = true /\
  merchandise_id g = Some (giftVariantId giftRules).
Proof.
  rewrite correctGiftLine_find.
  destruct (find _ _) as [[n]|] eqn:F; [|discriminate].
  simpl. intros ->. apply find_some in F as [Hin Hp].
  unfold isCorrectGift in Hp. simpl in Hp. apply andb_prop in Hp as [Hg Hm].
  repeat split; try assumption.
  unfold str_seq in Hm. destruct (merchandise_id g); [|discriminate].
  apply String.eqb_eq in Hm. congruence.
Qed.




(** *** Errors stop the run *)

Lemma sc_nil (res : Outcome ApplyGiftResult) : short_circuits res [].
Proof. intros [|x pre] e post m fb H; discriminate. Qed.

Lemma sc_cons_ok (res : Outcome ApplyGiftResult) (e : Event) (tr : list Event) :
  reportedError e = None -> short_circuits res tr -> short_circuits res (e :: tr).
Proof.
  intros Hn Htr [|x pre] e' post m fb H He.
  - simpl in H. injection H as <- _. congruence.
  - simpl in H. injection H as _ H. exact (Htr pre e' post m fb H He).
Qed.

Lemma sc_last (res : Outcome ApplyGiftResult) (e : Event) :
  (forall m fb, reportedError e = Some (m, fb) ->
                res = Resolved (notApplied (str_or m fb))) ->
  short_circuits res [e].
Proof.
  intros Hres [|x pre] e' post m fb H He.
  - simpl in H. injection H as <- <-. split; [reflexivity|]. apply Hres; exact He.
  - simpl in H. injection H as _ H. destruct pre; discriminate.
Qed.

(** A response has a first error exactly when it contains errors. *)
Lemma firstError_hasErrors (r : GraphQLMutationResponse) :
  hasErrors r <-> firstError r <> None.
Proof.
  unfold hasErrors, firstError.
  assert (Hu : forall entries,
             (exists k p u us, In (k, Some p) entries /\ userErrors p = Some (u :: us))
             <-> firstUserError entries <> None).
  { induction entries as [|[k [[[[|u us]|]]|]] rest IH]; simpl.
    - split; [intros (k & p & u & us & [] & _)|congruence].
    - rewrite <- IH. split; intros (k' & p & u & us & Hin & E).
      + destruct Hin as [Hin|Hin]; [|eauto 8].
        injection Hin as _ <-. discriminate E.
      + eauto 8.
    - split; [discriminate|]. intros _.
      exists k, {| userErrors := Some (u :: us) |}, u, us. auto.
    - rewrite <- IH. split; intros (k' & p & u & us & Hin & E).
      + destruct Hin as [Hin|Hin]; [|eauto 8].
        injection Hin as _ <-. discriminate E.
      + eauto 8.
    - rewrite <- IH. split; intros (k' & p & u & us & Hin & E).
      + destruct Hin as [Hin|Hin]; [discriminate Hin|eauto 8].
      + eauto 8. }
  destruct (m_errors r) as [[|e es]|].
  - rewrite <- Hu. split; [intros [(e & es & E)|H]|intros H]; try discriminate; auto.
  - split; [discriminate|]. intros _. left. eauto.
  - rewrite <- Hu. split; [intros [(e & es & E)|H]|intros H]; try discriminate; auto.
Qed.

(** A mutation's answer, read by the code and read as a reported error. *)
Lemma settled_reported (operation : string) (r : GraphQLMutationResponse) :
  (firstError r = None /\ handleGraphQLErrors r operation = Success) \/
  (exists m, firstError r = Some m /\
             handleGraphQLErrors r operation
               = Failure (str_or m ("Failed to " ++ operation))).
Proof.
  rewrite handleGraphQLErrors_firstError.
  destruct (firstError r) as [m|]; [right; exists m|left]; split; reflexivity.
Qed.

Ltac answer_cases c s :=
  let t := fresh "t" in
  let r := fresh "r" in
  let s1 := fresh "s" in
  let m := fresh "m" in
  let Hf := fresh "Hf" in
  let Hh := fresh "Hh" in
  destruct (h _ c s) as [[t|r] s1];
  [ | cbn [fst snd settled];
      match goal with
      | |- context [handleGraphQLErrors r ?op] =>
          destruct (settled_reported op r) as [[Hf Hh]|[m [Hf Hh]]]; rewrite Hh
      end ].

Ltac close_sc :=
  repeat first
    [ apply sc_nil
    | apply sc_cons_ok; [cbn; try match goal with H : firstError _ = _ |- _ => rewrite H end; reflexivity|]
    | apply sc_last; cbn;
      try match goal with H : firstError _ = _ |- _ => rewrite H end;
      cbn; intros ? ? ?; congruence ].

Ltac at_state tac :=
  match goal with
  | |- context [run _ h ?x] => tac x
  end.

Lemma addGiftStep_short_circuits (giftRules : GiftRule) (gid : string) (s : S) :
  short_circuits (fst (fst (run (addGiftStep giftRules gid) h s)))
                 (snd (fst (run (addGiftStep giftRules gid) h s))).
Proof.
  unfold addGiftStep. rewrite run_bind, run_addGiftItem.
  answer_cases (CartLinesAdd gid [giftLineInput (giftVariantId giftRules)]) s;
    cbn; close_sc.
Qed.

Lemma quantityStep_short_circuits (giftRules : GiftRule) (gid : string)
    (giftLine : option CartLineNode) (s : S) :
  short_circuits (fst (fst (run (quantityStep giftRules gid giftLine) h s)))
                 (snd (fst (run (quantityStep giftRules gid giftLine) h s))).
Proof.
  unfold quantityStep.
  destruct giftLine as [g|]; [|apply addGiftStep_short_circuits].
  destruct (str_truthy (id g)); [|apply addGiftStep_short_circuits].
  destruct (1 <? int_or_zero (quantity g)); [|apply sc_nil].
  rewrite run_bind, run_updateGiftQuantity.
  answer_cases (CartLinesUpdate gid [ {| up_id := str_or (id g) ""; up_quantity := 1 |} ]) s;
    cbn; close_sc.
Qed.

Lemma reconcile_short_circuits (giftRules : GiftRule) (gid : string)
    (cartData : CartData) (s : S) :
  short_circuits (fst (fst (run (reconcile giftRules gid cartData) h s)))
                 (snd (fst (run (reconcile giftRules gid cartData) h s))).
Proof.
  unfold reconcile.
  destruct (nlt _ _).
  - destruct (findGiftLineIds (lines_edges cartData)) as [|i ids];
      cbn [List.length Z.of_nat Z.ltb Z.compare]; [apply sc_nil|].
    rewrite run_bind, run_removeGiftItems.
    answer_cases (CartLinesRemove gid (i :: ids)) s; cbn; close_sc.
  - rewrite run_bind, run_removeStep, run_removeGiftItems.
    destruct (giftItemsToRemove giftRules cartData) as [|i ids].
    + cbn [fst snd].
      pose proof (quantityStep_short_circuits giftRules gid
                    (correctGiftLine giftRules cartData) s) as Hq.
      destruct (run _ h s) as [[res tr] s3]. exact Hq.
    + answer_cases (CartLinesRemove gid (i :: ids)) s; cbn [fst snd settled].
      * cbn. close_sc.
      * at_state ltac:(fun x =>
          pose proof (quantityStep_short_circuits giftRules gid
                        (correctGiftLine giftRules cartData) x) as Hq;
          destruct (run (quantityStep giftRules gid
                           (correctGiftLine giftRules cartData)) h x)
            as [[res tr] s3]).
        cbn in *. close_sc. exact Hq.
      * cbn. close_sc.
Qed.

(** Either no mutation is issued, or an enabled rule and a cart were
    served and [reconcile] ran on them. *)
Lemma run_applyGiftLogic_cases (s : S) (cartId : string) :
  (mutations (snd (fst (run (applyGiftLogic cartId) h s))) = [] /\
   short_circuits (fst (fst (run (applyGiftLogic cartId) h s)))
                  (snd (fst (run (applyGiftLogic cartId) h s))))
  \/ exists giftRules cartData s2, serves h s cartId giftRules cartData s2.
Proof.
  destruct (h _ GetAppGiftRulesMetafields s) as [a s1] eqn:Ha.
  destruct (rulesOfOutcome a) as [giftRules|] eqn:Hr.
  2:{ left. unfold applyGiftLogic. rewrite run_bind, run_getGiftRules, Ha.
      cbn [fst snd]. rewrite Hr. cbn. split; [reflexivity|close_sc]. }
  destruct (enableRule giftRules) eqn:He.
  2:{ left. unfold applyGiftLogic. rewrite run_bind, run_getGiftRules, Ha.
      cbn [fst snd]. rewrite Hr. cbv iota beta. rewrite He.
      cbn. split; [reflexivity|close_sc]. }
  destruct (h _ (GetCart (cartGidOf cartId)) s1) as [[t|cj] s2] eqn:Hc.
  { left. unfold applyGiftLogic. rewrite run_bind, run_getGiftRules, Ha.
    cbn [fst snd]. rewrite Hr. cbv iota beta. rewrite He. cbn [negb].
    rewrite run_bind, run_getCartData, Hc. cbn. split; [reflexivity|close_sc]. }
  destruct (q_errors cj) as [[|g gs]|] eqn:Hq;
    [ destruct (q_cart cj) as [cartData|] eqn:Hcart
    | | destruct (q_cart cj) as [cartData|] eqn:Hcart ];
    try (right; exists giftRules, cartData, s2, a, s1, cj; rewrite Hq;
         repeat split; assumption);
    left; unfold applyGiftLogic; rewrite run_bind, run_getGiftRules, Ha;
    cbn [fst snd]; rewrite Hr; cbv iota beta; rewrite He; cbn [negb];
    rewrite run_bind, run_getCartData, Hc; cbn [fst snd]; rewrite Hq;
    try rewrite Hcart; cbn; (split; [reflexivity|]).
  - apply sc_cons_ok; [reflexivity|]. apply sc_cons_ok; [cbn; rewrite Hq; reflexivity|].
    apply sc_nil.
  - apply sc_cons_ok; [reflexivity|]. apply sc_last. cbn. rewrite Hq.
    intros m fb E. injection E as <- <-. reflexivity.
  - apply sc_cons_ok; [reflexivity|]. apply sc_cons_ok; [cbn; rewrite Hq; reflexivity|].
    apply sc_nil.
Qed.

(** C6, as amended.  When the answer to a Storefront call (the cart query
    or a mutation) reports a GraphQL error or a user error, that call is
    the last one of the run, so nothing is issued after it and nothing is
    rolled back, and the result is [applied: false] whose reason is the
    first reported message, or the call's fallback text ("Failed to ...")
    when that message is missing or empty. *)
Theorem applyGiftLogic_stops_at_reported_error (s : S) (cartId : string)
    (pre post : list Event) (e : Event) (m : option string) (fallback : string) :
  snd (fst (run (applyGiftLogic cartId) h s)) = (pre ++ e :: post)%list ->
  reportedError e = Some (m, fallback) ->
  post = [] /\
  fst (fst (run (applyGiftLogic cartId) h s))
    = Resolved {| applied := false; removed := None; reason := str_or m fallback |}.
Proof.
  destruct (run_applyGiftLogic_cases s cartId) as [[_ Hsc]|(giftRules & cartData & s2 & Hs)].
  - apply Hsc.
  - destruct (run_applyGiftLogic_serves Hs) as (e1 & e2 & _ & _ & R1 & R2 & Hrun).
    rewrite Hrun.
    pose proof (reconcile_short_circuits giftRules (cartGidOf cartId) cartData s2) as Hsc.
    destruct (run (reconcile giftRules (cartGidOf cartId) cartData) h s2)
      as [[res tr] s3].
    cbn [fst snd] in *.
    exact (sc_cons_ok res e1 (e2 :: tr) R1 (sc_cons_ok res e2 tr R2 Hsc) pre e post m fallback).
Qed.

(** *** The quantity update *)





End Reconciliation.

(** ** Reconciliation against the platform *)

Section OnPlatform.

Context {JSN : JsNumber}.

Lemma filter_none {A : Type} (f : A -> bool) (l : list A) :
  (forall x, In x l -> f x = false) -> filter f l = [].
Proof.
  induction l as [|a l IH]; intros H; simpl; [reflexivity|].
  rewrite (H a (or_introl eq_refl)). apply IH. intros x Hx. apply H. right; exact Hx.
Qed.

Lemma filter_only {A : Type} (f : A -> bool) (l : list A) (x : A) :
  NoDup l -> In x l -> f x = true ->
  (forall y, In y l -> f y = true -> y = x) ->
  filter f l = [x].
Proof.
  induction l as [|a l IH]; intros Hnd Hin Hfx Huniq; [destruct Hin|].
  inversion Hnd as [|? ? Hna Hnd']; subst. simpl.
  destruct Hin as [->|Hin].
  - rewrite Hfx. f_equal. apply filter_none. intros y Hy.
    destruct (f y) eqn:Efy; [|reflexivity].
    assert (y = x) by (apply Huniq; [right; exact Hy|exact Efy]).
    subst. contradiction.
  - destruct (f a) eqn:Efa.
    + assert (a = x) by (apply Huniq; [left; reflexivity|exact Efa]).
      subst. contradiction.
    + apply IH; auto. intros y Hy. apply Huniq. right; exact Hy.
Qed.

Lemma map_injective_on {A B : Type} (f : A -> B) (l : list A) (x y : A) :
  NoDup (map f l) -> In x l -> In y l -> f x = f y -> x = y.
Proof.
  induction l as [|a l IH]; intros Hnd Hx Hy Hf; [destruct Hx|].
  simpl in Hnd. inversion Hnd as [|? ? Hna Hnd']; subst.
  destruct Hx as [->|Hx], Hy as [->|Hy]; auto.
  - exfalso. apply Hna. rewrite Hf. apply in_map; exact Hy.
  - exfalso. apply Hna. rewrite <- Hf. apply in_map; exact Hx.
Qed.

Lemma truthy_ids_In (i : string) (l : list (option string)) :
  In i (truthy_ids l) <-> In (Some i) l /\ i <> "".
Proof.
  induction l as [|[x|] l IH]; simpl.
  - tauto.
  - destruct (String.eqb_spec x "") as [->|Hx]; [|simpl]; rewrite IH.
    + split; [tauto|]. intros [[H|H] Hi]; [congruence|tauto].
    + split.
      * intros [->|[H Hi]]; tauto.
      * intros [[H|H] Hi]; [left; congruence|tauto].
  - rewrite IH. split; [tauto|]. intros [[H|H] Hi]; [discriminate|tauto].
Qed.

Lemma findGiftLineIds_In (i : string) (ls : list CartEdge) :
  In i (findGiftLineIds (Some ls)) <->
  exists e, In e ls /\ isGiftItem (node e) = true /\ edge_id e = Some i /\ i <> "".
Proof.
  unfold findGiftLineIds. rewrite truthy_ids_In, in_map_iff. simpl. split.
  - intros [(e & He & Hin) Hi]. apply filter_In in Hin as [Hin Hg].
    exists e. auto.
  - intros (e & Hin & Hg & He & Hi). split; [|exact Hi].
    exists e. split; [exact He|]. apply filter_In. auto.
Qed.

Lemma id_listed_true (ids : list string) (e : CartEdge) :
  id_listed ids e = true <-> exists i, edge_id e = Some i /\ In i ids.
Proof.
  unfold id_listed. destruct (edge_id e) as [i|].
  - rewrite existsb_exists. split.
    + intros (x & Hx & E). apply String.eqb_eq in E. subst. exists x. auto.
    + intros (x & E & Hx). injection E as <-. exists i. split; [exact Hx|].
      apply String.eqb_refl.
  - split; [discriminate|]. intros (x & E & _). discriminate.
Qed.

Lemma str_truthy_Some (o : option string) :
  str_truthy o = true -> exists i, o = Some i /\ i <> "".
Proof.
  destruct o as [i|]; simpl; [|discriminate].
  intros H. exists i. split; [reflexivity|].
  intros ->. discriminate.
Qed.

Lemma gift_id_found (ls : list CartEdge) (e : CartEdge) :
  In e ls -> isGiftItem (node e) = true -> str_truthy (edge_id e) = true ->
  id_listed (findGiftLineIds (Some ls)) e = true.
Proof.
  intros Hin Hg Ht. apply str_truthy_Some in Ht as (i & Hi & Hne).
  apply id_listed_true. exists i. split; [exact Hi|].
  apply findGiftLineIds_In. exists e. auto.
Qed.

Lemma giftLines_In (ls : list CartEdge) (e : CartEdge) :
  In e (giftLines ls) <-> In e ls /\ isGiftItem (node e) = true.
Proof. apply filter_In. Qed.

(** Removing the ids of all gift lines leaves no gift line, when each of
    them has an id. *)
Lemma removeLines_all_gifts (ls : list CartEdge) :
  Forall (fun e => str_truthy (edge_id e) = true) (giftLines ls) ->
  giftLines (removeLines (findGiftLineIds (Some ls)) ls) = [].
Proof.
  intros Hids. apply filter_none. intros e He.
  apply filter_In in He as [Hin Hk].
  destruct (isGiftItem (node e)) eqn:Hg; [|reflexivity].
  rewrite gift_id_found in Hk; [discriminate|exact Hin|exact Hg|].
  rewrite Forall_forall in Hids. apply Hids. apply giftLines_In. auto.
Qed.

Lemma no_ids_no_gift (ls : list CartEdge) :
  Forall (fun e => str_truthy (edge_id e) = true) (giftLines ls) ->
  findGiftLineIds (Some ls) = [] -> giftLines ls = [].
Proof.
  intros Hids Hn. rewrite Forall_forall in Hids.
  destruct (giftLines ls) as [|e r] eqn:E; [reflexivity|].
  assert (He : In e (giftLines ls)) by (rewrite E; left; reflexivity).
  pose proof He as He'. apply giftLines_In in He' as [Hin Hg].
  rewrite E in He.
  pose proof (gift_id_found ls e Hin Hg (Hids e He)) as Hl.
  rewrite Hn in Hl. unfold id_listed in Hl. destruct (edge_id e); discriminate.
Qed.

(** *** What the platform answers *)

Lemma platform_serves (p : Platform) (cartId : string) (giftRules : GiftRule) :
  rulesOfOutcome (p_admin p) = Some giftRules ->
  enableRule giftRules = true ->
  cartGidOf cartId = p_cartGid p ->
  (List.length (p_lines p) <= 250)%nat ->
  serves platform p cartId giftRules {| lines_edges := Some (p_lines p) |} p.
Proof.
  intros Hr He Hg Hl.
  exists (p_admin p), p,
    {| q_cart := Some {| lines_edges := Some (p_lines p) |}; q_errors := None |}.
  split; [reflexivity|]. split; [exact Hr|]. split; [exact He|].
  split; [|split; [exact I|reflexivity]].
  unfold platform. rewrite Hg, String.eqb_refl, firstn_all2 by exact Hl.
  reflexivity.
Qed.

Lemma platform_remove (p : Platform) (ids : list string) :
  platform _ (CartLinesRemove (p_cartGid p) ids) p
  = (Resolved (mutationOk "cartLinesRemove"),
     with_lines p (removeLines ids (p_lines p))).
Proof. simpl. rewrite String.eqb_refl. reflexivity. Qed.

Lemma platform_update (p : Platform) (u : CartLineUpdateInput) :
  platform _ (CartLinesUpdate (p_cartGid p) [u]) p
  = (Resolved (mutationOk "cartLinesUpdate"),
     with_lines p (updateLine u (p_lines p))).
Proof. simpl. rewrite String.eqb_refl. reflexivity. Qed.

Lemma platform_add (p : Platform) (l : CartLineInput) :
  platform _ (CartLinesAdd (p_cartGid p) [l]) p
  = (Resolved (mutationOk "cartLinesAdd"), addLines p [l]).
Proof. simpl. rewrite String.eqb_refl. reflexivity. Qed.

Lemma filter_filter_keep {A : Type} (f g : A -> bool) (l : list A) :
  (forall x, In x l -> f x = true -> g x = true) ->
  filter f (filter g l) = filter f l.
Proof.
  induction l as [|a l IH]; intros H; simpl; [reflexivity|].
  assert (IH' : filter f (filter g l) = filter f l)
    by (apply IH; intros x Hx; apply H; right; exact Hx).
  destruct (f a) eqn:Efa.
  - rewrite (H a (or_introl eq_refl) Efa). simpl. rewrite Efa, IH'. reflexivity.
  - destruct (g a); simpl; [rewrite Efa|]; exact IH'.
Qed.

(** With distinct ids, a line whose id is that of a gift line is that
    gift line. *)
Lemma listed_is_gift (ls : list CartEdge) (ids : list string) (e : CartEdge) :
  lines_have_ids ls -> incl ids (findGiftLineIds (Some ls)) ->
  In e ls -> id_listed ids e = true -> isGiftItem (node e) = true.
Proof.
  intros [_ Hnd] Hincl Hin Hl.
  apply id_listed_true in Hl as (i & Ei & Hi).
  apply Hincl, findGiftLineIds_In in Hi as (e' & Hin' & Hg' & Ei' & _).
  assert (e = e') by (apply (map_injective_on edge_id ls); congruence).
  subst. exact Hg'.
Qed.

(** Removing ids of gift lines leaves the other lines as they are. *)
Lemma paid_removeLines (ls : list CartEdge) (ids : list string) :
  lines_have_ids ls -> incl ids (findGiftLineIds (Some ls)) ->
  paidLines (removeLines ids ls) = paidLines ls.
Proof.
  intros Hwf Hincl. unfold paidLines, removeLines.
  apply filter_filter_keep. intros e Hin Hp.
  destruct (id_listed ids e) eqn:El; [|reflexivity].
  rewrite (listed_is_gift ls ids e Hwf Hincl Hin El) in Hp. discriminate.
Qed.

Lemma subtotal_paid (ls : list CartEdge) :
  calculateSubtotalWithoutGifts (Some ls)
  = calculateSubtotalWithoutGifts (Some (paidLines ls)).
Proof.
  unfold calculateSubtotalWithoutGifts, paidLines. cbn [edges_of].
  generalize nzero. induction ls as [|e ls IH]; intros acc; simpl; [reflexivity|].
  destruct (isGiftItem (node e)) eqn:Eg; simpl.
  - rewrite <- IH. f_equal. unfold subtotal_step.
    destruct (node e) as [nd|]; [|reflexivity]. rewrite Eg. reflexivity.
  - apply IH.
Qed.

(** The run on a cart below the minimum. *)
Lemma run_below_on_platform (p : Platform) (cartId : string)
    (giftRules : GiftRule) :
  rulesOfOutcome (p_admin p) = Some giftRules ->
  enableRule giftRules = true ->
  cartGidOf cartId = p_cartGid p ->
  (List.length (p_lines p) <= 250)%nat ->
  Forall (fun e => str_truthy (edge_id e) = true) (giftLines (p_lines p)) ->
  nlt (calculateSubtotalWithoutGifts (Some (p_lines p)))
      (minCartSubtotal giftRules) = true ->
  exists result tr p',
    run (applyGiftLogic cartId) platform p = (Resolved result, tr, p') /\
    applied result = false /\
    giftLines (p_lines p') = [] /\
    (removed result = Some true <-> giftLines (p_lines p) <> []) /\
    (giftLines (p_lines p) <> [] ->
     mutations tr = [ MRemove (p_cartGid p) (findGiftLineIds (Some (p_lines p))) ]) /\
    (giftLines (p_lines p) = [] ->
     mutations tr = [] /\
     result = {| applied := false; removed := None;
                 reason := tooLowReason
                             (calculateSubtotalWithoutGifts (Some (p_lines p)))
                             (minCartSubtotal giftRules) |}) /\
    p_admin p' = p_admin p /\ p_cartGid p' = p_cartGid p /\
    (lines_have_ids (p_lines p) -> paidLines (p_lines p') = paidLines (p_lines p)).
Proof.
  intros Hr He Hg Hl Hids Hlow.
  destruct (run_applyGiftLogic_serves platform (platform_serves p cartId giftRules Hr He Hg Hl))
    as (e1 & e2 & M1 & M2 & _ & _ & Hrun).
  rewrite Hrun. clear Hrun. unfold reconcile. cbn [lines_edges].
  rewrite Hlow, Hg.
  destruct (findGiftLineIds (Some (p_lines p))) as [|i ids] eqn:Eids;
    cbn [List.length Z.of_nat Z.ltb Z.compare].
  - pose proof (no_ids_no_gift _ Hids Eids) as Hn.
    cbn [run]. eexists _, _, _. split; [reflexivity|]. cbn.
    rewrite M1, M2, Hn. repeat split; try congruence; try discriminate.
  - rewrite run_bind, run_removeGiftItems, platform_remove. cbn.
    eexists _, _, _. split; [reflexivity|]. cbn. rewrite M1, M2.
    assert (Hne : giftLines (p_lines p) <> []).
    { intros Hn. pose proof (no_gift_no_ids (Some (p_lines p)) Hn). congruence. }
    repeat split; try congruence.
    + rewrite <- Eids. apply removeLines_all_gifts; exact Hids.
    + intros Hwf. rewrite <- Eids. apply paid_removeLines; [exact Hwf|].
      intros x Hx; exact Hx.
Qed.

(** C2, as amended.  With an enabled rule and a cart of at most 250 lines
    whose gift lines all have a non-empty id and whose subtotal over the
    lines that are no gifts is below the rule's minimum, the run ends with
    [applied: false] and no gift line is left in the cart; [removed] is
    [true] exactly when the cart had a gift line, in which case one
    [cartLinesRemove] of all gift line ids was issued and the reason says
    that the gift items have been removed; with no gift line nothing is
    issued and the result carries no [removed] flag and the reason that the
    subtotal is less than the minimum. *)
Theorem applyGiftLogic_below_minimum (p : Platform) (cartId : string)
    (giftRules : GiftRule) :
  rulesOfOutcome (p_admin p) = Some giftRules ->
  enableRule giftRules = true ->
  cartGidOf cartId = p_cartGid p ->
  (List.length (p_lines p) <= 250)%nat ->
  Forall (fun e => str_truthy (edge_id e) = true) (giftLines (p_lines p)) ->
  nlt (calculateSubtotalWithoutGifts (Some (p_lines p)))
      (minCartSubtotal giftRules) = true ->
  exists result tr p',
    run (applyGiftLogic cartId) platform p = (Resolved result, tr, p') /\
    applied result = false /\
    giftLines (p_lines p') = [] /\
    (removed result = Some true <-> giftLines (p_lines p) <> []) /\
    (giftLines (p_lines p) <> [] ->
     mutations tr = [ MRemove (p_cartGid p) (findGiftLineIds (Some (p_lines p))) ] /\
     result = {| applied := false; removed := Some true;
                 reason :=
                   "Cart subtotal ("
                     ++ nshow (calculateSubtotalWithoutGifts (Some (p_lines p)))
                     ++ ") is less than minimum required ("
                     ++ nshow (minCartSubtotal giftRules)
                     ++ "). Gift items have been removed." |}) /\
    (giftLines (p_lines p) = [] ->
     mutations tr = [] /\
     result = {| applied := false; removed := None;
                 reason :=
                   "Cart subtotal ("
                     ++ nshow (calculateSubtotalWithoutGifts (Some (p_lines p)))
                     ++ ") is less than minimum required ("
                     ++ nshow (minCartSubtotal giftRules) ++ ")" |}).
Proof.
  intros Hr He Hg Hl Hids Hlow.
  destruct (run_applyGiftLogic_serves platform (platform_serves p cartId giftRules Hr He Hg Hl))
    as (e1 & e2 & M1 & M2 & _ & _ & Hrun).
  rewrite Hrun. clear Hrun. unfold reconcile. cbn [lines_edges].
  rewrite Hlow, Hg.
  destruct (findGiftLineIds (Some (p_lines p))) as [|i ids] eqn:Eids;
    cbn [List.length Z.of_nat Z.ltb Z.compare].
  - pose proof (no_ids_no_gift _ Hids Eids) as Hn.
    cbn [run]. eexists _, _, _. split; [reflexivity|]. cbn.
    rewrite M1, M2, Hn. split; [reflexivity|]. split; [reflexivity|].
    split; [split; [discriminate|congruence]|].
    split; [congruence|]. intros _. split; reflexivity.
  - rewrite run_bind, run_removeGiftItems, platform_remove. cbn.
    eexists _, _, _. split; [reflexivity|]. cbn. rewrite M1, M2.
    assert (Hne : giftLines (p_lines p) <> []).
    { intros Hn. pose proof (no_gift_no_ids (Some (p_lines p)) Hn). congruence. }
    split; [reflexivity|]. split.
    { rewrite <- Eids. apply removeLines_all_gifts; exact Hids. }
    split; [split; [intros _; exact Hne|reflexivity]|].
    split; [|congruence]. intros _. split; reflexivity.
Qed.

(** *** The eligible cart *)

Lemma with_lines_same (p : Platform) : with_lines p (p_lines p) = p.
Proof. destruct p; reflexivity. Qed.

Lemma removeLines_nil (ls : list CartEdge) : removeLines [] ls = ls.
Proof.
  unfold removeLines. induction ls as [|e ls IH]; simpl; [reflexivity|].
  unfold id_listed at 1. destruct (edge_id e); simpl; rewrite IH; reflexivity.
Qed.

Lemma filter_all {A : Type} (f : A -> bool) (l : list A) :
  (forall x, In x l -> f x = true) -> filter f l = l.
Proof.
  induction l as [|a l IH]; intros H; simpl; [reflexivity|].
  rewrite (H a (or_introl eq_refl)). f_equal. apply IH.
  intros x Hx. apply H. right; exact Hx.
Qed.

(** The removal step of the eligible branch, on the platform. *)
Lemma run_remove_on_platform (p : Platform) (ids : list string) :
  exists tr,
    run (removeGiftItems (p_cartGid p) ids) platform p
      = (Resolved Success, tr, with_lines p (removeLines ids (p_lines p)))
    /\ mutations tr = match ids with
                      | [] => []
                      | _ => [ MRemove (p_cartGid p) ids ]
                      end.
Proof.
  rewrite run_removeGiftItems. destruct ids as [|i ids].
  - exists []. rewrite removeLines_nil, with_lines_same. split; reflexivity.
  - rewrite platform_remove. eexists. split; reflexivity.
Qed.

Lemma isGift_updateEdge (u : CartLineUpdateInput) (e : CartEdge) :
  isGiftItem (node (updateEdge u e)) = isGiftItem (node e).
Proof.
  unfold updateEdge. destruct e as [[nd|]]; cbn [node]; [|reflexivity].
  destruct (str_seq (id nd) (up_id u)); reflexivity.
Qed.

Lemma giftLines_updateLine (u : CartLineUpdateInput) (ls : list CartEdge) :
  giftLines (updateLine u ls) = map (updateEdge u) (giftLines ls).
Proof.
  unfold giftLines, updateLine. induction ls as [|e ls IH]; simpl; [reflexivity|].
  rewrite isGift_updateEdge. destruct (isGiftItem (node e)); simpl; rewrite IH;
    reflexivity.
Qed.

Lemma lines_NoDup (ls : list CartEdge) : NoDup (map edge_id ls) -> NoDup ls.
Proof. apply NoDup_map_inv. Qed.

(** With distinct ids, removing the ids of the gift lines other than [g]
    leaves [g] as the only gift line. *)
Lemma removeLines_other_gifts (ls : list CartEdge) (g : CartLineNode) (gi : string) :
  lines_have_ids ls ->
  In {| node := Some g |} ls -> isGiftItem (Some g) = true -> id g = Some gi ->
  giftLines
    (removeLines
       (filter (fun i => ostr_neq (Some i) (Some gi)) (findGiftLineIds (Some ls))) ls)
  = [ {| node := Some g |} ].
Proof.
  intros [Hids Hnd] Hin Hg Hgi.
  set (T := filter _ _).
  assert (HT : forall i, In i T <-> In i (findGiftLineIds (Some ls)) /\ i <> gi).
  { intros i. unfold T. rewrite filter_In. simpl.
    destruct (String.eqb_spec i gi); simpl; split; intros [H1 H2];
      split; try assumption; try congruence. }
  unfold giftLines, removeLines.
  apply filter_only.
  - apply NoDup_filter. apply lines_NoDup; exact Hnd.
  - apply filter_In. split; [exact Hin|].
    destruct (id_listed T {| node := Some g |}) eqn:El; [|reflexivity].
    apply id_listed_true in El as (i & Ei & Hi). cbn in Ei.
    apply HT in Hi as [_ Hne]. congruence.
  - exact Hg.
  - intros e He Hge. apply filter_In in He as [He Hk].
    apply (map_injective_on edge_id ls); try assumption.
    change (edge_id {| node := Some g |}) with (id g). rewrite Hgi.
    rewrite Forall_forall in Hids.
    destruct (str_truthy_Some _ (Hids e He)) as (i & Ei & Hne).
    rewrite Ei. f_equal.
    destruct (String.eqb_spec i gi) as [E|E]; [exact E|].
    assert (Hl : id_listed T e = true).
    { apply id_listed_true. exists i. split; [exact Ei|]. apply HT. split; [|exact E].
      apply findGiftLineIds_In. exists e. auto. }
    rewrite Hl in Hk. discriminate.
Qed.

Lemma isGift_newLine (newId amount variant : string) :
  isGiftItem (node (newLine newId amount (giftLineInput variant))) = true.
Proof. reflexivity. Qed.

Lemma paid_updateLine (u : CartLineUpdateInput) (ls : list CartEdge) :
  (forall e, In e ls -> isGiftItem (node e) = false -> updateEdge u e = e) ->
  paidLines (updateLine u ls) = paidLines ls.
Proof.
  unfold paidLines, updateLine. induction ls as [|e ls IH]; intros H; simpl;
    [reflexivity|].
  rewrite isGift_updateEdge.
  assert (IH' : filter (fun e0 => negb (isGiftItem (node e0))) (map (updateEdge u) ls)
                = filter (fun e0 => negb (isGiftItem (node e0))) ls)
    by (apply IH; intros x Hx; apply H; right; exact Hx).
  destruct (isGiftItem (node e)) eqn:Eg; simpl; [exact IH'|].
  rewrite (H e (or_introl eq_refl) Eg), IH'. reflexivity.
Qed.

(** The run on an eligible cart. *)
Lemma run_eligible_on_platform (p : Platform) (cartId : string)
    (giftRules : GiftRule) :
  rulesOfOutcome (p_admin p) = Some giftRules ->
  enableRule giftRules = true ->
  cartGidOf cartId = p_cartGid p ->
  (List.length (p_lines p) <= 250)%nat ->
  lines_have_ids (p_lines p) ->
  nlt (calculateSubtotalWithoutGifts (Some (p_lines p)))
      (minCartSubtotal giftRules) = false ->
  exists result tr p' nd,
    run (applyGiftLogic cartId) platform p = (Resolved result, tr, p') /\
    giftLines (p_lines p') = [ {| node := Some nd |} ] /\
    merchandise_id nd = Some (giftVariantId giftRules) /\
    match correctGiftLine giftRules {| lines_edges := Some (p_lines p) |} with
    | Some g =>
        if 1 <? int_or_zero (quantity g)
        then nd = withQuantity g 1
        else nd = g
    | None =>
        {| node := Some nd |}
          = newLine (p_lineIds p (p_added p))
                    (p_amount p (giftVariantId giftRules))
                    (giftLineInput (giftVariantId giftRules))
        /\ quantity nd = Some 1
    end /\
    p_admin p' = p_admin p /\ p_cartGid p' = p_cartGid p /\
    paidLines (p_lines p') = paidLines (p_lines p).
Proof.
  intros Hr He Hg Hl Hids Hel.
  destruct (run_applyGiftLogic_serves platform (platform_serves p cartId giftRules Hr He Hg Hl))
    as (e1 & e2 & M1 & M2 & _ & _ & Hrun).
  rewrite Hrun. clear Hrun. unfold reconcile.
  cbn [lines_edges]. rewrite Hel, Hg, run_bind, run_removeStep.
  destruct (run_remove_on_platform p
              (giftItemsToRemove giftRules {| lines_edges := Some (p_lines p) |}))
    as (tr1 & Hrm & _).
  rewrite Hrm. clear Hrm. unfold giftItemsToRemove. cbn [lines_edges].
  destruct (correctGiftLine giftRules {| lines_edges := Some (p_lines p) |})
    as [g|] eqn:Ecg.
  - apply correctGiftLine_Some in Ecg as (Hin & Hgift & Hm). cbn in Hin.
    destruct Hids as [Hall Hnd]. pose proof Hall as Hall'.
    rewrite Forall_forall in Hall'.
    destruct (str_truthy_Some _ (Hall' _ Hin)) as (gi & Egi & Hne). cbn in Egi.
    pose proof (removeLines_other_gifts (p_lines p) g gi (conj Hall Hnd) Hin Hgift Egi)
      as Hkept.
    assert (Hsub : incl (filter (fun i => ostr_neq (Some i) (Some gi))
                           (findGiftLineIds (Some (p_lines p))))
                        (findGiftLineIds (Some (p_lines p))))
      by (intros x Hx; apply filter_In in Hx as [Hx _]; exact Hx).
    cbn [line_id quantityStep]. rewrite Egi in *. cbn [str_truthy].
    apply String.eqb_neq in Hne. rewrite Hne. cbn [negb].
    destruct (1 <? int_or_zero (quantity g)) eqn:Eq.
    + rewrite run_bind, run_updateGiftQuantity.
      change (p_cartGid p) with (p_cartGid (with_lines p
               (removeLines (filter (fun i => ostr_neq (Some i) (Some gi))
                               (findGiftLineIds (Some (p_lines p)))) (p_lines p)))).
      rewrite platform_update. cbn [fst snd settled run].
      eexists _, _, _, (withQuantity g 1). split; [reflexivity|].
      cbn [p_lines with_lines]. rewrite giftLines_updateLine, Hkept.
      cbn [map]. unfold updateEdge. cbn [node up_id up_quantity str_or].
      rewrite Egi, Hne. cbn [str_seq]. rewrite String.eqb_refl.
      repeat split; [exact Hm|].
      rewrite paid_updateLine.
      * apply paid_removeLines; [split; assumption|exact Hsub].
      * intros e Hine Hp. apply filter_In in Hine as [Hine _].
        unfold updateEdge. destruct e as [[nd|]]; cbn [node]; [|reflexivity].
        cbn [up_id]. destruct (str_seq (id nd) gi) eqn:Es; [|reflexivity].
        unfold str_seq in Es. destruct (id nd) as [i|] eqn:Ei; [|discriminate].
        apply String.eqb_eq in Es. subst i.
        assert ({| node := Some nd |} = {| node := Some g |})
          by (apply (map_injective_on edge_id (p_lines p)); cbn; congruence).
        cbn [node] in Hp. congruence.
    + cbn [run]. eexists _, _, _, g. split; [reflexivity|].
      cbn [p_lines with_lines]. rewrite Hkept.
      repeat split; [exact Hm|].
      apply paid_removeLines; [split; assumption|exact Hsub].
  - cbn [line_id quantityStep].
    rewrite (filter_all (fun i => ostr_neq (Some i) None)) by reflexivity.
    unfold addGiftStep. rewrite run_bind, run_addGiftItem.
    change (p_cartGid p) with (p_cartGid (with_lines p
             (removeLines (findGiftLineIds (Some (p_lines p))) (p_lines p)))).
    rewrite platform_add. cbn [fst snd settled run].
    eexists _, _, _, _. split; [reflexivity|].
    cbn [addLines p_lines with_lines p_lineIds p_added p_amount].
    unfold giftLines. rewrite filter_app. fold (giftLines (removeLines
      (findGiftLineIds (Some (p_lines p))) (p_lines p))).
    rewrite removeLines_all_gifts.
    2:{ apply Forall_forall. intros e Hin. apply giftLines_In in Hin as [Hin _].
        destruct Hids as [Hall _]. rewrite Forall_forall in Hall. auto. }
    cbn [app]. repeat split.
    unfold paidLines. rewrite filter_app. cbn [filter]. rewrite isGift_newLine.
    cbn [negb]. rewrite app_nil_r.
    apply paid_removeLines; [exact Hids|]. intros x Hx; exact Hx.
Qed.

(** C1, as amended.  With an enabled rule and an eligible cart of at most
    250 lines whose lines have distinct, non-empty ids and whose gift line
    of the rule's variant, if there is one, has a quantity of at least 1,
    the run leaves exactly one gift line, of the rule's variant and with
    quantity 1.  If the cart had a gift line of that variant, the first
    such line is the one kept, with its quantity set to 1, and every other
    gift line is removed.  If it had none, all gift lines are removed and
    the line left is the added one. *)
Theorem applyGiftLogic_eligible (p : Platform) (cartId : string)
    (giftRules : GiftRule) :
  rulesOfOutcome (p_admin p) = Some giftRules ->
  enableRule giftRules = true ->
  cartGidOf cartId = p_cartGid p ->
  (List.length (p_lines p) <= 250)%nat ->
  lines_have_ids (p_lines p) ->
  eligible giftRules {| lines_edges := Some (p_lines p) |} ->
  (forall g, correctGiftLine giftRules {| lines_edges := Some (p_lines p) |} = Some g ->
             1 <= int_or_zero (quantity g)) ->
  exists result tr p' nd,
    run (applyGiftLogic cartId) platform p = (Resolved result, tr, p') /\
    giftLines (p_lines p') = [ {| node := Some nd |} ] /\
    merchandise_id nd = Some (giftVariantId giftRules) /\
    quantity nd = Some 1 /\
    match correctGiftLine giftRules {| lines_edges := Some (p_lines p) |} with
    | Some g => nd = withQuantity g 1
    | None =>
        {| node := Some nd |}
          = newLine (p_lineIds p (p_added p))
                    (p_amount p (giftVariantId giftRules))
                    (giftLineInput (giftVariantId giftRules))
    end.
Proof.
  intros Hr He Hg Hl Hids Hel Hq.
  destruct (run_eligible_on_platform p cartId giftRules Hr He Hg Hl Hids
              (eligible_not_below Hel))
    as (result & tr & p' & nd & H1 & H2 & H3 & H4 & _).
  exists result, tr, p', nd.
  split; [exact H1|]. split; [exact H2|]. split; [exact H3|].
  destruct (correctGiftLine giftRules {| lines_edges := Some (p_lines p) |})
    as [g|].
  - specialize (Hq g eq_refl).
    destruct (1 <? int_or_zero (quantity g)) eqn:E1.
    + subst nd. split; reflexivity.
    + apply Z.ltb_ge in E1. subst nd.
      assert (Hone : quantity g = Some 1).
      { destruct (quantity g) as [q1|]; cbn in *; [f_equal|]; lia. }
      split; [exact Hone|]. destruct g; cbn in *. rewrite Hone. reflexivity.
  - destruct H4 as [H4 H5]. split; [exact H5|exact H4].
Qed.

(** *** A second run *)

Lemma edge_id_updateEdge (u : CartLineUpdateInput) (e : CartEdge) :
  edge_id (updateEdge u e) = edge_id e.
Proof.
  unfold updateEdge. destruct e as [[nd|]]; cbn [node]; [|reflexivity].
  destruct (str_seq (id nd) (up_id u)); reflexivity.
Qed.

Lemma ids_present_addLines (ls : list CartLineInput) (p : Platform) :
  ids_present p -> ids_present (addLines p ls).
Proof.
  revert p. induction ls as [|l ls IH]; intros p [Hall Hnew]; [split; assumption|].
  simpl. apply IH. split; [|exact Hnew].
  cbn [p_lines]. apply Forall_app. split; [exact Hall|].
  constructor; [|constructor]. cbn.
  destruct (String.eqb_spec (p_lineIds p (p_added p)) "") as [E|E]; [|reflexivity].
  destruct (Hnew _ E).
Qed.

Lemma ids_present_updates (us : list CartLineUpdateInput) (ls : list CartEdge) :
  Forall (fun e => str_truthy (edge_id e) = true) ls ->
  Forall (fun e => str_truthy (edge_id e) = true)
         (fold_left (fun ls u => updateLine u ls) us ls).
Proof.
  revert ls. induction us as [|u us IH]; intros ls H; [exact H|].
  simpl. apply IH. unfold updateLine. rewrite Forall_map.
  eapply Forall_impl; [|exact H]. intros e He. rewrite edge_id_updateEdge. exact He.
Qed.

Lemma platform_keeps_ids (R : Type) (c : Call R) (p : Platform) :
  ids_present p -> ids_present (snd (platform R c p)).
Proof.
  intros Hp. destruct c; cbn [platform]; try exact Hp;
    destruct (String.eqb _ (p_cartGid p)); cbn [snd]; try exact Hp.
  - apply ids_present_addLines; exact Hp.
  - destruct Hp as [Hall Hnew]. split; [|exact Hnew].
    cbn [p_lines with_lines]. unfold removeLines.
    apply Forall_forall. intros e He. apply filter_In in He as [He _].
    rewrite Forall_forall in Hall. auto.
  - destruct Hp as [Hall Hnew]. split; [|exact Hnew].
    cbn [p_lines with_lines]. apply ids_present_updates; exact Hall.
Qed.

Lemma find_single_gift (giftRules : GiftRule) (ls : list CartEdge) (ge : CartEdge) :
  giftLines ls = [ge] -> isCorrectGift giftRules ge = true ->
  find (isCorrectGift giftRules) ls = Some ge.
Proof.
  unfold giftLines. induction ls as [|e ls IH]; simpl; [discriminate|].
  intros Hf Hc. unfold isCorrectGift at 1.
  destruct (isGiftItem (node e)) eqn:Eg.
  - injection Hf as -> _. unfold isCorrectGift in Hc. rewrite Eg in Hc.
    cbn [andb] in *. rewrite Hc. reflexivity.
  - cbn [andb]. apply IH; assumption.
Qed.

(** On a cart in the state reconciliation aims at, a run issues no
    mutation, leaves the platform as it is and returns [applied: false]. *)
Lemma applyGiftLogic_no_op (p : Platform) (cartId : string) :
  Forall (fun e => str_truthy (edge_id e) = true) (p_lines p) ->
  (List.length (p_lines p) <= 250)%nat ->
  (forall giftRules,
     rulesOfOutcome (p_admin p) = Some giftRules -> enableRule giftRules = true ->
     correct_state giftRules (p_lines p)) ->
  exists result tr,
    run (applyGiftLogic cartId) platform p = (Resolved result, tr, p) /\
    mutations tr = [] /\ applied result = false.
Proof.
  intros Hall Hl Hcs.
  destruct (rulesOfOutcome (p_admin p)) as [giftRules|] eqn:Hr.
  2:{ unfold applyGiftLogic. rewrite run_bind, run_getGiftRules.
      cbn [platform fst snd]. rewrite Hr. cbn. eexists _, _. repeat split. }
  destruct (enableRule giftRules) eqn:He.
  2:{ unfold applyGiftLogic. rewrite run_bind, run_getGiftRules.
      cbn [platform fst snd]. rewrite Hr. cbv iota beta. rewrite He.
      cbn. eexists _, _. repeat split. }
  destruct (String.eqb (cartGidOf cartId) (p_cartGid p)) eqn:Hg.
  2:{ unfold applyGiftLogic. rewrite run_bind, run_getGiftRules.
      cbn [platform fst snd]. rewrite Hr. cbv iota beta. rewrite He. cbn [negb].
      rewrite run_bind, run_getCartData. cbn [platform fst snd q_errors q_cart].
      rewrite Hg. cbn. eexists _, _. repeat split. }
  apply String.eqb_eq in Hg.
  destruct (run_applyGiftLogic_serves platform (platform_serves p cartId giftRules Hr He Hg Hl))
    as (e1 & e2 & M1 & M2 & _ & _ & Hrun).
  rewrite Hrun. clear Hrun. unfold reconcile. cbn [lines_edges].
  specialize (Hcs giftRules eq_refl He). unfold correct_state in Hcs.
  destruct (nlt _ _).
  - rewrite (no_gift_no_ids (Some (p_lines p)) Hcs).
    cbn. eexists _, _. split; [reflexivity|]. cbn. rewrite M1, M2.
    split; reflexivity.
  - destruct Hcs as (nd & Hgl & Hm & Hq).
    assert (Hin : In {| node := Some nd |} (giftLines (p_lines p)))
      by (rewrite Hgl; left; reflexivity).
    apply giftLines_In in Hin as [Hin Hgift].
    rewrite Forall_forall in Hall.
    destruct (str_truthy_Some _ (Hall _ Hin)) as (gi & Egi & Hne). cbn in Egi.
    assert (Hids : findGiftLineIds (Some (p_lines p)) = [gi]).
    { unfold findGiftLineIds. cbn [edges_of]. fold (giftLines (p_lines p)).
      rewrite Hgl. cbn. rewrite Egi. apply String.eqb_neq in Hne. rewrite Hne.
      reflexivity. }
    assert (Hc : correctGiftLine giftRules {| lines_edges := Some (p_lines p) |}
                 = Some nd).
    { rewrite correctGiftLine_find. cbn [lines_edges edges_of].
      rewrite (find_single_gift giftRules (p_lines p) _ Hgl); [reflexivity|].
      unfold isCorrectGift. cbn [node]. cbn [node] in Hgift. rewrite Hgift, Hm.
      cbn. apply String.eqb_refl. }
    unfold giftItemsToRemove. cbn [lines_edges]. rewrite Hc, Hids.
    cbn [line_id]. rewrite Egi. cbn [filter ostr_neq]. rewrite String.eqb_refl.
    cbn [negb List.length Z.of_nat Z.ltb Z.compare].
    rewrite run_bind. cbn [run quantityStep]. rewrite Egi, Hq.
    apply String.eqb_neq in Hne. cbn [str_truthy]. rewrite Hne.
    cbn. eexists _, _. split; [reflexivity|]. cbn. rewrite M1, M2.
    split; reflexivity.
Qed.

(** C3, as amended.  On the platform, with every line carrying a
    non-empty id and added lines given one: when the state a first run
    leaves has at most 250 lines and is the one reconciliation aims at (no
    gift line below the minimum, else a single gift line of the rule's
    variant with quantity 1), a second run on that state issues no
    mutation, leaves the state as it is, and returns [applied: false]. *)
Theorem applyGiftLogic_idempotent (p : Platform) (cartId : string) :
  ids_present p ->
  let p1 := snd (run (applyGiftLogic cartId) platform p) in
  (List.length (p_lines p1) <= 250)%nat ->
  (forall giftRules,
     rulesOfOutcome (p_admin p1) = Some giftRules -> enableRule giftRules = true ->
     correct_state giftRules (p_lines p1)) ->
  exists result tr,
    run (applyGiftLogic cartId) platform p1 = (Resolved result, tr, p1) /\
    mutations tr = [] /\ applied result = false.
Proof.
  intros Hp p1 Hl Hcs.
  apply applyGiftLogic_no_op; try assumption.
  apply (run_invariant ids_present platform platform_keeps_ids
           (applyGiftLogic cartId) p Hp).
Qed.

(** *** Two runs in a row *)

Lemma length_gift_paid (ls : list CartEdge) :
  List.length ls = (List.length (giftLines ls) + List.length (paidLines ls))%nat.
Proof.
  unfold giftLines, paidLines. induction ls as [|e ls IH]; simpl; [reflexivity|].
  destruct (isGiftItem (node e)); simpl; lia.
Qed.

Lemma length_paid (ls : list CartEdge) :
  (List.length (paidLines ls) <= List.length ls)%nat.
Proof. rewrite (length_gift_paid ls). lia. Qed.

(** On a cart whose lines have distinct ids and whose gift line of the
    rule's variant, if there is one, has a quantity of at least 1, a run
    leaves the state reconciliation aims at, with the rule, the cart id
    and the lines that are no gifts unchanged. *)
Lemma applyGiftLogic_reaches_target (p : Platform) (cartId : string)
    (giftRules : GiftRule) :
  rulesOfOutcome (p_admin p) = Some giftRules ->
  enableRule giftRules = true ->
  cartGidOf cartId = p_cartGid p ->
  (List.length (p_lines p) <= 250)%nat ->
  lines_have_ids (p_lines p) ->
  (forall g, correctGiftLine giftRules {| lines_edges := Some (p_lines p) |} = Some g ->
             1 <= int_or_zero (quantity g)) ->
  let p' := snd (run (applyGiftLogic cartId) platform p) in
  correct_state giftRules (p_lines p') /\
  p_admin p' = p_admin p /\ p_cartGid p' = p_cartGid p /\
  (List.length (p_lines p') <= S (List.length (p_lines p)))%nat.
Proof.
  intros Hr He Hg Hl Hwf Hq p'. unfold correct_state.
  destruct (nlt (calculateSubtotalWithoutGifts (Some (p_lines p)))
                (minCartSubtotal giftRules)) eqn:Hlt.
  - destruct (run_below_on_platform p cartId giftRules Hr He Hg Hl) as
      (result & tr & q & Hrun & _ & Hgl & _ & _ & _ & Ha & Hc & Hpaid);
      [|exact Hlt|].
    { apply Forall_forall. intros e Hin. apply giftLines_In in Hin as [Hin _].
      destruct Hwf as [Hall _]. rewrite Forall_forall in Hall. auto. }
    subst p'. rewrite Hrun. cbn [snd]. specialize (Hpaid Hwf).
    rewrite (subtotal_paid (p_lines q)), Hpaid, <- subtotal_paid, Hlt.
    repeat split; try assumption.
    rewrite (length_gift_paid (p_lines q)), Hgl, Hpaid.
    pose proof (length_paid (p_lines p)). simpl. lia.
  - destruct (run_eligible_on_platform p cartId giftRules Hr He Hg Hl Hwf Hlt) as
      (result & tr & q & nd & Hrun & Hgl & Hm & Hnd & Ha & Hc & Hpaid).
    subst p'. rewrite Hrun. cbn [snd].
    rewrite (subtotal_paid (p_lines q)), Hpaid, <- subtotal_paid, Hlt.
    repeat split; try assumption.
    + exists nd. repeat split; try assumption.
      destruct (correctGiftLine giftRules {| lines_edges := Some (p_lines p) |})
        as [g|] eqn:Ecg; [|apply Hnd].
      specialize (Hq g eq_refl).
      destruct (1 <? int_or_zero (quantity g)) eqn:E1.
      * subst nd. reflexivity.
      * subst nd. apply Z.ltb_ge in E1.
        destruct (quantity g) as [q1|]; cbn in *; [f_equal|]; lia.
    + rewrite (length_gift_paid (p_lines q)), Hgl, Hpaid.
      pose proof (length_paid (p_lines p)). simpl. lia.
Qed.

(** X25.  Reconciliation twice in a row: under the same conditions, and
    with room for one more line, the second run issues no mutation, changes
    nothing and returns [applied: false]. *)
Lemma applyGiftLogic_twice (p : Platform) (cartId : string)
    (giftRules : GiftRule) :
  rulesOfOutcome (p_admin p) = Some giftRules ->
  enableRule giftRules = true ->
  cartGidOf cartId = p_cartGid p ->
  (List.length (p_lines p) < 250)%nat ->
  lines_have_ids (p_lines p) ->
  (forall n, p_lineIds p n <> "") ->
  (forall g, correctGiftLine giftRules {| lines_edges := Some (p_lines p) |} = Some g ->
             1 <= int_or_zero (quantity g)) ->
  let p1 := snd (run (applyGiftLogic cartId) platform p) in
  exists result tr,
    run (applyGiftLogic cartId) platform p1 = (Resolved result, tr, p1) /\
    mutations tr = [] /\ applied result = false.
Proof.
  intros Hr He Hg Hl Hwf Hnew Hq p1.
  destruct (applyGiftLogic_reaches_target p cartId giftRules Hr He Hg) as
    (Hcs & Ha & _ & Hlen); try assumption; [lia|].
  fold p1 in Hcs, Ha, Hlen.
  apply applyGiftLogic_no_op.
  - apply (run_invariant ids_present platform platform_keeps_ids
             (applyGiftLogic cartId) p).
    split; [apply Hwf|exact Hnew].
  - lia.
  - intros r Hr' _. rewrite Ha, Hr in Hr'. injection Hr' as <-. exact Hcs.
Qed.

End OnPlatform.

(** ** The route action *)

Lemma run_try_catch {A S : Type} (m : Remote A) (hd : Thrown -> Remote A)
    (h : Handler S) (s : S) :
  run (try_catch m hd) h s =
  match run m h s with
  | (Resolved a, tr, s1) => (Resolved a, tr, s1)
  | (Rejected t, tr, s1) =>
      let '(r, tr2, s2) := run (hd t) h s1 in (r, (tr ++ tr2)%list, s2)
  end.
Proof.
  revert s. induction m as [a|t|R c k IH]; intros s; simpl.
  - reflexivity.
  - destruct (run (hd t) h s) as [[r tr2] s2]. reflexivity.
  - destruct (h R c s) as [o s1]. rewrite IH.
    destruct (run (k o) h s1) as [[[t|a] tr] s2].
    + destruct (run (hd t) h s2) as [[r tr2] s3]. reflexivity.
    + reflexivity.
Qed.

Section RouteFacts.

Context {JSN : JsNumber}.
Context {S : Type}.
Variable h : Handler S.
Variable zodInvalidTypeMessage : JsonKind -> option JsonKind -> string.
Variable nullPropertyMessage : string.

Lemma nonempty_length (x : string) :
  x <> "" -> (1 <=? Z.of_nat (String.length x)) = true.
Proof.
  destruct x as [|c r]; [congruence|]. intros _. cbn [String.length].
  apply Z.leb_le. lia.
Qed.



End RouteFacts.

(** ** The theorems at concrete carts *)

Module Runs.
Import Examples.

Lemma few_lines (p : Platform) (n : nat) :
  List.length (p_lines p) = n -> (n <=? 250)%nat = true ->
  (List.length (p_lines p) <= 250)%nat.
Proof. intros -> H. apply Nat.leb_le; exact H. Qed.

(** A gift line of quantity 0: on an eligible cart whose gift line of the
    rule's variant has quantity 0, the run issues nothing and answers
    "already added"; the gift line that is left has quantity 0. *)
Lemma applyGiftLogic_zero_quantity_kept :
  rulesOfOutcome (JSN := Dec.DecNumber) (p_admin zeroQuantityGift) = Some giftRuleV1 /\
  eligible giftRuleV1 {| lines_edges := Some (p_lines zeroQuantityGift) |} /\
  run applyC1 platform zeroQuantityGift
    = (Resolved (notApplied "Gift already added to cart with correct quantity"),
       snd (fst (run applyC1 platform zeroQuantityGift)),
       zeroQuantityGift) /\
  mutations (snd (fst (run applyC1 platform zeroQuantityGift))) = [] /\
  map (fun e => match node e with
                | Some nd => quantity nd
                | None => None
                end)
      (giftLines (p_lines (snd (run applyC1 platform zeroQuantityGift))))
    = [ Some 0 ].
Proof. repeat split. Qed.

(** C1, witness: of a gift line of another variant and one of the rule's
    variant with quantity 3, the latter is kept, with quantity 1. *)
Lemma applyGiftLogic_eligible_witness :
  exists result tr p',
    run applyC1 platform EdgeExamples.mixedGifts = (Resolved result, tr, p') /\
    giftLines (p_lines p') = [ giftLine "g1" "V1" (Some 1) ].
Proof.
  destruct (applyGiftLogic_eligible (JSN := Dec.DecNumber) EdgeExamples.mixedGifts
              "c1" giftRuleV1)
    as (result & tr & p' & nd & Hrun & Hg & _ & _ & Hnd).
  - reflexivity.
  - reflexivity.
  - reflexivity.
  - apply (few_lines EdgeExamples.mixedGifts 3); reflexivity.
  - split.
    + repeat constructor.
    + repeat constructor; simpl; intuition discriminate.
  - reflexivity.
  - intros g [= <-]. simpl. lia.
  - exists result, tr, p'. split; [exact Hrun|].
    rewrite Hg. cbn in Hnd. rewrite Hnd. reflexivity.
Defined.

(** C2, witness: the cart of 40 with a gift line loses it. *)
Lemma applyGiftLogic_below_minimum_witness :
  exists result tr p',
    run applyC1 platform belowWithGift = (Resolved result, tr, p') /\
    applied result = false /\
    giftLines (p_lines p') = [] /\
    (removed result = Some true <-> giftLines (p_lines belowWithGift) <> []).
Proof.
  destruct (applyGiftLogic_below_minimum (JSN := Dec.DecNumber) belowWithGift "c1" giftRuleV1)
    as (result & tr & p' & Hrun & Ha & Hg & Hr & _).
  - reflexivity.
  - reflexivity.
  - reflexivity.
  - apply (few_lines belowWithGift 2); reflexivity.
  - repeat constructor.
  - reflexivity.
  - exists result, tr, p'. auto.
Defined.

(** C3, witness: after the gift was added to the cart of 60, a second run
    does nothing. *)
Lemma applyGiftLogic_idempotent_witness :
  let p1 := snd (run applyC1 platform eligibleNoGift) in
  exists result tr,
    run applyC1 platform p1 = (Resolved result, tr, p1) /\
    mutations tr = [] /\ applied result = false.
Proof.
  apply (applyGiftLogic_idempotent (JSN := Dec.DecNumber) eligibleNoGift "c1").
  - split.
    + repeat constructor.
    + intros n H. discriminate H.
  - apply (few_lines _ 2); reflexivity.
  - intros giftRules Hr He. injection Hr as <-.
    unfold correct_state.
    change (exists nd,
      giftLines (p_lines (snd (run applyC1 platform eligibleNoGift)))
        = [ {| node := Some nd |} ] /\
      merchandise_id nd = Some "V1" /\ quantity nd = Some 1).
    eexists. repeat split.
Defined.


(** C6, as stated, fails: a user error whose message is the empty string
    is not passed on; the reason is the fallback text. *)
Lemma applyGiftLogic_empty_message :
  firstError (userErrorAnswer "") = Some (Some "") /\
  fst (fst (run applyC1 (refusingRemoval (userErrorAnswer "")) belowWithGift))
    = Resolved {| applied := false; removed := None;
                  reason := "Failed to removing gift" |}.
Proof. split; reflexivity. Qed.

(** C6, witness: a refused removal ends the run with the user error's
    message. *)
Lemma applyGiftLogic_stops_at_reported_error_witness :
  fst (fst (run applyC1 (refusingRemoval (userErrorAnswer "Line is locked")) belowWithGift))
    = Resolved {| applied := false; removed := None; reason := "Line is locked" |}.
Proof.
  apply (applyGiftLogic_stops_at_reported_error (JSN := Dec.DecNumber)
           (refusingRemoval (userErrorAnswer "Line is locked")) belowWithGift "c1"
           (firstn 2 (snd (fst (run applyC1
              (refusingRemoval (userErrorAnswer "Line is locked")) belowWithGift))))
           []
           (Ev (CartLinesRemove "gid://shopify/Cart/c1" [ "g1" ])
               (Resolved (userErrorAnswer "Line is locked")))
           (Some "Line is locked") "Failed to removing gift");
    reflexivity.
Defined.



End Runs.

(** ** More on [applyGift.server.ts] *)

Section Helpers.

Context {JSN : JsNumber}.

Lemma subtotal_step_skips (acc : number) (e : CartEdge) :
  node e = None \/ isGiftItem (node e) = true -> subtotal_step acc e = acc.
Proof.
  unfold subtotal_step. intros [H|H].
  - rewrite H. reflexivity.
  - destruct (node e) as [nd|]; [|reflexivity]. rewrite H. reflexivity.
Qed.

(** X1.  The subtotal does not see gift lines, nor edges without a node:
    a cart with such an edge anywhere in it has the subtotal of the cart
    without it. *)
Theorem calculateSubtotalWithoutGifts_skips (l1 l2 : list CartEdge) (e : CartEdge) :
  node e = None \/ isGiftItem (node e) = true ->
  calculateSubtotalWithoutGifts (Some (l1 ++ e :: l2)%list)
  = calculateSubtotalWithoutGifts (Some (l1 ++ l2)%list).
Proof.
  intros H. unfold calculateSubtotalWithoutGifts. cbn [edges_of].
  rewrite !fold_left_app. cbn [fold_left].
  rewrite (subtotal_step_skips _ e H). reflexivity.
Qed.

Lemma find_first {A : Type} (f : A -> bool) (l : list A) (x : A) :
  find f l = Some x ->
  exists l1 l2, l = (l1 ++ x :: l2)%list /\ filter f l1 = [] /\ f x = true.
Proof.
  induction l as [|a l IH]; simpl; [discriminate|].
  destruct (f a) eqn:Efa.
  - intros H. injection H as <-. exists [], l. auto.
  - intros H. destruct (IH H) as (l1 & l2 & -> & Hn & Hx).
    exists (a :: l1), l2. simpl. rewrite Efa. auto.
Qed.

Lemma find_none_filter {A : Type} (f : A -> bool) (l : list A) :
  find f l = None <-> filter f l = [].
Proof.
  induction l as [|a l IH]; simpl; [tauto|].
  destruct (f a); [split; discriminate|exact IH].
Qed.

(** X2.  [findGiftLine] returns the first gift line of the cart, and [null]
    exactly when the cart has no gift line. *)
Theorem findGiftLine_first (cartLines : option (list CartEdge)) :
  (findGiftLine cartLines = None <-> giftLines (edges_of cartLines) = []) /\
  (forall g, findGiftLine cartLines = Some g ->
     exists l1 l2,
       edges_of cartLines = (l1 ++ {| node := Some g |} :: l2)%list /\
       giftLines l1 = [] /\ isGiftItem (Some g) = true).
Proof.
  unfold findGiftLine, giftLines. split.
  - rewrite <- find_none_filter.
    destruct (find _ (edges_of cartLines)) as [[n]|] eqn:F; [|tauto].
    apply find_some in F as [_ Hg]. cbn [node] in *.
    destruct n; [split; discriminate|discriminate Hg].
  - intros g. destruct (find _ (edges_of cartLines)) as [[n]|] eqn:F; [|discriminate].
    cbn [node]. intros ->. apply find_first in F as (l1 & l2 & E & Hn & Hg).
    exists l1, l2. auto.
Qed.

Lemma truthy_ids_all (l : list (option string)) :
  Forall (fun o => str_truthy o = true) l -> map Some (truthy_ids l) = l.
Proof.
  induction 1 as [|o l Ho _ IH]; [reflexivity|].
  destruct o as [x|]; [|discriminate]. simpl in *.
  destruct (String.eqb x ""); [discriminate|]. simpl. rewrite IH. reflexivity.
Qed.

Lemma truthy_ids_length (l : list (option string)) :
  (List.length (truthy_ids l) <= List.length l)%nat.
Proof.
  induction l as [|[x|] l IH]; simpl; [lia| |lia].
  destruct (String.eqb x ""); simpl; lia.
Qed.

(** X3.  [findGiftLineIds] returns exactly the non-empty ids of the gift
    lines: never the id of another line, never an empty string, at most
    one id per gift line; and when every gift line has an id, the ids of
    the gift lines in cart order. *)
Theorem findGiftLineIds_spec (ls : list CartEdge) :
  (forall i, In i (findGiftLineIds (Some ls)) <->
             i <> "" /\ exists e, In e ls /\ isGiftItem (node e) = true
                                  /\ edge_id e = Some i) /\
  (List.length (findGiftLineIds (Some ls)) <= List.length (giftLines ls))%nat /\
  (Forall (fun e => str_truthy (edge_id e) = true) (giftLines ls) ->
   map Some (findGiftLineIds (Some ls)) = map edge_id (giftLines ls)).
Proof.
  unfold findGiftLineIds, giftLines. cbn [edges_of]. split; [|split].
  - intros i. rewrite truthy_ids_In, in_map_iff. split.
    + intros [(e & He & Hin) Hi]. apply filter_In in Hin as [Hin Hg].
      split; [exact Hi|]. exists e. auto.
    + intros (Hi & e & Hin & Hg & He). split; [|exact Hi].
      exists e. split; [exact He|]. apply filter_In. auto.
  - rewrite <- (length_map edge_id). apply truthy_ids_length.
  - intros H. apply truthy_ids_all. rewrite Forall_map. exact H.
Qed.

End Helpers.

Section MoreReconciliation.

Context {JSN : JsNumber}.
Context {S : Type}.
Variable h : Handler S.

(** X4.  [handleGraphQLErrors] succeeds exactly when the response has
    neither GraphQL errors nor user errors, and GraphQL errors come first:
    with any of them the reason is the first one's message (or the
    fallback), whatever user errors the response carries as well. *)
Theorem handleGraphQLErrors_spec (r : GraphQLMutationResponse) (operation : string) :
  (handleGraphQLErrors r operation = Success <-> ~ hasErrors r) /\
  (forall e es, m_errors r = Some (e :: es) ->
     handleGraphQLErrors r operation
       = Failure (str_or (message e) ("Failed to " ++ operation))).
Proof.
  split.
  - rewrite firstError_hasErrors, handleGraphQLErrors_firstError.
    destruct (firstError r); split; intros H; try discriminate; try congruence.
    exfalso. apply H. discriminate.
  - intros e es He. unfold handleGraphQLErrors. rewrite He. reflexivity.
Qed.

(** X5.  [getGiftRules] never rejects and makes exactly one call, the
    metafields query: a rejected call, a response that is not [ok], a body
    that cannot be read, a missing installation and a missing or empty
    variant id all give [null]; a rule is returned in no other case. *)
Theorem getGiftRules_never_rejects (s : S) :
  let answer := fst (h _ GetAppGiftRulesMetafields s) in
  exists r,
    run getGiftRules h s
      = (Resolved r, [ Ev GetAppGiftRulesMetafields answer ],
         snd (h _ GetAppGiftRulesMetafields s)) /\
    (r <> None <->
     exists ai v,
       answer = Resolved {| resp_ok := true; resp_json := Resolved (Some ai) |} /\
       gift_variant_id ai = Some v /\ v <> "").
Proof.
  intros answer. rewrite run_getGiftRules. fold answer.
  eexists. split; [reflexivity|].
  destruct answer as [t|[ok js]]; cbn.
  { split; [congruence|]. intros (ai & v & E & _). discriminate. }
  destruct ok; cbn.
  2:{ split; [congruence|]. intros (ai & v & E & _). discriminate. }
  destruct js as [t|[ai|]]; cbn.
  1,3: split; [congruence|]; intros (ai' & v & E & _); discriminate.
  destruct (gift_variant_id ai) as [v|] eqn:Ev; cbn.
  - destruct (String.eqb_spec v "") as [->|Hv]; cbn.
    + split; [congruence|]. intros (ai' & v & E & E' & Hv).
      injection E as <-. congruence.
    + apply String.eqb_neq in Hv. rewrite Hv. apply String.eqb_neq in Hv.
      split; [|discriminate]. intros _. exists ai, v. auto.
  - split; [congruence|]. intros (ai' & v & E & E' & Hv).
    injection E as <-. congruence.
Qed.

(** X6.  The cart id is normalised once: the result always starts with
    "gid://", an id that does is kept as it is, and a cart token and its
    global id are reconciled by the very same run. *)
Theorem cartGidOf_normal (cartId : string) :
  String.prefix "gid://" (cartGidOf cartId) = true /\
  cartGidOf (cartGidOf cartId) = cartGidOf cartId /\
  applyGiftLogic (cartGidOf cartId) = applyGiftLogic cartId.
Proof.
  assert (Hp : String.prefix "gid://" (cartGidOf cartId) = true).
  { unfold cartGidOf. destruct (String.prefix "gid://" cartId) eqn:E; [exact E|].
    reflexivity. }
  assert (Hi : cartGidOf (cartGidOf cartId) = cartGidOf cartId).
  { unfold cartGidOf at 1. rewrite Hp. reflexivity. }
  repeat split; try assumption.
  unfold applyGiftLogic. rewrite Hi. reflexivity.
Qed.

Lemma resultFacts_cons (res : Outcome ApplyGiftResult) (e : Event) (tr : list Event) :
  resultFacts res tr -> tr <> [] -> resultFacts res (e :: tr).
Proof.
  intros [Ha Hr] Hne. split.
  - intros r E A. destruct (Ha r E A) as (Hrm & pre & e' & -> & Hc).
    split; [exact Hrm|]. exists (e :: pre), e'. auto.
  - intros t E. destruct (Hr t E) as (pre & e' & -> & Hc).
    exists (e :: pre), e'. auto.
Qed.

Lemma resultFacts_not_applied (why : string) (removedFlag : option bool)
    (tr : list Event) :
  resultFacts (Resolved {| applied := false; removed := removedFlag; reason := why |}) tr.
Proof.
  split.
  - intros r E A. injection E as <-. discriminate A.
  - intros t E. discriminate E.
Qed.

Ltac answer_cases c s :=
  let t := fresh "t" in
  let r := fresh "r" in
  let s1 := fresh "s" in
  let m := fresh "m" in
  let Hf := fresh "Hf" in
  let Hh := fresh "Hh" in
  destruct (h _ c s) as [[t|r] s1];
  [ | cbn [fst snd settled];
      match goal with
      | |- context [handleGraphQLErrors r ?op] =>
          destruct (settled_reported op r) as [[Hf Hh]|[m [Hf Hh]]]; rewrite Hh
      end ].

Ltac at_state tac :=
  match goal with
  | |- context [run _ h ?x] => tac x
  end.

Ltac one_call :=
  split;
  [ intros ? E A;
    first [ discriminate E
          | injection E as <-; cbn in A;
            first [ discriminate A
                  | split; [reflexivity|]; eexists [], _;
                    split; [reflexivity|]; cbn; eauto ] ]
  | intros ? E;
    first [ discriminate E
          | injection E as <-; eexists [], _; split; [reflexivity|]; reflexivity ] ].

Lemma addGiftStep_facts (giftRules : GiftRule) (gid : string) (s : S) :
  mutations (snd (fst (run (addGiftStep giftRules gid) h s)))
    = [ MAdd gid [ giftLineInput (giftVariantId giftRules) ] ] /\
  snd (fst (run (addGiftStep giftRules gid) h s)) <> [] /\
  resultFacts (fst (fst (run (addGiftStep giftRules gid) h s)))
              (snd (fst (run (addGiftStep giftRules gid) h s))).
Proof.
  unfold addGiftStep. rewrite run_bind, run_addGiftItem.
  answer_cases (CartLinesAdd gid [giftLineInput (giftVariantId giftRules)]) s;
    cbn; (split; [reflexivity|]); (split; [discriminate|]);
    try apply resultFacts_not_applied; one_call.
Qed.

Lemma quantityStep_facts (giftRules : GiftRule) (gid : string)
    (giftLine : option CartLineNode) (s : S) :
  let res := fst (fst (run (quantityStep giftRules gid giftLine) h s)) in
  let tr := snd (fst (run (quantityStep giftRules gid giftLine) h s)) in
  (mutations tr = []
   \/ (exists i, mutations tr = [ MUpdate gid (setToOne i) ])
   \/ mutations tr = [ MAdd gid [ giftLineInput (giftVariantId giftRules) ] ]) /\
  (tr = [] -> exists why, res = Resolved (notApplied why)) /\
  (forall r, res = Resolved r -> removed r = None) /\
  resultFacts res tr.
Proof.
  assert (Hadd : forall s,
    let res := fst (fst (run (addGiftStep giftRules gid) h s)) in
    let tr := snd (fst (run (addGiftStep giftRules gid) h s)) in
    (mutations tr = []
     \/ (exists i, mutations tr = [ MUpdate gid (setToOne i) ])
     \/ mutations tr = [ MAdd gid [ giftLineInput (giftVariantId giftRules) ] ]) /\
    (tr = [] -> exists why, res = Resolved (notApplied why)) /\
    (forall r, res = Resolved r -> removed r = None) /\
    resultFacts res tr).
  { intros s0. destruct (addGiftStep_facts giftRules gid s0) as (Hm & Hne & Hf).
    cbv zeta. split; [right; right; exact Hm|].
    split; [intros E; contradiction|]. split; [|exact Hf].
    clear Hm Hne Hf. unfold addGiftStep. rewrite run_bind, run_addGiftItem.
    destruct (h _ _ s0) as [[t|r0] s1]; cbn; [discriminate|].
    destruct (handleGraphQLErrors r0 _); cbn; intros r E;
      injection E as <-; reflexivity. }
  unfold quantityStep.
  destruct giftLine as [g|]; [|apply Hadd].
  destruct (str_truthy (id g)); [|apply Hadd].
  destruct (1 <? int_or_zero (quantity g)).
  2:{ cbn. split; [left; reflexivity|].
      split; [intros _; eexists; reflexivity|].
      split; [intros r0 E; injection E as <-; reflexivity|].
      apply resultFacts_not_applied. }
  rewrite run_bind, run_updateGiftQuantity.
  answer_cases (CartLinesUpdate gid [ {| up_id := str_or (id g) ""; up_quantity := 1 |} ]) s;
    cbn; (split; [right; left; eexists; reflexivity|]); (split; [discriminate|]);
    (split; [intros r0 E; try discriminate E; injection E as <-; reflexivity|]);
    try apply resultFacts_not_applied; one_call.
Qed.

Lemma reconcile_facts (giftRules : GiftRule) (gid : string)
    (cartData : CartData) (s : S) :
  let res := fst (fst (run (reconcile giftRules gid cartData) h s)) in
  let tr := snd (fst (run (reconcile giftRules gid cartData) h s)) in
  reconcileShape gid (giftVariantId giftRules) (mutations tr) /\
  resultFacts res tr /\
  (forall r, res = Resolved r -> removed r = Some true ->
     applied r = false /\
     nlt (calculateSubtotalWithoutGifts (lines_edges cartData))
         (minCartSubtotal giftRules) = true /\
     mutations tr = [ MRemove gid (findGiftLineIds (lines_edges cartData)) ]).
Proof.
  cbv zeta. unfold reconcile.
  destruct (nlt _ _) eqn:Hlt.
  - destruct (findGiftLineIds (lines_edges cartData)) as [|i ids];
      cbn [List.length Z.of_nat Z.ltb Z.compare].
    + cbn. split; [left; reflexivity|]. split; [apply resultFacts_not_applied|].
      intros r E Hr. injection E as <-. discriminate Hr.
    + rewrite run_bind, run_removeGiftItems.
      answer_cases (CartLinesRemove gid (i :: ids)) s; cbn;
        (split; [right; left; exists (i :: ids); split; [discriminate|reflexivity]|]).
      * split; [one_call|]. intros r E. discriminate E.
      * split; [apply resultFacts_not_applied|].
        intros r0 E Hr. injection E as <-. auto.
      * split; [apply resultFacts_not_applied|].
        intros r0 E Hr. injection E as <-. discriminate Hr.
  - rewrite run_bind, run_removeStep, run_removeGiftItems.
    destruct (giftItemsToRemove giftRules cartData) as [|i ids].
    + cbn [fst snd].
      destruct (quantityStep_facts giftRules gid (correctGiftLine giftRules cartData) s)
        as (Hm & _ & Hrm & Hf).
      destruct (run (quantityStep _ _ _) h s) as [[res tr] s3].
      cbn [fst snd app] in *.
      split; [|split; [exact Hf|]].
      * destruct Hm as [-> | [[j ->] | ->]]; unfold reconcileShape; eauto 10.
      * intros r E Hr. rewrite (Hrm r E) in Hr. discriminate Hr.
    + answer_cases (CartLinesRemove gid (i :: ids)) s; cbn [fst snd settled].
      * cbn. split; [right; left; exists (i :: ids); split; [discriminate|reflexivity]|].
        split; [one_call|]. intros r E. discriminate E.
      * at_state ltac:(fun x =>
          destruct (quantityStep_facts giftRules gid
                      (correctGiftLine giftRules cartData) x)
            as (Hm & Hnil & Hrm & Hq);
          destruct (run (quantityStep giftRules gid
                           (correctGiftLine giftRules cartData)) h x)
            as [[res tr] s3]).
        cbn in *. split; [|split].
        -- destruct Hm as [-> | [[j ->] | ->]]; unfold reconcileShape.
           ++ right; left. exists (i :: ids). split; [discriminate|reflexivity].
           ++ do 4 right; left. exists (i :: ids), j. split; [discriminate|reflexivity].
           ++ do 5 right. exists (i :: ids). split; [discriminate|reflexivity].
        -- destruct tr as [|e tr].
           ++ destruct (Hnil eq_refl) as (why & ->). apply resultFacts_not_applied.
           ++ apply resultFacts_cons; [exact Hq|discriminate].
        -- intros r0 E Hr. rewrite (Hrm r0 E) in Hr. discriminate Hr.
      * cbn. split; [right; left; exists (i :: ids); split; [discriminate|reflexivity]|].
        split; [apply resultFacts_not_applied|].
        intros r0 E Hr. injection E as <-. discriminate Hr.
Qed.

(** The same facts for a whole run. *)
Lemma applyGiftLogic_facts (s : S) (cartId : string) :
  let res := fst (fst (run (applyGiftLogic cartId) h s)) in
  let tr := snd (fst (run (applyGiftLogic cartId) h s)) in
  (mutations tr = [] \/
   exists giftRules cartData s2,
     serves h s cartId giftRules cartData s2 /\
     reconcileShape (cartGidOf cartId) (giftVariantId giftRules) (mutations tr)) /\
  resultFacts res tr /\
  (forall r, res = Resolved r -> removed r = Some true ->
     applied r = false /\
     exists ids, ids <> [] /\ mutations tr = [ MRemove (cartGidOf cartId) ids ]).
Proof.
  cbv zeta.
  destruct (h _ GetAppGiftRulesMetafields s) as [a s1] eqn:Ha.
  assert (Hstart : forall k : option GiftRule -> Remote ApplyGiftResult,
            run (giftRules <- getGiftRules ;; k giftRules)%remote h s
            = let '(r, tr, s3) := run (k (rulesOfOutcome a)) h s1 in
              (r, Ev GetAppGiftRulesMetafields a :: tr, s3)).
  { intros k. rewrite run_bind, run_getGiftRules, Ha. cbn [fst snd].
    destruct (run (k (rulesOfOutcome a)) h s1) as [[r tr] s3]. reflexivity. }
  unfold applyGiftLogic. rewrite Hstart. clear Hstart.
  destruct (rulesOfOutcome a) as [giftRules|] eqn:Hr.
  2:{ cbn. split; [left; reflexivity|].
      split; [apply resultFacts_not_applied|]. intros r E Hm.
      injection E as <-. discriminate Hm. }
  destruct (enableRule giftRules) eqn:He; cbn [negb].
  2:{ cbn. split; [left; reflexivity|].
      split; [apply resultFacts_not_applied|]. intros r E Hm.
      injection E as <-. discriminate Hm. }
  rewrite run_bind, run_getCartData.
  destruct (h _ (GetCart (cartGidOf cartId)) s1) as [[t|cj] s2] eqn:Hc; cbn [fst snd].
  { cbn. split; [left; reflexivity|]. split.
    - split; [intros r E; discriminate E|].
      intros t0 E. injection E as <-.
      exists [Ev GetAppGiftRulesMetafields a], (Ev (GetCart (cartGidOf cartId)) (Rejected t)).
      split; reflexivity.
    - intros r E. discriminate E. }
  assert (Hfail : forall why,
    (mutations (snd (fst (Resolved (notApplied why),
        [Ev GetAppGiftRulesMetafields a; Ev (GetCart (cartGidOf cartId)) (Resolved cj)], s2))) = [] \/
     exists giftRules0 cartData s3,
       serves h s cartId giftRules0 cartData s3 /\
       reconcileShape (cartGidOf cartId) (giftVariantId giftRules0)
         (mutations (snd (fst (Resolved (notApplied why),
        [Ev GetAppGiftRulesMetafields a; Ev (GetCart (cartGidOf cartId)) (Resolved cj)], s2))))) /\
    resultFacts (Resolved (notApplied why))
      [Ev GetAppGiftRulesMetafields a; Ev (GetCart (cartGidOf cartId)) (Resolved cj)] /\
    (forall r, Resolved (notApplied why) = Resolved r -> removed r = Some true ->
       applied r = false /\
       exists ids, ids <> [] /\
         mutations [Ev GetAppGiftRulesMetafields a;
                    Ev (GetCart (cartGidOf cartId)) (Resolved cj)]
           = [ MRemove (cartGidOf cartId) ids ])).
  { intros why. split; [left; reflexivity|].
    split; [apply resultFacts_not_applied|].
    intros r E Hm. injection E as <-. discriminate Hm. }
  assert (Hok : forall cartData,
    match q_errors cj with Some (_ :: _) => False | _ => True end ->
    q_cart cj = Some cartData ->
    let run1 := run (reconcile giftRules (cartGidOf cartId) cartData) h s2 in
    let res := fst (fst run1) in
    let tr := Ev GetAppGiftRulesMetafields a
              :: Ev (GetCart (cartGidOf cartId)) (Resolved cj) :: snd (fst run1) in
    (mutations tr = [] \/
     exists giftRules0 cartData0 s3,
       serves h s cartId giftRules0 cartData0 s3 /\
       reconcileShape (cartGidOf cartId) (giftVariantId giftRules0) (mutations tr)) /\
    resultFacts res tr /\
    (forall r, res = Resolved r -> removed r = Some true ->
       applied r = false /\
       exists ids, ids <> [] /\ mutations tr = [ MRemove (cartGidOf cartId) ids ])).
  { intros cartData Hq Hcart.
    destruct (reconcile_facts giftRules (cartGidOf cartId) cartData s2)
      as (Hshape & Hf & Hrm).
    cbv zeta. destruct (run (reconcile _ _ _) h s2) as [[res tr] s3].
    cbn [fst snd mutations mutation_of] in *.
    split; [|split].
    - right. exists giftRules, cartData, s2. split; [|exact Hshape].
      exists a, s1, cj. split; [exact Ha|]. split; [exact Hr|].
      split; [exact He|]. split; [exact Hc|]. split; [exact Hq|exact Hcart].
    - destruct tr as [|e tr].
      + split.
        * intros r E A. destruct Hf as [Hf _].
          destruct (Hf r E A) as (_ & [|? ?] & ? & Habs & _); discriminate Habs.
        * intros t E. destruct Hf as [_ Hf].
          destruct (Hf t E) as ([|? ?] & ? & Habs & _); discriminate Habs.
      + apply resultFacts_cons; [|discriminate].
        apply resultFacts_cons; [exact Hf|discriminate].
    - intros r E Hr'. destruct (Hrm r E Hr') as (Ha' & Hlt & Hm). split; [exact Ha'|].
      exists (findGiftLineIds (lines_edges cartData)). split; [|exact Hm].
      intros Hn. rewrite Hn in Hm.
      destruct Hshape as [Hs|[(ids & Hne & Hs)|[(i & Hs)|[Hs|[(ids & i & _ & Hs)|(ids & _ & Hs)]]]]];
        rewrite Hs in Hm; try discriminate Hm.
      injection Hm as ->. contradiction. }
  destruct (q_errors cj) as [[|g gs]|] eqn:Hq.
  - destruct (q_cart cj) as [cartData|] eqn:Hcart; [|apply Hfail].
    specialize (Hok cartData I eq_refl). cbv zeta in Hok.
    destruct (run (reconcile _ _ _) h s2) as [[res tr] s3]. exact Hok.
  - apply Hfail.
  - destruct (q_cart cj) as [cartData|] eqn:Hcart; [|apply Hfail].
    specialize (Hok cartData I eq_refl). cbv zeta in Hok.
    destruct (run (reconcile _ _ _) h s2) as [[res tr] s3]. exact Hok.
Qed.

(** X7.  Whatever the environment answers, a run issues at most two
    mutations, all on the normalised cart id: nothing, one removal, one
    quantity update to 1, one addition of the rule's gift line, or a
    removal followed by an update or by an addition; never an addition
    together with an update, and nothing before a rule and a cart have
    been served. *)
Theorem applyGiftLogic_mutation_shapes (s : S) (cartId : string) :
  let ms := mutations (snd (fst (run (applyGiftLogic cartId) h s))) in
  (List.length ms <= 2)%nat /\
  (ms = [] \/
   exists giftRules cartData s2,
     serves h s cartId giftRules cartData s2 /\
     reconcileShape (cartGidOf cartId) (giftVariantId giftRules) ms).
Proof.
  intros ms. destruct (applyGiftLogic_facts s cartId) as (Hshape & _).
  fold ms in Hshape. split; [|exact Hshape].
  destruct Hshape as [->|(giftRules & cartData & s2 & _ & Hshape)]; [simpl; lia|].
  destruct Hshape as [Hs|[(ids & _ & Hs)|[(i & Hs)|[Hs|[(ids & i & _ & Hs)|(ids & _ & Hs)]]]]];
    rewrite Hs; simpl; lia.
Qed.

(** X8.  A result with [applied: true] is returned only when the last call
    of the run was the addition of the gift line or the quantity update
    and its answer carried no error; such a result has no [removed]
    flag. *)
Theorem applyGiftLogic_applied_needs_change (s : S) (cartId : string)
    (r : ApplyGiftResult) :
  fst (fst (run (applyGiftLogic cartId) h s)) = Resolved r ->
  applied r = true ->
  removed r = None /\
  exists pre e,
    snd (fst (run (applyGiftLogic cartId) h s)) = (pre ++ [e])%list /\
    acceptedChange e.
Proof.
  intros Hres Ha. destruct (applyGiftLogic_facts s cartId) as (_ & [Hf _] & _).
  exact (Hf r Hres Ha).
Qed.

(** X9.  A result with [removed: true] is returned only when the run
    issued one removal, of a non-empty list of line ids, and nothing
    else; [applied] is then false. *)
Theorem applyGiftLogic_removed_needs_removal (s : S) (cartId : string)
    (r : ApplyGiftResult) :
  fst (fst (run (applyGiftLogic cartId) h s)) = Resolved r ->
  removed r = Some true ->
  applied r = false /\
  exists ids,
    ids <> [] /\
    mutations (snd (fst (run (applyGiftLogic cartId) h s)))
      = [ MRemove (cartGidOf cartId) ids ].
Proof.
  intros Hres Hr. destruct (applyGiftLogic_facts s cartId) as (_ & _ & Hrm).
  exact (Hrm r Hres Hr).
Qed.

(** X10.  When a run rejects, the last call it made is a Storefront call
    (the cart query or a mutation): a rejected or unreadable Admin answer
    never makes the run reject, nor does a run reject before its first
    Storefront call. *)
Theorem applyGiftLogic_rejection (s : S) (cartId : string) (t : Thrown) :
  fst (fst (run (applyGiftLogic cartId) h s)) = Rejected t ->
  exists pre e,
    snd (fst (run (applyGiftLogic cartId) h s)) = (pre ++ [e])%list /\
    storefrontCall e.
Proof.
  intros Hres. destruct (applyGiftLogic_facts s cartId) as (_ & [_ Hf] & _).
  destruct (Hf t Hres) as (pre & e & Htr & He).
  exists pre, e. split; [exact Htr|].
  destruct e as [R c o]. destruct c; cbn in *; auto.
Qed.


(** X12.  The early exits: without a rule, with a disabled rule, or for a
    cart the Storefront does not know, the run ends with [applied: false]
    and the matching reason after the metafields query alone (the cart is
    not fetched) or after the cart query, and issues no mutation. *)
Theorem applyGiftLogic_early_exits (s : S) (cartId : string) :
  let a := fst (h _ GetAppGiftRulesMetafields s) in
  let s1 := snd (h _ GetAppGiftRulesMetafields s) in
  let asked := Ev GetAppGiftRulesMetafields a in
  (rulesOfOutcome a = None ->
   run (applyGiftLogic cartId) h s
     = (Resolved (notApplied "Gift rules not configured"), [ asked ], s1)) /\
  (forall giftRules,
     rulesOfOutcome a = Some giftRules -> enableRule giftRules = false ->
     run (applyGiftLogic cartId) h s
       = (Resolved (notApplied "Gift rule is disabled"), [ asked ], s1)) /\
  (forall giftRules cartJson s2,
     rulesOfOutcome a = Some giftRules -> enableRule giftRules = true ->
     h _ (GetCart (cartGidOf cartId)) s1 = (Resolved cartJson, s2) ->
     match q_errors cartJson with Some (_ :: _) => False | _ => True end ->
     q_cart cartJson = None ->
     run (applyGiftLogic cartId) h s
       = (Resolved (notApplied "Cart not found"),
          [ asked; Ev (GetCart (cartGidOf cartId)) (Resolved cartJson) ], s2)).
Proof.
  cbv zeta. unfold applyGiftLogic. rewrite run_bind, run_getGiftRules.
  cbn [fst snd]. repeat split.
  - intros ->. reflexivity.
  - intros giftRules -> ->. reflexivity.
  - intros giftRules cartJson s2 -> -> Hc Hq Hcart. cbn [negb].
    rewrite run_bind, run_getCartData, Hc. cbn [fst snd]. rewrite Hcart.
    destruct (q_errors cartJson) as [[|]|]; try contradiction; reflexivity.
Qed.

End MoreReconciliation.

Section MoreOnPlatform.

Context {JSN : JsNumber}.

(** A run on the platform leaves the lines that are no gifts, the stored
    rule and the cart id as they are. *)
Lemma run_keeps_paid_lines (p : Platform) (cartId : string) :
  lines_have_ids (p_lines p) ->
  (List.length (p_lines p) <= 250)%nat ->
  let p' := snd (run (applyGiftLogic cartId) platform p) in
  paidLines (p_lines p') = paidLines (p_lines p) /\
  p_admin p' = p_admin p /\ p_cartGid p' = p_cartGid p.
Proof.
  intros Hwf Hl.
  destruct (rulesOfOutcome (p_admin p)) as [giftRules|] eqn:Hr.
  2:{ unfold applyGiftLogic. rewrite run_bind, run_getGiftRules.
      cbn [platform fst snd]. rewrite Hr. cbn. auto. }
  destruct (enableRule giftRules) eqn:He.
  2:{ unfold applyGiftLogic. rewrite run_bind, run_getGiftRules.
      cbn [platform fst snd]. rewrite Hr. cbv iota beta. rewrite He.
      cbn. auto. }
  destruct (String.eqb (cartGidOf cartId) (p_cartGid p)) eqn:Hg.
  2:{ unfold applyGiftLogic. rewrite run_bind, run_getGiftRules.
      cbn [platform fst snd]. rewrite Hr. cbv iota beta. rewrite He. cbn [negb].
      rewrite run_bind, run_getCartData. cbn [platform fst snd q_errors q_cart].
      rewrite Hg. cbn. auto. }
  apply String.eqb_eq in Hg.
  destruct (nlt (calculateSubtotalWithoutGifts (Some (p_lines p)))
                (minCartSubtotal giftRules)) eqn:Hlt.
  - destruct (run_below_on_platform p cartId giftRules Hr He Hg Hl) as
      (result & tr & q & Hrun & _ & _ & _ & _ & _ & Ha & Hc & Hpaid);
      [|exact Hlt|].
    { apply Forall_forall. intros e Hin. apply giftLines_In in Hin as [Hin _].
      destruct Hwf as [Hall _]. rewrite Forall_forall in Hall. auto. }
    cbv zeta. rewrite Hrun. cbn [snd]. auto.
  - destruct (run_eligible_on_platform p cartId giftRules Hr He Hg Hl Hwf Hlt) as
      (result & tr & q & nd & Hrun & _ & _ & _ & Ha & Hc & Hpaid).
    cbv zeta. rewrite Hrun. cbn [snd]. auto.
Qed.

(** X13.  Reconciliation touches gift lines only: on a cart whose lines
    have distinct ids, whatever the rule, the lines that are no gifts are
    after the run what they were before, in the same order, and so is the
    subtotal the rule is compared with. *)
Theorem applyGiftLogic_keeps_other_lines (p : Platform) (cartId : string) :
  lines_have_ids (p_lines p) ->
  (List.length (p_lines p) <= 250)%nat ->
  let p' := snd (run (applyGiftLogic cartId) platform p) in
  paidLines (p_lines p') = paidLines (p_lines p) /\
  calculateSubtotalWithoutGifts (Some (p_lines p'))
    = calculateSubtotalWithoutGifts (Some (p_lines p)).
Proof.
  intros Hwf Hl p'.
  destruct (run_keeps_paid_lines p cartId Hwf Hl) as (Hpaid & _).
  fold p' in Hpaid. split; [exact Hpaid|].
  rewrite (subtotal_paid (p_lines p')), Hpaid, <- subtotal_paid. reflexivity.
Qed.

(** X14.  One run suffices: on a cart whose lines have distinct ids and
    whose gift line of the rule's variant, if there is one, has a quantity
    of at least 1, the run of an enabled rule leaves no gift line when the
    subtotal is below the minimum, and otherwise exactly one gift line,
    of the rule's variant and with quantity 1. *)
Theorem applyGiftLogic_converges (p : Platform) (cartId : string)
    (giftRules : GiftRule) :
  rulesOfOutcome (p_admin p) = Some giftRules ->
  enableRule giftRules = true ->
  cartGidOf cartId = p_cartGid p ->
  (List.length (p_lines p) <= 250)%nat ->
  lines_have_ids (p_lines p) ->
  (forall g, correctGiftLine giftRules {| lines_edges := Some (p_lines p) |} = Some g ->
             1 <= int_or_zero (quantity g)) ->
  let p' := snd (run (applyGiftLogic cartId) platform p) in
  if nlt (calculateSubtotalWithoutGifts (Some (p_lines p))) (minCartSubtotal giftRules)
  then giftLines (p_lines p') = []
  else exists nd,
         giftLines (p_lines p') = [ {| node := Some nd |} ] /\
         merchandise_id nd = Some (giftVariantId giftRules) /\
         quantity nd = Some 1.
Proof.
  intros Hr He Hg Hl Hwf Hq p'.
  destruct (applyGiftLogic_reaches_target p cartId giftRules Hr He Hg Hl Hwf Hq)
    as (Hcs & _).
  fold p' in Hcs. unfold correct_state in Hcs.
  destruct (run_keeps_paid_lines p cartId Hwf Hl) as (Hpaid & _).
  fold p' in Hpaid.
  rewrite (subtotal_paid (p_lines p')), Hpaid, <- subtotal_paid in Hcs.
  exact Hcs.
Qed.

End MoreOnPlatform.

Section MoreRouteFacts.

Context {JSN : JsNumber}.
Context {S : Type}.
Variable h : Handler S.
Variable zodInvalidTypeMessage : JsonKind -> option JsonKind -> string.
Variable nullPropertyMessage : string.

(** X15.  The action reaches the shop only with a valid request: without
    a shop, with a body that cannot be read or that the schema refuses, no
    call at all is made; and when the Storefront or the Admin API is not
    available, the two initialisations are the only calls, so that
    [applyGiftLogic] is not entered. *)
Theorem action_calls (request : ActionRequest) (s : S) :
  let act := action zodInvalidTypeMessage nullPropertyMessage request in
  (str_truthy (shop request) = false
   \/ (exists t, json request = Rejected t)
   \/ (exists body issue,
         json request = Resolved body /\
         applyGiftSchema_safeParse zodInvalidTypeMessage body = ParseFailure issue) ->
   snd (fst (run act h s)) = [] /\ snd (run act h s) = s) /\
  (forall d cartId o1 s1 o2 s2,
     shop request = Some d -> d <> "" ->
     json request = Resolved (BodyObject (FieldString cartId)) -> cartId <> "" ->
     h _ (UnauthenticatedStorefront d) s = (Resolved o1, s1) ->
     h _ (UnauthenticatedAdmin d) s1 = (Resolved o2, s2) ->
     o1 = false \/ o2 = false ->
     snd (fst (run act h s))
       = [ Ev (UnauthenticatedStorefront d) (Resolved o1);
           Ev (UnauthenticatedAdmin d) (Resolved o2) ]
     /\ snd (run act h s) = s2).
Proof.
  intros act. subst act. unfold action. rewrite run_try_catch. split.
  - intros H.
    destruct (shop request) as [d|]; cbn [str_truthy negb] in *;
      [|split; reflexivity].
    destruct (String.eqb d ""); cbn [negb] in *; [split; reflexivity|].
    destruct H as [H|[(t & H)|(body & issue & H & Hp)]]; [discriminate H| |].
    + rewrite H, run_bind. cbn. split; reflexivity.
    + rewrite H, run_bind. cbn [run]. rewrite run_bind.
      destruct body as [|k|c]; cbn [readCartId run]; [split; reflexivity| |];
        rewrite Hp; cbn; split; reflexivity.
  - intros d cartId o1 s1 o2 s2 Hshop Hd Hjson Hc Hsf Had Hno.
    rewrite Hshop, Hjson. cbn [str_truthy str_or].
    apply String.eqb_neq in Hd. rewrite Hd. cbn [negb].
    match goal with
    | |- snd (fst ?r) = ?tr /\ snd ?r = _ =>
        enough (exists res, r = (res, tr, s2)) as [res ->];
          [split; reflexivity|]
    end.
    rewrite run_bind. cbn [run]. rewrite run_bind.
    cbn [readCartId run applyGiftSchema_safeParse].
    rewrite (nonempty_length cartId Hc).
    rewrite run_bind. unfold await at 1. cbn [run]. rewrite Hsf. cbn [run].
    rewrite run_bind. unfold await at 1. cbn [run]. rewrite Had. cbn [run].
    destruct o1; cbn [negb]; [|cbn; eexists; reflexivity].
    destruct o2; cbn [negb]; [|cbn; eexists; reflexivity].
    destruct Hno; discriminate.
Qed.

End MoreRouteFacts.

Module MoreDiscountFacts.
Import Discount.

(** X16.  The discount depends on the gift-flagged lines and on the
    presence of the Product class only: two inputs that agree on these
    get the same operations, so lines without the flag never change the
    discount; and there is never more than one operation. *)
Theorem cartLinesDiscountsGenerateRun_flagged_only (c1 c2 : CartInput) :
  filter isGiftFlagged (cart_lines c1) = filter isGiftFlagged (cart_lines c2) ->
  (In Product (discount_discountClasses c1)
   <-> In Product (discount_discountClasses c2)) ->
  cartLinesDiscountsGenerateRun c1 = cartLinesDiscountsGenerateRun c2 /\
  (List.length (operations (cartLinesDiscountsGenerateRun c1)) <= 1)%nat.
Proof.
  intros Hf Hp.
  assert (Hrun : forall c,
    cartLinesDiscountsGenerateRun c =
    if existsb (DiscountClass_eqb Product) (discount_discountClasses c)
    then match filter isGiftFlagged (cart_lines c) with
         | [] => {| operations := [] |}
         | gs => {| operations := [ {| candidates := map candidateFor gs;
                                       selectionStrategy := First |} ] |}
         end
    else {| operations := [] |}).
  { intros c. unfold cartLinesDiscountsGenerateRun.
    destruct (cart_lines c) as [|l ls] eqn:El.
    - cbn. destruct (existsb _ _); reflexivity.
    - cbn [List.length Z.of_nat Z.eqb].
      destruct (existsb _ _); cbn [negb]; [|reflexivity].
      destruct (filter isGiftFlagged (l :: ls)); reflexivity. }
  rewrite !Hrun, Hf.
  assert (He : existsb (DiscountClass_eqb Product) (discount_discountClasses c1)
               = existsb (DiscountClass_eqb Product) (discount_discountClasses c2)).
  { destruct (existsb _ (discount_discountClasses c1)) eqn:E1,
             (existsb _ (discount_discountClasses c2)) eqn:E2; try reflexivity.
    - apply DiscountFacts.existsb_Product, Hp, DiscountFacts.existsb_Product in E1.
      congruence.
    - apply DiscountFacts.existsb_Product, Hp, DiscountFacts.existsb_Product in E2.
      congruence. }
  rewrite He. split; [reflexivity|].
  clear He Hp. destruct (existsb _ (discount_discountClasses c2)); [|cbn; lia].
  destruct (filter isGiftFlagged (cart_lines c2)); cbn; lia.
Qed.

End MoreDiscountFacts.

(** ** The settings service and page *)

Module GiftRuleFacts.
Import GiftRuleService.
Local Open Scope admin_scope.

Lemma arun_bind {A B S : Type} (m : Admin A) (f : A -> Admin B)
    (h : AdminHandler S) (s : S) :
  arun (abind m f) h s =
  match arun m h s with
  | (Resolved a, tr, s1) =>
      let '(r, tr2, s2) := arun (f a) h s1 in (r, (tr ++ tr2)%list, s2)
  | (Rejected t, tr, s1) => (Rejected t, tr, s1)
  end.
Proof.
  revert s. induction m as [a|t|R c k IH]; intros s; simpl.
  - destruct (arun (f a) h s) as [[r tr2] s2]. reflexivity.
  - reflexivity.
  - destruct (h R c s) as [o s1]. rewrite IH.
    destruct (arun (k o) h s1) as [[[t|a] tr] s2].
    + reflexivity.
    + destruct (arun (f a) h s2) as [[r tr2] s3]. reflexivity.
Qed.

Lemma arun_getCurrentAppInstallationId {S : Type} (h : AdminHandler S) (s : S) :
  arun getCurrentAppInstallationId h s =
  (match fst (h _ GetCurrentAppInstallation s) with
   | Rejected t => Rejected t
   | Resolved i => Resolved (if str_truthy i then i else None)
   end,
   [ AEv GetCurrentAppInstallation (fst (h _ GetCurrentAppInstallation s)) ],
   snd (h _ GetCurrentAppInstallation s)).
Proof.
  unfold getCurrentAppInstallationId, aawait. simpl.
  destruct (h _ GetCurrentAppInstallation s) as [[t|i] s1]; simpl; [reflexivity|].
  destruct (str_truthy i); reflexivity.
Qed.

Lemma arun_saveGiftRuleMetafields {S : Type} (h : AdminHandler S) (s : S)
    (config : GiftRuleConfig) (i : string) :
  let c := MetafieldsSet (prepareGiftRuleMetafields config i) in
  arun (saveGiftRuleMetafields config i) h s =
  (Resolved (metafieldsResultOf (fst (h _ c s))), [ AEv c (fst (h _ c s)) ],
   snd (h _ c s)).
Proof.
  intros c. unfold saveGiftRuleMetafields, aawait. fold c. simpl.
  destruct (h _ c s) as [[t|answer] s1]; simpl; [reflexivity|].
  destruct (userErrors_or_nil answer); reflexivity.
Qed.

Lemma arun_createAutomaticAppDiscount {S : Type} (h : AdminHandler S) (s : S)
    (currentDate : string) :
  let c := DiscountAutomaticAppCreate (giftDiscount currentDate) in
  exists r,
    arun (createAutomaticAppDiscount currentDate) h s =
    (Resolved r, [ AEv c (fst (h _ c s)) ], snd (h _ c s)) /\
    (dr_success r = true <->
     exists p d, fst (h _ c s) = Resolved p /\
       userErrors_or_nil (dc_userErrors p) = [] /\
       dc_automaticAppDiscount p = Some d) /\
    (dr_success r = true -> dr_errors r = None) /\
    (dr_success r = false ->
     dr_discountId r = None /\ exists m ms, dr_errors r = Some (m :: ms)).
Proof.
  intros c. unfold createAutomaticAppDiscount, aawait. fold (giftDiscount currentDate).
  fold c. simpl.
  destruct (h _ c s) as [[t|p] s1]; simpl.
  - eexists. split; [reflexivity|]. simpl. split; [|split].
    + split; [discriminate|]. intros (p & d & H & _). discriminate.
    + discriminate.
    + intros _. split; [reflexivity|]. eexists _, _. reflexivity.
  - destruct (userErrors_or_nil (dc_userErrors p)) as [|e es] eqn:Hu; simpl.
    + destruct (dc_automaticAppDiscount p) as [d|] eqn:Hd; simpl.
      * eexists. split; [reflexivity|]. simpl. split; [|split].
        -- split; [|reflexivity]. intros _. exists p, d. auto.
        -- reflexivity.
        -- discriminate.
      * eexists. split; [reflexivity|]. simpl. split; [|split].
        -- split; [discriminate|]. intros (p' & d & H & _ & H').
           injection H as <-. congruence.
        -- discriminate.
        -- intros _. split; [reflexivity|]. eexists _, _. reflexivity.
    + eexists. split; [reflexivity|]. simpl. split; [|split].
      * split; [discriminate|]. intros (p' & d & H & H' & _).
        injection H as <-. congruence.
      * discriminate.
      * intros _. split; [reflexivity|]. eexists _, _. reflexivity.
Qed.

(** X17.  [createAutomaticAppDiscount] never rejects and makes exactly one
    call, the creation of the discount "100% discount" of the function
    [gift-discount] starting at the given date.  It succeeds exactly when
    that call resolves without user errors and with a discount; otherwise
    it reports at least one error and no discount id. *)
Theorem createAutomaticAppDiscount_outcomes {S : Type} (h : AdminHandler S) (s : S)
    (currentDate : string) :
  let c := DiscountAutomaticAppCreate (giftDiscount currentDate) in
  exists r,
    arun (createAutomaticAppDiscount currentDate) h s =
    (Resolved r, [ AEv c (fst (h _ c s)) ], snd (h _ c s)) /\
    (dr_success r = true <->
     exists p d, fst (h _ c s) = Resolved p /\
       userErrors_or_nil (dc_userErrors p) = [] /\
       dc_automaticAppDiscount p = Some d) /\
    (dr_success r = true -> dr_errors r = None) /\
    (dr_success r = false ->
     dr_discountId r = None /\ exists m ms, dr_errors r = Some (m :: ms)).
Proof. exact (arun_createAutomaticAppDiscount h s currentDate). Qed.

Lemma join_cons_nonempty (m : string) (ms : list (option string)) :
  m <> "" -> join ", " (Some m :: ms) <> "".
Proof.
  intros Hm. unfold join. simpl.
  destruct (map _ ms); [exact Hm|].
  destruct m; [congruence|discriminate].
Qed.

Lemma str_or_nonempty (o : option string) (d : string) : d <> "" -> str_or o d <> "".
Proof.
  intros Hd. unfold str_or. destruct o as [x|]; [|exact Hd].
  destruct (String.eqb_spec x ""); assumption.
Qed.

Lemma arun_saveGiftRule {S : Type} (h : AdminHandler S) (s : S)
    (currentDate : string) (config : GiftRuleConfig) :
  let res := fst (fst (arun (saveGiftRule currentDate config) h s)) in
  let tr := snd (fst (arun (saveGiftRule currentDate config) h s)) in
  (forall t, res = Rejected t -> tr = [ AEv GetCurrentAppInstallation (Rejected t) ]) /\
  (forall r, res = Resolved r -> success r = true ->
     errors r = None /\
     exists i o2 o3,
       i <> "" /\ accepted o2 /\
       tr = [ AEv GetCurrentAppInstallation (Resolved (Some i));
              AEv (MetafieldsSet (prepareGiftRuleMetafields config i)) o2;
              AEv (DiscountAutomaticAppCreate (giftDiscount currentDate)) o3 ]) /\
  (forall r, res = Resolved r -> success r = false ->
     (exists why, why <> "" /\ errors r = Some [ ("general", why) ]) /\
     (writes tr = [] \/
      exists i, i <> "" /\ writes tr = [ WMetafields (prepareGiftRuleMetafields config i) ])).
Proof.
  intros res tr. subst res tr. unfold saveGiftRule.
  rewrite arun_bind, arun_getCurrentAppInstallationId.
  destruct (h _ GetCurrentAppInstallation s) as [[t|i] s1]; cbn [fst snd].
  { split; [|split]; [intros t' [= <-]; reflexivity|discriminate|discriminate]. }
  destruct i as [i|]; cbn [str_truthy negb str_or].
  2:{ cbn. split; [|split]; [discriminate|intros r [= <-]; discriminate|].
      intros r [= <-] _. split; [|left; reflexivity].
      eexists. split; [|reflexivity]. discriminate. }
  destruct (String.eqb i "") eqn:Hi; cbn [str_truthy negb str_or].
  { cbn. split; [|split]; [discriminate|intros r [= <-]; discriminate|].
    intros r [= <-] _. split; [|left; reflexivity].
    eexists. split; [|reflexivity]. discriminate. }
  rewrite Hi. cbn [negb].
  apply String.eqb_neq in Hi.
  rewrite arun_bind, arun_saveGiftRuleMetafields.
  set (c2 := MetafieldsSet (prepareGiftRuleMetafields config i)).
  destruct (h _ c2 s1) as [o2 s2]; cbn [fst snd].
  destruct (mr_success (metafieldsResultOf o2)) eqn:Hm; cbn [negb].
  - rewrite arun_bind.
    destruct (arun_createAutomaticAppDiscount h s2 currentDate) as (r3 & -> & _).
    cbn. split; [|split]; [discriminate| |intros r [= <-]; discriminate].
    intros r [= <-] _. split; [reflexivity|].
    exists i, o2, (fst (h _ (DiscountAutomaticAppCreate (giftDiscount currentDate)) s2)).
    split; [exact Hi|]. split; [|reflexivity].
    destruct o2 as [t|answer]; [discriminate Hm|].
    exists answer. split; [reflexivity|].
    simpl in Hm. destruct (userErrors_or_nil answer); [reflexivity|discriminate Hm].
  - cbn. split; [|split]; [discriminate|intros r [= <-]; discriminate|].
    intros r [= <-] _. split.
    + eexists. split; [|reflexivity]. apply str_or_nonempty. discriminate.
    + right. exists i. split; [exact Hi|reflexivity].
Qed.

(** X18.  The runs of [saveGiftRule].  It rejects only when the
    installation query does, and then nothing else was called.  A
    successful save made exactly three calls: the installation query, which
    gave a non-empty id, the [metafieldsSet] of the three prepared
    metafields owned by that id, which was accepted, and the creation of the
    discount, whose outcome does not matter.  A failed save carries a
    non-empty [general] message and created no discount: it wrote nothing,
    or only tried the metafields. *)
Theorem saveGiftRule_outcomes {S : Type} (h : AdminHandler S) (s : S)
    (currentDate : string) (config : GiftRuleConfig) :
  let res := fst (fst (arun (saveGiftRule currentDate config) h s)) in
  let tr := snd (fst (arun (saveGiftRule currentDate config) h s)) in
  (forall t, res = Rejected t -> tr = [ AEv GetCurrentAppInstallation (Rejected t) ]) /\
  (forall r, res = Resolved r -> success r = true ->
     errors r = None /\
     exists i o2 o3,
       i <> "" /\ accepted o2 /\
       tr = [ AEv GetCurrentAppInstallation (Resolved (Some i));
              AEv (MetafieldsSet (prepareGiftRuleMetafields config i)) o2;
              AEv (DiscountAutomaticAppCreate (giftDiscount currentDate)) o3 ]) /\
  (forall r, res = Resolved r -> success r = false ->
     (exists why, why <> "" /\ errors r = Some [ ("general", why) ]) /\
     (writes tr = [] \/
      exists i, i <> "" /\ writes tr = [ WMetafields (prepareGiftRuleMetafields config i) ])).
Proof. exact (arun_saveGiftRule h s currentDate config). Qed.

Lemma arun_getGiftRuleConfig {S : Type} (h : AdminHandler S) (s : S) :
  arun getGiftRuleConfig h s =
  (Resolved (match fst (h _ GetGiftRulesMetafields s) with
             | Resolved (Some ai) =>
                 {| cfg_giftVariantId := str_or (gift_variant_id ai) "";
                    cfg_minCartSubtotal := str_or (min_cart_subtotal ai) "0";
                    cfg_enableRule := str_seq (enable_rule ai) "true" |}
             | _ => defaultConfig
             end),
   [ AEv GetGiftRulesMetafields (fst (h _ GetGiftRulesMetafields s)) ],
   snd (h _ GetGiftRulesMetafields s)).
Proof.
  unfold getGiftRuleConfig, aawait. simpl.
  destruct (h _ GetGiftRulesMetafields s) as [[t|[ai|]] s1]; reflexivity.
Qed.

(** X19.  [getGiftRuleConfig] never rejects and makes exactly one call, the
    metafields query.  The configuration it returns never has an empty
    minimum; it is the default one (no variant, "0", disabled) unless the
    query resolved with an installation; and the rule is shown as enabled
    only if the stored [enable_rule] is exactly "true". *)
Theorem getGiftRuleConfig_total {S : Type} (h : AdminHandler S) (s : S) :
  exists config,
    arun getGiftRuleConfig h s =
    (Resolved config,
     [ AEv GetGiftRulesMetafields (fst (h _ GetGiftRulesMetafields s)) ],
     snd (h _ GetGiftRulesMetafields s)) /\
    cfg_minCartSubtotal config <> "" /\
    ((forall ai, fst (h _ GetGiftRulesMetafields s) <> Resolved (Some ai)) ->
     config = defaultConfig) /\
    (cfg_enableRule config = true ->
     exists ai, fst (h _ GetGiftRulesMetafields s) = Resolved (Some ai) /\
                enable_rule ai = Some "true").
Proof.
  rewrite arun_getGiftRuleConfig. eexists. split; [reflexivity|].
  destruct (fst (h _ GetGiftRulesMetafields s)) as [t|[ai|]]; cbn.
  - split; [discriminate|]. split; [reflexivity|discriminate].
  - split; [apply str_or_nonempty; discriminate|]. split.
    + intros H. exfalso. apply (H ai). reflexivity.
    + intros He. exists ai. split; [reflexivity|].
      destruct (enable_rule ai) as [v|]; [|discriminate He].
      cbn in He. apply String.eqb_eq in He. congruence.
  - split; [discriminate|]. split; [reflexivity|discriminate].
Qed.

(** *** Validation messages *)






(** *** Saving on a store and reading back *)

Lemma writes_app (a b : list AdminEvent) :
  writes (a ++ b)%list = (writes a ++ writes b)%list.
Proof.
  induction a as [|e a IH]; simpl; [reflexivity|].
  destruct (write_of e); simpl; rewrite IH; reflexivity.
Qed.

Lemma writes_saveGiftRule {S : Type} (h : AdminHandler S) (s : S)
    (currentDate : string) (config : GiftRuleConfig) (ms : list MetafieldsSetInput) :
  In (WMetafields ms) (writes (snd (fst (arun (saveGiftRule currentDate config) h s)))) ->
  exists i, i <> "" /\ ms = prepareGiftRuleMetafields config i.
Proof.
  destruct (arun_saveGiftRule h s currentDate config) as (Hrej & Hok & Hko).
  cbv zeta in *.
  destruct (fst (fst (arun (saveGiftRule currentDate config) h s))) as [t|r].
  - rewrite (Hrej t eq_refl). simpl. intros [].
  - destruct (success r) eqn:Hs.
    + destruct (Hok r eq_refl Hs) as (_ & i & o2 & o3 & Hi & _ & ->). simpl.
      intros [H|[H|[]]]; [|discriminate H]. injection H as <-. exists i. auto.
    + destruct (Hko r eq_refl Hs) as (_ & [->|(i & Hi & ->)]); simpl.
      * intros [].
      * intros [H|[]]. injection H as <-. exists i. auto.
Qed.

Lemma metafield_stored (ms : list (string * string * string * string))
    (config : GiftRuleConfig) (i : string) :
  metafield (storeMetafields ms (prepareGiftRuleMetafields config i)) i
            "gift_rules" "gift_variant_id" = Some (cfg_giftVariantId config) /\
  metafield (storeMetafields ms (prepareGiftRuleMetafields config i)) i
            "gift_rules" "min_cart_subtotal" = Some (cfg_minCartSubtotal config) /\
  metafield (storeMetafields ms (prepareGiftRuleMetafields config i)) i
            "gift_rules" "enable_rule"
    = Some (if cfg_enableRule config then "true" else "false").
Proof.
  unfold metafield, storeMetafields, prepareGiftRuleMetafields.
  cbn [fold_left find mf_ownerId mf_namespace mf_key mf_value].
  rewrite !String.eqb_refl. cbn. auto.
Qed.

Lemma saveGiftRule_on_store (s : AdminStore) (currentDate : string)
    (config : GiftRuleConfig) (i : string) :
  a_installationId s = Some i -> i <> "" ->
  let r := arun (saveGiftRule currentDate config) adminStore s in
  fst (fst r) = Resolved {| success := true; errors := None |} /\
  installationView (snd r)
    = Some {| gift_variant_id := Some (cfg_giftVariantId config);
              min_cart_subtotal := Some (cfg_minCartSubtotal config);
              enable_rule := Some (if cfg_enableRule config then "true" else "false") |} /\
  a_discounts (snd r) = (a_discounts s ++ [ giftDiscount currentDate ])%list.
Proof.
  intros Hinst Hi r. subst r. unfold saveGiftRule.
  rewrite arun_bind, arun_getCurrentAppInstallationId.
  cbn [adminStore fst snd]. rewrite Hinst. cbn [str_truthy].
  apply String.eqb_neq in Hi. rewrite Hi. cbn [negb str_truthy str_or].
  rewrite Hi. cbn [negb].
  rewrite arun_bind, arun_saveGiftRuleMetafields.
  cbn [adminStore fst snd metafieldsResultOf userErrors_or_nil mr_success negb].
  rewrite arun_bind.
  match goal with
  | |- context [arun (createAutomaticAppDiscount currentDate) adminStore ?s2] =>
      destruct (arun_createAutomaticAppDiscount adminStore s2 currentDate)
        as (r3 & -> & _)
  end.
  cbn [arun fst snd app adminStore a_discounts a_installationId a_metafields].
  split; [reflexivity|]. split; [|reflexivity].
  unfold installationView. cbn [a_installationId a_metafields]. rewrite Hinst.
  destruct (metafield_stored (a_metafields s) config i) as (-> & -> & ->).
  reflexivity.
Qed.

(** X21.  Saving and reading back.  On a store that keeps what it is sent,
    with an installation id, [saveGiftRule] succeeds and adds one more
    automatic discount, whatever discounts exist already; and
    [getGiftRuleConfig] then returns the saved configuration, provided its
    minimum is not empty (an empty one would be read back as "0"). *)
Theorem saveGiftRule_then_getGiftRuleConfig (s : AdminStore) (currentDate : string)
    (config : GiftRuleConfig) (i : string) :
  a_installationId s = Some i -> i <> "" ->
  cfg_minCartSubtotal config <> "" ->
  let r := arun (saveGiftRule currentDate config) adminStore s in
  fst (fst r) = Resolved {| success := true; errors := None |} /\
  fst (fst (arun getGiftRuleConfig adminStore (snd r))) = Resolved config /\
  a_discounts (snd r) = (a_discounts s ++ [ giftDiscount currentDate ])%list.
Proof.
  intros Hinst Hi Hmin r.
  destruct (saveGiftRule_on_store s currentDate config i Hinst Hi) as (Hres & Hview & Hd).
  fold r in Hres, Hview, Hd. split; [exact Hres|]. split; [|exact Hd].
  rewrite arun_getGiftRuleConfig. cbn [adminStore fst snd]. rewrite Hview.
  cbn [gift_variant_id min_cart_subtotal enable_rule str_or str_seq].
  apply String.eqb_neq in Hmin. rewrite Hmin.
  destruct config as [v m e]. cbn. f_equal. f_equal.
  - destruct (String.eqb_spec v ""); congruence.
  - destruct e; reflexivity.
Qed.

Section PageFacts.

Context {JSN : JsNumber}.

Lemma length_lt_1 (x : string) :
  (Z.of_nat (String.length x) <? 1) = String.eqb x "".
Proof. destruct x; [reflexivity|]. cbn [String.length]. apply Z.ltb_ge. lia. Qed.

Lemma giftRuleSchema_minCartSubtotal_refine (val : string) :
  giftRuleSchema_minCartSubtotal val
  = negb (String.eqb val "") && minCartSubtotal_refine val.
Proof.
  unfold giftRuleSchema_minCartSubtotal, minCartSubtotal_refine.
  destruct val; [reflexivity|]. cbn [String.length String.eqb negb].
  replace (1 <=? Z.of_nat (S (String.length val))) with true; [reflexivity|].
  symmetry. apply Z.leb_le. lia.
Qed.

Lemma giftRuleSchema_safeParse_cases (raw : RawData) :
  (raw_giftVariantId raw <> "" /\
   giftRuleSchema_minCartSubtotal (raw_minCartSubtotal raw) = true /\
   giftRuleSchema_safeParse raw
     = ParseOk {| cfg_giftVariantId := raw_giftVariantId raw;
                  cfg_minCartSubtotal := raw_minCartSubtotal raw;
                  cfg_enableRule := String.eqb (raw_enableRule raw) "on"
                                    || String.eqb (raw_enableRule raw) "true" |})
  \/
  ((raw_giftVariantId raw = "" \/
    giftRuleSchema_minCartSubtotal (raw_minCartSubtotal raw) = false) /\
   giftRuleSchema_issues raw <> [] /\
   mapValidationErrors (giftRuleSchema_issues raw) <> [] /\
   giftRuleSchema_safeParse raw = ParseError (giftRuleSchema_issues raw)).
Proof.
  unfold giftRuleSchema_safeParse, giftRuleSchema_issues.
  rewrite giftRuleSchema_minCartSubtotal_refine, !length_lt_1.
  destruct (String.eqb_spec (raw_giftVariantId raw) "") as [Hv|Hv];
    destruct (String.eqb (raw_minCartSubtotal raw) "");
    destruct (minCartSubtotal_refine (raw_minCartSubtotal raw));
    cbn;
    first [ left; split; [exact Hv|]; split; reflexivity
          | right; split; [auto|]; split; [discriminate|]; split;
            [discriminate|reflexivity] ].
Qed.

(** X22.  The messages the page shows for a refused form, assuming as in
    JavaScript that [parseFloat] of the empty string is NaN.  There is a
    message under [giftVariantId] exactly when the variant is empty, and
    one under [minCartSubtotal] exactly when the minimum fails the check;
    the latter is always "must be a number >= 0", also for an empty
    minimum, whose "is required" is overwritten; no other key is set. *)
Theorem validation_messages (raw : RawData) :
  nisNaN (parseFloat "") = true ->
  let errors := mapValidationErrors (giftRuleSchema_issues raw) in
  record_get errors "giftVariantId"
    = (if String.eqb (raw_giftVariantId raw) ""
       then Some "Gift variant ID is required" else None) /\
  record_get errors "minCartSubtotal"
    = (if giftRuleSchema_minCartSubtotal (raw_minCartSubtotal raw) then None
       else Some "Min cart subtotal must be a number >= 0") /\
  (forall k, k <> "giftVariantId" -> k <> "minCartSubtotal" ->
     record_get errors k = None).
Proof.
  intros Hnan errors. subst errors. unfold giftRuleSchema_issues.
  rewrite giftRuleSchema_minCartSubtotal_refine, !length_lt_1.
  assert (Hempty : minCartSubtotal_refine "" = false).
  { unfold minCartSubtotal_refine. rewrite Hnan. reflexivity. }
  destruct (String.eqb (raw_giftVariantId raw) "");
    destruct (String.eqb_spec (raw_minCartSubtotal raw) "") as [Hm|Hm];
    try (rewrite Hm, Hempty);
    try destruct (minCartSubtotal_refine (raw_minCartSubtotal raw));
    (split; [reflexivity|]; split; [reflexivity|]);
    intros k Hk1 Hk2;
    apply not_eq_sym in Hk1; apply not_eq_sym in Hk2;
    apply String.eqb_neq in Hk1; apply String.eqb_neq in Hk2;
    match goal with
    | |- context [mapValidationErrors ?l] =>
        let v := eval vm_compute in (mapValidationErrors l) in
        change (mapValidationErrors l) with v
    end;
    cbn [record_get]; rewrite ?Hk1, ?Hk2; reflexivity.
Qed.

(** X23.  The page action writes validated data only: every
    [metafieldsSet] it sends carries the three metafields prepared from a
    configuration with a non-empty variant and a minimum that passes the
    check, owned by a non-empty installation id.  Without a shop in the
    session it stops after the authentication; with a form the schema
    refuses it writes nothing and returns the validation messages, of
    which there is at least one. *)
Theorem action_writes_validated {S : Type} (h : AdminHandler S) (s : S)
    (currentDate : string) :
  let res := fst (fst (arun (action currentDate) h s)) in
  let tr := snd (fst (arun (action currentDate) h s)) in
  (forall ms, In (WMetafields ms) (writes tr) ->
     exists config i,
       ms = prepareGiftRuleMetafields config i /\ i <> "" /\
       cfg_giftVariantId config <> "" /\
       giftRuleSchema_minCartSubtotal (cfg_minCartSubtotal config) = true) /\
  (forall shop, fst (h _ AuthenticateAdmin s) = Resolved shop ->
     str_truthy shop = false ->
     res = Resolved (general "Unable to get shop domain") /\
     tr = [ AEv AuthenticateAdmin (Resolved shop) ]) /\
  (forall shop form,
     fst (h _ AuthenticateAdmin s) = Resolved shop -> str_truthy shop = true ->
     fst (h _ RequestFormData (snd (h _ AuthenticateAdmin s))) = Resolved form ->
     raw_giftVariantId (rawDataOf form) = "" \/
     giftRuleSchema_minCartSubtotal (raw_minCartSubtotal (rawDataOf form)) = false ->
     writes tr = [] /\
     exists errs, errs <> [] /\
       res = Resolved {| success := false; errors := Some errs |}).
Proof.
  intros res tr. subst res tr.
  destruct (arun (action currentDate) h s) as [[res tr] s'] eqn:Hrun.
  cbn [fst snd]. revert Hrun. unfold action.
  rewrite arun_bind. unfold aawait at 1. cbn [arun].
  destruct (h _ AuthenticateAdmin s) as [[t|shop] s1]; cbn [arun fst snd].
  { intros [= <- <- <-]. split; [intros ms []|]. split; discriminate. }
  destruct (str_truthy shop) eqn:Hshop; cbn [negb].
  2:{ cbn. intros [= <- <- <-]. split; [intros ms []|]. split.
      - intros shop' [= <-] _. split; reflexivity.
      - intros shop' form [= <-]. congruence. }
  rewrite arun_bind. unfold aawait at 1. cbn [arun].
  destruct (h _ RequestFormData s1) as [[t|form] s2]; cbn [arun fst snd].
  { cbn. intros [= <- <- <-]. split; [intros ms []|]. split.
    - intros shop' [= <-]. congruence.
    - discriminate. }
  destruct (giftRuleSchema_safeParse_cases (rawDataOf form))
    as [(Hv & Hm & ->)|(Hbad & _ & Hne & ->)].
  - set (config := {| cfg_giftVariantId := _ |}).
    destruct (arun (saveGiftRule currentDate config) h s2) as [[r3 tr3] s3] eqn:Hsave.
    cbn [fst snd app]. intros [= <- <- <-]. split; [|split].
    + cbn [writes write_of]. intros ms Hin.
      pose proof (writes_saveGiftRule h s2 currentDate config ms) as Hw.
      rewrite Hsave in Hw. destruct (Hw Hin) as (i & Hi & ->).
      exists config, i. auto.
    + intros shop' [= <-]. congruence.
    + intros shop' form' [= <-] _ [= <-] [H|H]; [contradiction|congruence].
  - cbn. intros [= <- <- <-]. split; [intros ms []|]. split.
    + intros shop' [= <-]. congruence.
    + intros shop' form' [= <-] _ [= <-] _. split; [reflexivity|].
      eexists. split; [exact Hne|reflexivity].
Qed.

(** X24.  What the settings page saves is what the storefront route reads.
    After [saveGiftRule] stored a configuration that [giftRuleSchema]
    accepted, [getGiftRules], asking the same store, returns a rule: the
    saved variant, the saved enable flag, and as minimum the saved string
    read by [parseFloat] (0 when that is 0), which is a number and at
    least 0. *)
Theorem saved_rule_is_served (s : AdminStore) (currentDate : string)
    (raw : RawData) (config : GiftRuleConfig) (i : string) (p : Platform) :
  giftRuleSchema_safeParse raw = ParseOk config ->
  a_installationId s = Some i -> i <> "" ->
  p_admin p = adminAnswer (snd (arun (saveGiftRule currentDate config) adminStore s)) ->
  exists r,
    fst (fst (run getGiftRules platform p)) = Resolved (Some r) /\
    giftVariantId r = cfg_giftVariantId config /\
    enableRule r = cfg_enableRule config /\
    minCartSubtotal r = num_or_zero (parseFloat (cfg_minCartSubtotal config)) /\
    nisNaN (minCartSubtotal r) = false /\
    nle nzero (minCartSubtotal r) = true.
Proof.
  intros Hparse Hinst Hi Hadmin.
  destruct (giftRuleSchema_safeParse_cases raw)
    as [(Hv & Hm & Hok)|(_ & _ & _ & Hko)]; [|congruence].
  rewrite Hok in Hparse. injection Hparse as <-.
  set (config := {| cfg_giftVariantId := _ |}) in *.
  destruct (saveGiftRule_on_store s currentDate config i Hinst Hi) as (_ & Hview & _).
  rewrite run_getGiftRules. cbn [platform fst snd]. rewrite Hadmin.
  unfold adminAnswer, rulesOfOutcome. cbn [resp_ok resp_json negb]. rewrite Hview.
  unfold ruleOfInstallation. cbn [gift_variant_id min_cart_subtotal enable_rule str_or].
  subst config. cbn [cfg_giftVariantId cfg_minCartSubtotal cfg_enableRule] in *.
  apply String.eqb_neq in Hv. rewrite Hv. cbn [str_or]. rewrite Hv.
  rewrite giftRuleSchema_minCartSubtotal_refine in Hm.
  apply andb_prop in Hm as [Hne Href].
  apply negb_true_iff in Hne. rewrite Hne.
  eexists. split; [reflexivity|]. cbn. split; [reflexivity|]. split.
  - destruct (_ || _); reflexivity.
  - split; [reflexivity|]. split.
    + apply num_or_zero_not_NaN.
    + apply num_or_zero_nonneg. unfold minCartSubtotal_refine in Href.
      apply andb_prop in Href as [_ Href]. exact Href.
Qed.

End PageFacts.

End GiftRuleFacts.

(** ** Concrete runs of the further properties *)

Module MoreRuns.
Import Examples MoreExamples.

(** X1, witness: the cart of 40 with a gift line has the subtotal of its
    paid line. *)
Lemma calculateSubtotalWithoutGifts_skips_witness :
  @calculateSubtotalWithoutGifts Dec.DecNumber (Some (p_lines belowWithGift))
  = calculateSubtotalWithoutGifts (Some [ paidLine "l1" "40.00" ]).
Proof.
  exact (calculateSubtotalWithoutGifts_skips (JSN := Dec.DecNumber)
           [ paidLine "l1" "40.00" ] [] (giftLine "g1" "V1" (Some 1))
           (or_intror eq_refl)).
Defined.

(** X8, witness: the run that adds the gift ends with the accepted
    addition. *)
Lemma applyGiftLogic_applied_needs_change_witness :
  exists pre e,
    snd (fst (run applyC1 platform eligibleNoGift)) = (pre ++ [e])%list /\
    acceptedChange e.
Proof.
  exact (proj2 (applyGiftLogic_applied_needs_change (JSN := Dec.DecNumber) platform
                  eligibleNoGift "c1"
                  {| applied := true; removed := None;
                     reason := "Gift applied successfully" |}
                  eq_refl eq_refl)).
Defined.

(** X9, witness: below the minimum, the only mutation is one removal. *)
Lemma applyGiftLogic_removed_needs_removal_witness :
  exists ids,
    ids <> [] /\
    mutations (snd (fst (run applyC1 platform belowWithGift)))
      = [ MRemove "gid://shopify/Cart/c1" ids ].
Proof.
  edestruct (applyGiftLogic_removed_needs_removal (JSN := Dec.DecNumber) platform
               belowWithGift "c1") as [_ H].
  - reflexivity.
  - reflexivity.
  - exact H.
Defined.

(** X10, witness: when the cart query rejects, so does the run. *)
Lemma applyGiftLogic_rejection_witness :
  exists pre e,
    snd (fst (run applyC1 cartUnreachable eligibleNoGift)) = (pre ++ [e])%list /\
    storefrontCall e.
Proof.
  exact (applyGiftLogic_rejection (JSN := Dec.DecNumber) cartUnreachable
           eligibleNoGift "c1" (ErrorObject "fetch failed") eq_refl).
Defined.


(** X13, witness: adding the gift leaves the paid line as it was. *)
Lemma applyGiftLogic_keeps_other_lines_witness :
  paidLines (p_lines (snd (run applyC1 platform eligibleNoGift)))
  = [ paidLine "l1" "60.00" ].
Proof.
  destruct (applyGiftLogic_keeps_other_lines (JSN := Dec.DecNumber)
              eligibleNoGift "c1") as [H _].
  - split.
    + repeat constructor.
    + repeat constructor. simpl. tauto.
  - apply (Runs.few_lines eligibleNoGift 1); reflexivity.
  - exact H.
Defined.

(** X14, witness: from the gift line of quantity 3, one run leaves the
    single gift line of quantity 1. *)
Lemma applyGiftLogic_converges_witness :
  exists nd,
    giftLines (p_lines (snd (run applyC1 platform tripleGift)))
      = [ {| node := Some nd |} ] /\
    merchandise_id nd = Some "V1" /\ quantity nd = Some 1.
Proof.
  refine (applyGiftLogic_converges (JSN := Dec.DecNumber) tripleGift "c1" giftRuleV1
            eq_refl eq_refl eq_refl _ _ _).
  - apply (Runs.few_lines tripleGift 2); reflexivity.
  - split.
    + repeat constructor.
    + repeat constructor; simpl; intuition discriminate.
  - intros g [= <-]. simpl. lia.
Defined.

(** X25, witness: after the gift was added, the second run does
    nothing. *)
Lemma applyGiftLogic_twice_witness :
  exists result tr,
    run applyC1 platform (snd (run applyC1 platform eligibleNoGift))
      = (Resolved result, tr, snd (run applyC1 platform eligibleNoGift)) /\
    mutations tr = [] /\ applied result = false.
Proof.
  refine (applyGiftLogic_twice (JSN := Dec.DecNumber) eligibleNoGift "c1" giftRuleV1
            eq_refl eq_refl eq_refl _ _ _ _).
  - apply Nat.ltb_lt. reflexivity.
  - split.
    + repeat constructor.
    + repeat constructor. simpl. tauto.
  - intros n. simpl. discriminate.
  - intros g [=].
Defined.

(** X16, witness: the paid line between two gift lines, and the other
    discount classes, do not change the discount. *)
Lemma cartLinesDiscountsGenerateRun_flagged_only_witness :
  Discount.cartLinesDiscountsGenerateRun twoGiftsOfThree
  = Discount.cartLinesDiscountsGenerateRun onlyGifts.
Proof.
  refine (proj1 (MoreDiscountFacts.cartLinesDiscountsGenerateRun_flagged_only
                   twoGiftsOfThree onlyGifts eq_refl _)).
  simpl. split; intros _; auto.
Defined.

(** X21, witness: the rule V1 from 50 on, saved on a fresh store, is read
    back, and one discount was created. *)
Lemma saveGiftRule_then_getGiftRuleConfig_witness :
  fst (fst (GiftRuleService.arun GiftRuleService.getGiftRuleConfig
              GiftRuleService.adminStore savedStore)) = Resolved rule50 /\
  GiftRuleService.a_discounts savedStore = [ GiftRuleService.giftDiscount savingDate ].
Proof.
  destruct (GiftRuleFacts.saveGiftRule_then_getGiftRuleConfig freshStore savingDate
              rule50 installationId) as (_ & H1 & H2).
  - reflexivity.
  - discriminate.
  - discriminate.
  - split; [exact H1|exact H2].
Defined.

(** X22, witness: the empty form is told that the minimum must be a
    number. *)
Lemma validation_messages_witness :
  GiftRuleService.record_get
    (GiftRuleService.mapValidationErrors
       (GiftRuleService.giftRuleSchema_issues (JSN := Dec.DecNumber) emptyForm))
    "minCartSubtotal"
  = Some "Min cart subtotal must be a number >= 0".
Proof.
  exact (proj1 (proj2 (GiftRuleFacts.validation_messages (JSN := Dec.DecNumber)
                         emptyForm eq_refl))).
Defined.

(** X24, witness: the storefront route reads the saved rule as variant V1
    with the minimum 50. *)
Lemma saved_rule_is_served_witness :
  exists r,
    fst (fst (run (getGiftRules (JSN := Dec.DecNumber)) platform savedShop))
      = Resolved (Some r) /\
    giftVariantId r = "V1" /\ enableRule r = true /\
    minCartSubtotal r = Dec.Fin 50 0.
Proof.
  destruct (GiftRuleFacts.saved_rule_is_served (JSN := Dec.DecNumber) freshStore
              savingDate (GiftRuleService.rawDataOf form50) rule50 installationId
              savedShop) as (r & Hr & Hv & He & Hm & _).
  - reflexivity.
  - reflexivity.
  - discriminate.
  - reflexivity.
  - exists r. split; [exact Hr|]. split; [exact Hv|]. split; [exact He|].
    rewrite Hm. reflexivity.
Defined.

End MoreRuns.

(** ** Carts outside the conditions *)

Lemma distinct_ids_NoDup (l : list (option string)) :
  distinct_ids l = true -> NoDup l.
Proof.
  induction l as [|a l IH]; simpl; [constructor|].
  intros H. apply andb_prop in H as [Ha Hl]. constructor; [|exact (IH Hl)].
  intros Hin. apply negb_true_iff in Ha.
  assert (existsb (same_id a) l = true); [|congruence].
  apply existsb_exists. exists a. split; [exact Hin|].
  destruct a as [x|]; simpl; [apply String.eqb_refl|reflexivity].
Qed.

Lemma lines_have_idsb_sound (ls : list CartEdge) :
  lines_have_idsb ls = true -> lines_have_ids ls.
Proof.
  unfold lines_have_idsb, lines_have_ids. intros H.
  apply andb_prop in H as [Hall Hd]. split.
  - apply Forall_forall. intros e He.
    exact (proj1 (forallb_forall _ ls) Hall e He).
  - apply distinct_ids_NoDup; exact Hd.
Qed.

Module EdgeRuns.
Import Examples EdgeExamples.

(** C1, as stated, fails on eligible carts, with the rule V1 from 50 on.
    A gift line of another variant that has no id is not removed, so that
    two gift lines are left, one of the wrong variant; and in a cart of 251
    lines with distinct ids whose last line is the gift, the gift is not
    seen and added once more. *)
Lemma applyGiftLogic_two_gifts_left :
  (rulesOfOutcome (p_admin eligibleStrayGift) = Some giftRuleV1 /\
   eligible giftRuleV1 {| lines_edges := Some (p_lines eligibleStrayGift) |} /\
   fst (fst (run applyC1 platform eligibleStrayGift))
     = Resolved {| applied := true; removed := None;
                   reason := "Gift applied successfully" |} /\
   giftVariants (snd (run applyC1 platform eligibleStrayGift))
     = [ Some "V2"; Some "V1" ])
  /\
  (rulesOfOutcome (p_admin eligibleGiftLast) = Some giftRuleV1 /\
   eligible giftRuleV1 {| lines_edges := Some (p_lines eligibleGiftLast) |} /\
   lines_have_ids (p_lines eligibleGiftLast) /\
   List.length (p_lines eligibleGiftLast) = 251%nat /\
   fst (fst (run applyC1 platform eligibleGiftLast))
     = Resolved {| applied := true; removed := None;
                   reason := "Gift applied successfully" |} /\
   giftVariants (snd (run applyC1 platform eligibleGiftLast))
     = [ Some "V1"; Some "V1" ]).
Proof.
  split.
  - repeat split.
  - split; [reflexivity|]. split; [vm_compute; reflexivity|].
    split; [apply lines_have_idsb_sound; vm_compute; reflexivity|].
    split; [vm_compute; reflexivity|].
    split; vm_compute; reflexivity.
Qed.

(** C2, as stated, fails on carts below the minimum, with the rule V1 from
    50 on.  A gift line without an id is not removed: nothing is issued,
    the result has no [removed] flag and the gift line stays; and so it is
    for the gift that is line 251 of a cart whose lines have distinct
    ids. *)
Lemma applyGiftLogic_gift_stays_below_minimum :
  (rulesOfOutcome (p_admin belowGiftWithoutId) = Some giftRuleV1 /\
   nlt (calculateSubtotalWithoutGifts (Some (p_lines belowGiftWithoutId)))
       (minCartSubtotal giftRuleV1) = true /\
   giftVariants belowGiftWithoutId = [ Some "V1" ] /\
   fst (run applyC1 platform belowGiftWithoutId)
     = (Resolved {| applied := false; removed := None;
                    reason := "Cart subtotal (40) is less than minimum required (50)" |},
        [ Ev GetAppGiftRulesMetafields ruleV1;
          Ev (GetCart "gid://shopify/Cart/c1")
             (Resolved {| q_cart := Some {| lines_edges :=
                                              Some (p_lines belowGiftWithoutId) |};
                          q_errors := None |}) ]) /\
   giftVariants (snd (run applyC1 platform belowGiftWithoutId)) = [ Some "V1" ])
  /\
  (rulesOfOutcome (p_admin belowGiftLast) = Some giftRuleV1 /\
   nlt (calculateSubtotalWithoutGifts (Some (p_lines belowGiftLast)))
       (minCartSubtotal giftRuleV1) = true /\
   lines_have_ids (p_lines belowGiftLast) /\
   giftVariants belowGiftLast = [ Some "V1" ] /\
   fst (fst (run applyC1 platform belowGiftLast))
     = Resolved {| applied := false; removed := None;
                   reason := "Cart subtotal (25) is less than minimum required (50)" |} /\
   mutations (snd (fst (run applyC1 platform belowGiftLast))) = [] /\
   giftVariants (snd (run applyC1 platform belowGiftLast)) = [ Some "V1" ]).
Proof.
  split.
  - repeat split.
  - split; [reflexivity|]. split; [vm_compute; reflexivity|].
    split; [apply lines_have_idsb_sound; vm_compute; reflexivity|].
    split; [vm_compute; reflexivity|].
    split; [vm_compute; reflexivity|].
    split; vm_compute; reflexivity.
Qed.

(** C3, as stated, fails: on an eligible cart of 250 paid lines with
    distinct ids, with the rule V1 from 50 on, the first run adds the gift
    and leaves the state reconciliation aims at, a cart of 251 lines; the
    second run does not see the gift line, adds the gift again and answers
    [applied: true]. *)
Lemma applyGiftLogic_second_run_adds_again :
  rulesOfOutcome (p_admin fullCart) = Some giftRuleV1 /\
  lines_have_ids (p_lines fullCart) /\
  fst (fst (run applyC1 platform fullCart))
    = Resolved {| applied := true; removed := None;
                  reason := "Gift applied successfully" |} /\
  correct_state giftRuleV1 (p_lines fullCartOnce) /\
  List.length (p_lines fullCartOnce) = 251%nat /\
  fst (fst (run applyC1 platform fullCartOnce))
    = Resolved {| applied := true; removed := None;
                  reason := "Gift applied successfully" |} /\
  mutations (snd (fst (run applyC1 platform fullCartOnce)))
    = [ MAdd "gid://shopify/Cart/c1"
          [ {| in_quantity := 1; in_merchandiseId := "V1";
               in_attributes := [ ("_is_gift", "true") ] |} ] ] /\
  giftVariants (snd (run applyC1 platform fullCartOnce)) = [ Some "V1"; Some "V1" ].
Proof.
  split; [reflexivity|].
  split; [apply lines_have_idsb_sound; vm_compute; reflexivity|].
  split; [vm_compute; reflexivity|].
  split.
  { unfold correct_state.
    replace (nlt (calculateSubtotalWithoutGifts (Some (p_lines fullCartOnce)))
                 (minCartSubtotal giftRuleV1)) with false
      by (vm_compute; reflexivity).
    exists {| id := Some "new-line-0"; quantity := Some 1;
              cost_totalAmount_amount := Some "0.0";
              merchandise_id := Some "V1";
              attributes := Some [ {| key := Some "_is_gift";
                                      value := Some "true" |} ] |}.
    split; [vm_compute; reflexivity|]. split; reflexivity. }
  split; [vm_compute; reflexivity|].
  split; [vm_compute; reflexivity|].
  split; vm_compute; reflexivity.
Qed.


End EdgeRuns.
